(** * Online quiz maker: scoring, attempt recording, statistics and leaderboard

    A shallow embedding of the quiz-taking logic of the application:

    - [TakeQuiz.handleSubmitQuiz] (the TakeQuiz component in
      src/pages/Quiz/EditQuiz.tsx): scoring a submission, inserting the
      attempt row and calling the statistics procedure;
    - [QuizResults.fetchResults] (the QuizResults component of the same
      file): reading an attempt back by its id;
    - the stored procedure [update_quiz_stats] (migration
      20250629051205_bold_smoke.sql);
    - the stored procedure [get_user_leaderboard] (leaderboard migration);
    - the table shapes, constraints and row-level-security policies of the
      schema migration, as far as these operations meet them.

    JavaScript numbers are IEEE-754 binary64 values; they are modelled with
    the Standard Library's [spec_float] at precision 53 and maximal exponent
    1024, whose operations are ordinary functions on [Z].  SQL tables are
    lists of rows and nullable columns are [option]s.  An [integer] column
    holds 32-bit integers, and arithmetic that leaves their range raises an
    error; a [numeric] average is the decimal fraction that PostgreSQL's
    division gives, kept as the rational it denotes. *)

From Stdlib Require Import ZArith QArith Qabs Lia Floats.SpecFloat Permutation Sorted.
From stdpp Require Import gmap strings list pretty.

Local Open Scope Z_scope.

(** ** JavaScript numbers *)

Module JS.

Definition number : Type := spec_float.

Definition prec : Z := 53.
Definition emax : Z := 1024.

Definition NaN : number := S754_nan.

(** The number denoting an integer literal or an integer-valued property
    such as [Array.prototype.length]. *)
Definition of_Z (z : Z) : number := binary_normalize prec emax z 0 false.

(** The operators [/] and [*] on numbers. *)
Definition div (x y : number) : number := SFdiv prec emax x y.
Definition mul (x y : number) : number := SFmul prec emax x y.

(** [Math.round(x)]: the integer nearest to [x], ties going towards
    +infinity; NaN, the infinities and the zeros are returned unchanged, and
    a negative [x] that rounds to zero gives -0.  For a finite
    [x = m * 2^e] the integer is [floor (x + 1/2)], computed exactly. *)
Definition round_Z (s : bool) (m : positive) (e : Z) : Z :=
  let v := if s then Z.neg m else Z.pos m in
  if 0 <=? e then v * 2 ^ e
  else (v + 2 ^ (- e - 1)) / 2 ^ (- e).

Definition Math_round (x : number) : number :=
  match x with
  | S754_finite s m e =>
      let r := round_Z s m e in
      if r =? 0 then S754_zero s else of_Z r
  | _ => x
  end.

(** The integer a number denotes, when it denotes one. *)
Definition to_Z (x : number) : option Z :=
  match x with
  | S754_zero _ => Some 0
  | S754_finite s m e =>
      let v := if s then Z.neg m else Z.pos m in
      if 0 <=? e then Some (v * 2 ^ e)
      else if v mod 2 ^ (- e) =? 0 then Some (v / 2 ^ (- e)) else None
  | _ => None
  end.

(** Two numbers are the same datum (sign, mantissa and exponent); unlike
    [===] this tells +0 from -0 and holds of NaN. *)
Definition same (x y : number) : bool :=
  match x, y with
  | S754_zero s, S754_zero s' => Bool.eqb s s'
  | S754_infinity s, S754_infinity s' => Bool.eqb s s'
  | S754_nan, S754_nan => true
  | S754_finite s m e, S754_finite s' m' e' => Bool.eqb s s' && (m =? m')%positive && (e =? e')
  | _, _ => false
  end.

End JS.

(** ** Rows of the schema *)

Definition uuid : Type := string.

(** Timestamps ([timestamptz]) are seconds since 1970-01-01T00:00:00Z. *)
Definition timestamptz : Type := Z.

(** The [Question] interface of the TakeQuiz and QuizResults components,
    which is also the row of table [questions] as [select('*')] returns
    it. *)
Module Question.
Record t : Type := mk {
  id : uuid;
  quiz_id : uuid;
  question_text : string;
  options : list string;
  correct_answer : Z;
  explanation : option string;
  order_index : Z
}.
End Question.

(** [answers : Record<string, number>]: chosen option index per question
    id. *)
Abbreviation Answers := (gmap string Z).

(** ** The scoring step of [handleSubmitQuiz] *)

Module Scoring.

(** [answers[question.id] === question.correct_answer].  A missing entry
    reads as [undefined], which is strictly equal to no number. *)
Definition is_correct (answers : Answers) (question : Question.t) : bool :=
  bool_decide (answers !! Question.id question = Some (Question.correct_answer question)).

(** [let correctAnswers = 0; questions.forEach(question => { if (...)
    correctAnswers++; })].  The counter stays far below 2^53, so the
    increments are exact and it is kept as an integer. *)
Definition correctAnswers (questions : list Question.t) (answers : Answers) : Z :=
  fold_left (fun acc question => if is_correct answers question then acc + 1 else acc)
            questions 0.

(** [Math.round((correctAnswers / questions.length) * 100)]. *)
Definition percent (correct len : Z) : JS.number :=
  JS.Math_round (JS.mul (JS.div (JS.of_Z correct) (JS.of_Z len)) (JS.of_Z 100)).

Definition score (questions : list Question.t) (answers : Answers) : JS.number :=
  percent (correctAnswers questions answers) (Z.of_nat (length questions)).

(** The rule of the specification: [100 * correct / len] rounded to the
    nearest integer, halves going up, over exact rationals. *)
Definition round_half_up (num den : Z) : Z := (2 * num + den) / (2 * den).

Definition spec_percent (correct len : Z) : Z := round_half_up (100 * correct) len.

(** The code and the rule give the same percentage for every quiz length
    from 1 to [n] and every number of correct answers. *)
Definition agree_upto (n : nat) : bool :=
  forallb (fun len =>
             forallb (fun c => JS.same (percent (Z.of_nat c) (Z.of_nat len))
                                       (JS.of_Z (spec_percent (Z.of_nat c) (Z.of_nat len))))
                     (seq 0 (S len)))
          (seq 1 n).

End Scoring.


(** ** Tables *)

Module Profile.
Record t : Type := mk {
  id : uuid;
  email : string;
  full_name : string;
  avatar_url : option string;
  created_at : option timestamptz;
  updated_at : option timestamptz
}.
End Profile.

(** Table [quizzes].  Columns declared without NOT NULL are nullable. *)
Module Quiz.
Record t : Type := mk {
  id : uuid;
  title : string;
  description : string;
  category : string;
  is_published : option bool;
  created_by : uuid;
  created_at : option timestamptz;
  updated_at : option timestamptz;
  total_questions : option Z;
  total_attempts : option Z;
  average_score : option Q
}.
End Quiz.

(** Table [quiz_attempts]. *)
Module Attempt.
Record t : Type := mk {
  id : uuid;
  quiz_id : uuid;
  user_id : uuid;
  score : Z;
  total_questions : Z;
  time_taken : Z;
  answers : Answers;
  completed_at : option timestamptz;
  created_at : option timestamptz
}.
End Attempt.

Record DB : Type := mkDB {
  profiles : list Profile.t;
  quizzes : list Quiz.t;
  questions : list Question.t;
  quiz_attempts : list Attempt.t
}.

Inductive PgError : Type :=
| NetworkError
| NotNullViolation
| InvalidInteger
| NumericValueOutOfRange                         (* 22003, integer out of range *)
| RlsViolation
| UniqueViolation
| ForeignKeyViolation
| NotSingleRow.

(** The range of an [integer] column or parameter. *)
Definition int4_min : Z := - 2 ^ 31.
Definition int4_max : Z := 2 ^ 31 - 1.

Definition is_int4 (z : Z) : bool := (int4_min <=? z) && (z <=? int4_max).

(** ** Division of [numeric] values

    [AVG] over an [integer] column keeps the sum and the count as 64-bit
    integers and ends with PostgreSQL's [numeric_div] of the two: the scale
    of the quotient is chosen by [select_div_scale], so that the quotient
    has at least 16 significant digits, and the last digit is rounded, a
    half going away from zero. *)

Module Numeric.

Definition NBASE : Z := 10000.
Definition DEC_DIGITS : Z := 4.
Definition NUMERIC_MIN_SIG_DIGITS : Z := 16.
Definition NUMERIC_MAX_DISPLAY_SCALE : Z := 1000.

(** Weight and first digit of a non-negative integer written in base
    [NBASE]: the number of its digits less one and its leading digit; zero
    has weight 0 and first digit 0. *)
Fixpoint first_digit (fuel : nat) (x : Z) : Z * Z :=
  match fuel with
  | O => (0, x)
  | S fuel' =>
      if x <? NBASE then (0, x)
      else let wd := first_digit fuel' (x / NBASE) in (fst wd + 1, snd wd)
  end.

Definition weight_digit (x : Z) : Z * Z :=
  first_digit (Z.to_nat (Z.log2 (Z.abs x))) (Z.abs x).

(** [select_div_scale] for two integers, whose display scales are 0. *)
Definition select_div_scale (var1 var2 : Z) : Z :=
  let wd1 := weight_digit var1 in
  let wd2 := weight_digit var2 in
  let qweight := fst wd1 - fst wd2 - (if snd wd1 <=? snd wd2 then 1 else 0) in
  Z.min (Z.max (NUMERIC_MIN_SIG_DIGITS - qweight * DEC_DIGITS) 0) NUMERIC_MAX_DISPLAY_SCALE.

(** The quotient of [var1] by a positive [var2] with [rscale] digits after
    the decimal point, as a number of units of [10 ^ - rscale]. *)
Definition div_digits (var1 var2 rscale : Z) : Z :=
  Z.sgn var1 * ((2 * (Z.abs var1 * 10 ^ rscale) + var2) / (2 * var2)).

(** [numeric_div] of two integers: the value of the decimal fraction. *)
Definition numeric_div (var1 var2 : Z) : Q :=
  let rscale := select_div_scale var1 var2 in
  Qred (Qmake (div_digits var1 var2 rscale) (Z.to_pos (10 ^ rscale))).

(** What rounding to [scale] decimal places means: [r] is a whole number
    of units of [10 ^ - scale] and lies within half a unit of [x]; when it
    lies just half a unit away, it is the one of the two neighbours that is
    further from zero. *)
Definition rounded (scale : Z) (x r : Q) : Prop :=
  (exists n : Z, r == n # Z.to_pos (10 ^ scale))%Q
  /\ (Qabs (r - x) <= 1 # (2 * Z.to_pos (10 ^ scale)))%Q
  /\ (Qabs (r - x) == 1 # (2 * Z.to_pos (10 ^ scale)) -> Qabs x < Qabs r)%Q.

End Numeric.

(** ** SQL helpers *)

Module Sql.

Definition SUM (l : list Z) : Z := fold_right Z.add 0 l.

Definition COUNT {A : Type} (l : list A) : Z := Z.of_nat (length l).

(** [AVG] over an integer column: NULL over no rows, otherwise the
    [numeric] quotient of sum and count. *)
Definition AVG (l : list Z) : option Q :=
  match l with
  | [] => None
  | _ :: _ => Some (Numeric.numeric_div (SUM l) (COUNT l))
  end.

(** [ORDER BY]: a stable insertion sort; [le a b] says that [a] may stand
    before [b]. *)
Fixpoint insert_by {A : Type} (le : A -> A -> bool) (a : A) (l : list A) : list A :=
  match l with
  | [] => [a]
  | b :: l' => if le a b then a :: b :: l' else b :: insert_by le a l'
  end.

Definition sort_by {A : Type} (le : A -> A -> bool) (l : list A) : list A :=
  fold_right (insert_by le) [] l.

(** [x >= y] where [x] is a nullable column, as a WHERE condition: a NULL
    comparison is not true. *)
Definition ge_null (x : option Z) (y : Z) : bool :=
  match x with
  | Some v => y <=? v
  | None => false
  end.

(** [.single()]: exactly one row, otherwise an error. *)
Definition single {A : Type} (rows : list A) : PgError + A :=
  match rows with
  | [r] => inr r
  | _ => inl NotSingleRow
  end.

End Sql.

(** ** Row-level security policies (schema migration) *)

Module Rls.

(** "Anyone can read published quizzes", "Users can read own quizzes". *)
Definition quiz_readable (uid : uuid) (q : Quiz.t) : bool :=
  bool_decide (Quiz.is_published q = Some true) || String.eqb (Quiz.created_by q) uid.

(** "Anyone can read questions for published quizzes", "Users can read
    questions for own quizzes". *)
Definition question_readable (db : DB) (uid : uuid) (qn : Question.t) : bool :=
  existsb (fun q => String.eqb (Quiz.id q) (Question.quiz_id qn)
                    && bool_decide (Quiz.is_published q = Some true)) (quizzes db)
  || existsb (fun q => String.eqb (Quiz.id q) (Question.quiz_id qn)
                       && String.eqb (Quiz.created_by q) uid) (quizzes db).

(** "Users can read own quiz attempts", "Quiz creators can read attempts
    for their quizzes". *)
Definition attempt_readable (db : DB) (uid : uuid) (a : Attempt.t) : bool :=
  String.eqb (Attempt.user_id a) uid
  || existsb (fun q => String.eqb (Quiz.id q) (Attempt.quiz_id a)
                       && String.eqb (Quiz.created_by q) uid) (quizzes db).

(** "Users can create quiz attempts": WITH CHECK (user_id = auth.uid()). *)
Definition attempt_insertable (uid : uuid) (user_id : uuid) : bool :=
  String.eqb user_id uid.

End Rls.

(** ** The stored procedure [update_quiz_stats] *)

(** The sub-query [SELECT score FROM quiz_attempts WHERE
    quiz_attempts.quiz_id = update_quiz_stats.quiz_id]. *)
Definition scores_of_quiz (quiz_id : uuid) (db : DB) : list Z :=
  map Attempt.score
      (List.filter (fun qa => String.eqb (Attempt.quiz_id qa) quiz_id) (quiz_attempts db)).

(** The values of the SET clause for one row, together with the trigger
    [update_quizzes_updated_at], which stamps an updated row with the
    current time.  Whether [total_attempts + 1] is still an [integer] is
    for the statement to check, see [can_count]. *)
Definition set_stats (now : timestamptz) (avg : option Q) (q : Quiz.t) : Quiz.t :=
  Quiz.mk (Quiz.id q) (Quiz.title q) (Quiz.description q) (Quiz.category q)
          (Quiz.is_published q) (Quiz.created_by q) (Quiz.created_at q)
          (Some now) (Quiz.total_questions q)
          ((fun n => n + 1) <$> Quiz.total_attempts q)
          avg.

(** [total_attempts + 1] stays inside the range of the [integer] column;
    NULL + 1 is NULL. *)
Definition can_count (q : Quiz.t) : bool :=
  match Quiz.total_attempts q with
  | Some n => is_int4 (n + 1)
  | None => true
  end.

(** Every row [WHERE id = quiz_id] can be counted up. *)
Definition countable (quiz_id : uuid) (db : DB) : bool :=
  forallb can_count (List.filter (fun q => String.eqb (Quiz.id q) quiz_id) (quizzes db)).

(** A call of the procedure, whose body is [UPDATE quizzes SET
    total_attempts = total_attempts + 1, average_score = (SELECT
    AVG(score)::numeric FROM quiz_attempts WHERE quiz_attempts.quiz_id =
    update_quiz_stats.quiz_id) WHERE id = quiz_id].  The parameter
    [new_score] may be NULL, the procedure not being STRICT.  When the
    addition leaves the range of [integer] the statement raises "integer
    out of range" and no row is changed. *)
Definition call_update_quiz_stats (now : timestamptz) (quiz_id : uuid)
    (new_score : option Z) (db : DB) : PgError + DB :=
  if countable quiz_id db
  then inr (mkDB (profiles db)
                 (map (fun q =>
                         if String.eqb (Quiz.id q) quiz_id
                         then set_stats now (Sql.AVG (scores_of_quiz quiz_id db)) q
                         else q)
                      (quizzes db))
                 (questions db)
                 (quiz_attempts db))
  else inl NumericValueOutOfRange.

(** The store that a call of the procedure with an integer score leaves:
    the one of the UPDATE, or the old one when the statement raises. *)
Definition update_quiz_stats (now : timestamptz) (quiz_id : uuid) (new_score : Z)
    (db : DB) : DB :=
  match call_update_quiz_stats now quiz_id (Some new_score) db with
  | inr db' => db'
  | inl _ => db
  end.

(** The row of [quizzes] with a given id, as [.eq('id', ...)] finds it. *)
Definition quiz_row (quiz_id : uuid) (db : DB) : option Quiz.t :=
  List.find (fun q => String.eqb (Quiz.id q) quiz_id) (quizzes db).

(** One attempt row is inserted and the procedure is called with its
    score, at time [fst step]. *)
Definition record_attempt_row (step : timestamptz * Attempt.t) (db : DB) : DB :=
  update_quiz_stats (fst step) (Attempt.quiz_id (snd step)) (Attempt.score (snd step))
    (mkDB (profiles db) (quizzes db) (questions db) (quiz_attempts db ++ [snd step])).

Definition record_all (steps : list (timestamptz * Attempt.t)) (db : DB) : DB :=
  fold_left (fun db step => record_attempt_row step db) steps db.

(** ** Inserting into [quiz_attempts] *)

(** What the store and the network contribute to one submission. *)
Record Env : Type := mkEnv {
  now : timestamptz;               (* NOW() at the time of the request *)
  gen_random_uuid : uuid;          (* default of column id *)
  insert_reachable : bool;         (* the insert request reaches the store *)
  rpc_reachable : bool             (* the rpc request reaches the store *)
}.

(** The object given to [.insert(...)]. *)
Record AttemptInsert : Type := mkAttemptInsert {
  ins_quiz_id : uuid;
  ins_user_id : uuid;
  ins_score : JS.number;
  ins_total_questions : Z;
  ins_time_taken : Z;
  ins_answers : Answers
}.

(** A number sent as JSON and read as an [integer]: NaN and the infinities
    are serialised as [null]; other values have to be integers of the
    type's range. *)
Definition json_int4 (x : JS.number) : PgError + option Z :=
  match x with
  | S754_nan | S754_infinity _ => inr None
  | _ =>
      match JS.to_Z x with
      | Some z => if is_int4 z then inr (Some z) else inl InvalidInteger
      | None => inl InvalidInteger
      end
  end.

(** The same into an [integer NOT NULL] column. *)
Definition to_int4 (x : JS.number) : PgError + Z :=
  match json_int4 x with
  | inl e => inl e
  | inr None => inl NotNullViolation
  | inr (Some z) => inr z
  end.

(** [supabase.from('quiz_attempts').insert({...}).select().single()] as the
    user [auth_uid]: the row gets the defaults of [id], [completed_at] and
    [created_at].  The values are read from the JSON body, then the insert
    policy is checked, then the NOT NULL constraint on [score], the primary
    key and, at the end of the statement, the foreign keys to [quizzes] and
    [profiles].  On an error nothing is written. *)
Definition insert_quiz_attempt (env : Env) (auth_uid : uuid) (v : AttemptInsert)
    (db : DB) : PgError + (DB * Attempt.t) :=
  if negb (insert_reachable env) then inl NetworkError
  else
    match json_int4 (ins_score v) with
    | inl e => inl e
    | inr score =>
        if negb (Rls.attempt_insertable auth_uid (ins_user_id v)) then inl RlsViolation
        else
          match score with
          | None => inl NotNullViolation
          | Some z =>
              if existsb (fun qa => String.eqb (Attempt.id qa) (gen_random_uuid env))
                         (quiz_attempts db) then inl UniqueViolation
              else if negb (existsb (fun q => String.eqb (Quiz.id q) (ins_quiz_id v))
                                    (quizzes db))
                   then inl ForeignKeyViolation
              else if negb (existsb (fun p => String.eqb (Profile.id p) (ins_user_id v))
                                    (profiles db))
                   then inl ForeignKeyViolation
              else
                let row := Attempt.mk (gen_random_uuid env) (ins_quiz_id v) (ins_user_id v) z
                                      (ins_total_questions v) (ins_time_taken v)
                                      (ins_answers v) (Some (now env)) (Some (now env)) in
                inr (mkDB (profiles db) (quizzes db) (questions db)
                          (quiz_attempts db ++ [row]),
                     row)
          end
    end.

(** [supabase.rpc('update_quiz_stats', { quiz_id, new_score })]: [new_score]
    is read from the JSON body as the [integer] parameter; the procedure
    runs in one transaction, so a failed call leaves the store as it
    was. *)
Definition rpc_update_quiz_stats (env : Env) (quiz_id : uuid) (new_score : JS.number)
    (db : DB) : DB * option PgError :=
  if negb (rpc_reachable env) then (db, Some NetworkError)
  else
    match json_int4 new_score with
    | inl e => (db, Some e)
    | inr new_score' =>
        match call_update_quiz_stats (now env) quiz_id new_score' db with
        | inl e => (db, Some e)
        | inr db' => (db', None)
        end
    end.

(** ** The TakeQuiz component *)

Inductive Route : Type :=
| QuizzesRoute                                   (* /quizzes *)
| ResultsRoute (quizId attemptId : uuid).        (* /quiz/:quizId/results/:attemptId *)

Inductive Effect : Type :=
| SetSubmitting (b : bool)
| SetLoading (b : bool)
| ToastError (msg : string)
| ToastSuccess (msg : string)
| ConsoleWarn (msg : string) (e : PgError)
| ConsoleError (msg : string) (e : PgError)
| Navigate (r : Route).

Module TakeQuiz.

(** The signed-in user of [useAuth()]; requests run with [auth.uid() =
    user.id]. *)
Record User : Type := mkUser { user_id : uuid }.

(** The component's [Quiz] interface. *)
Record Quiz : Type := mkQuiz {
  id : uuid;
  title : string;
  description : string;
  category : string;
  total_questions : Z;
  time_limit : option Z;
  created_by : uuid;
  creator_name : option string
}.

Record State : Type := mkState {
  user : option User;
  quiz : option Quiz;
  questions : list Question.t;
  answers : Answers;
  timeLeft : option Z;
  loading : bool;
  quizStarted : bool
}.

(** [quiz.time_limit ? (quiz.time_limit * 60) - (timeLeft || 0) : 0]. *)
Definition timeTaken (q : Quiz) (timeLeft : option Z) : Z :=
  match time_limit q with
  | Some l => if l =? 0 then 0 else l * 60 - default 0 timeLeft
  | None => 0
  end.

(** The object that is inserted: [{ quiz_id: quiz.id, user_id: user.id,
    score, total_questions: questions.length, time_taken: timeTaken, answers
    }]. *)
Definition new_attempt (u : User) (q : Quiz) (st : State) : AttemptInsert :=
  mkAttemptInsert (id q) (user_id u) (Scoring.score (questions st) (answers st))
                  (Z.of_nat (length (questions st)))
                  (timeTaken q (timeLeft st)) (answers st).

(** [handleSubmitQuiz]: the new store and the effects in the order they
    happen. *)
Definition handleSubmitQuiz (env : Env) (st : State) (db : DB) : DB * list Effect :=
  match user st, quiz st with
  | Some u, Some q =>
      let score := Scoring.score (questions st) (answers st) in
      match insert_quiz_attempt env (user_id u) (new_attempt u q st) db with
      | inl error =>
          (db, [SetSubmitting true;
                ToastError "Failed to submit quiz";
                ConsoleError "Error:" error;
                SetSubmitting false])
      | inr (db1, attempt) =>
          let '(db2, updateError) := rpc_update_quiz_stats env (id q) score db1 in
          (db2, [SetSubmitting true]
                ++ match updateError with
                   | Some e => [ConsoleWarn "Failed to update quiz stats:" e]
                   | None => []
                   end
                ++ [ToastSuccess "Quiz submitted successfully!";
                    Navigate (ResultsRoute (id q) (Attempt.id attempt));
                    SetSubmitting false])
      end
  | _, _ => (db, [ToastError "You must be logged in to submit a quiz"])
  end.

(** What the component renders: the early returns before the question
    screen. *)
Inductive View : Type :=
| LoadingView
| QuizNotFoundView
| StartView
| QuestionView.

Definition render (st : State) : View :=
  if loading st then LoadingView
  else if negb (bool_decide (is_Some (quiz st))) || (length (questions st) =? 0)%nat
       then QuizNotFoundView
  else if negb (quizStarted st) then StartView
  else QuestionView.

End TakeQuiz.

(** ** The QuizResults component *)

Module QuizResults.

(** The embedded resource [quiz:quizzes (id, title, description,
    category)]. *)
Record QuizInfo : Type := mkQuizInfo {
  id : uuid;
  title : string;
  description : string;
  category : string
}.

(** The [QuizAttempt] interface: the attempt row and its quiz. *)
Record QuizAttempt : Type := mkQuizAttempt {
  row : Attempt.t;
  quiz : option QuizInfo
}.

(** [select(...).eq('id', attemptId).single()] on [quiz_attempts] as user
    [auth_uid]. *)
Definition select_attempt (auth_uid : uuid) (attemptId : uuid) (db : DB)
    : PgError + QuizAttempt :=
  match Sql.single
          (List.filter (fun a => Rls.attempt_readable db auth_uid a
                                 && String.eqb (Attempt.id a) attemptId)
                       (quiz_attempts db)) with
  | inl e => inl e
  | inr a =>
      inr (mkQuizAttempt a
             (head (map (fun q => mkQuizInfo (Quiz.id q) (Quiz.title q)
                                             (Quiz.description q) (Quiz.category q))
                        (List.filter (fun q => Rls.quiz_readable auth_uid q
                                               && String.eqb (Quiz.id q) (Attempt.quiz_id a))
                                     (quizzes db)))))
  end.

(** [select('*').eq('quiz_id', quizId).order('order_index')] on
    [questions]. *)
Definition select_questions (auth_uid : uuid) (quizId : uuid) (db : DB) : list Question.t :=
  Sql.sort_by (fun a b => Question.order_index a <=? Question.order_index b)
    (List.filter (fun qn => Rls.question_readable db auth_uid qn
                            && String.eqb (Question.quiz_id qn) quizId)
                 (questions db)).

(** [fetchResults]: the state [(attempt, questions)] it sets, or the
    effects of its catch branch.  The two flags say whether each request
    reaches the store. *)
Definition fetchResults (attempt_reachable questions_reachable : bool)
    (auth_uid quizId attemptId : uuid) (db : DB)
    : option (QuizAttempt * list Question.t) * list Effect :=
  let failed := (None, [ToastError "Failed to load results"; Navigate QuizzesRoute;
                        SetLoading false]) in
  if negb attempt_reachable then failed
  else
    match select_attempt auth_uid attemptId db with
    | inl _ => failed
    | inr attemptData =>
        if negb questions_reachable then failed
        else (Some (attemptData, select_questions auth_uid quizId db), [SetLoading false])
    end.

End QuizResults.

(** ** The normal flow on the store

    The operations of the application that write where attempts and
    statistics live: a submission, and a call of the statistics
    procedure. *)

Inductive Op : Type :=
| Submit (env : Env) (st : TakeQuiz.State)
| UpdateStats (now : timestamptz) (quiz_id : uuid) (new_score : Z).

Definition run_op (op : Op) (db : DB) : DB :=
  match op with
  | Submit env st => fst (TakeQuiz.handleSubmitQuiz env st db)
  | UpdateStats now quiz_id new_score => update_quiz_stats now quiz_id new_score db
  end.

Definition run_ops (ops : list Op) (db : DB) : DB :=
  fold_left (fun db op => run_op op db) ops db.

(** The attempt rows with a given id. *)
Definition attempts_with_id (attemptId : uuid) (db : DB) : list Attempt.t :=
  List.filter (fun a => String.eqb (Attempt.id a) attemptId) (quiz_attempts db).

(** ** Calendar truncation

    PostgreSQL's [date_trunc] in a UTC session.  The day number counts days
    since 1970-01-01, a Thursday; the day of the month comes from the civil
    calendar computed from the day number (eras of 400 years, years starting
    on March 1). *)

Module Calendar.

Definition day : Z := 86400.

Definition day_number (ts : timestamptz) : Z := ts / day.

(** Day of the month, 1 to 31. *)
Definition day_of_month (d : Z) : Z :=
  let z := d + 719468 in
  let doe := z mod 146097 in
  let yoe := (doe - doe / 1460 + doe / 36524 - doe / 146096) / 365 in
  let doy := doe - (365 * yoe + yoe / 4 - yoe / 100) in
  let mp := (5 * doy + 2) / 153 in
  doy - (153 * mp + 2) / 5 + 1.

(** Year and month (1 to 12) of the same conversion. *)
Definition year_month (d : Z) : Z * Z :=
  let z := d + 719468 in
  let era := z / 146097 in
  let doe := z mod 146097 in
  let yoe := (doe - doe / 1460 + doe / 36524 - doe / 146096) / 365 in
  let doy := doe - (365 * yoe + yoe / 4 - yoe / 100) in
  let mp := (5 * doy + 2) / 153 in
  let m := if mp <? 10 then mp + 3 else mp - 9 in
  (yoe + era * 400 + (if m <=? 2 then 1 else 0), m).

(** Day of the week, Monday = 0. *)
Definition weekday (d : Z) : Z := (d + 3) mod 7.

(** [date_trunc('month', ts)] and [date_trunc('week', ts)]. *)
Definition date_trunc_month (ts : timestamptz) : timestamptz :=
  (day_number ts - (day_of_month (day_number ts) - 1)) * day.

Definition date_trunc_week (ts : timestamptz) : timestamptz :=
  (day_number ts - weekday (day_number ts)) * day.

(** [check] holds of 0, 1, ..., n - 1. *)
Definition all_below (n : positive) (check : Z -> bool) : bool :=
  snd (Pos.iter (fun st => (fst st + 1, snd st && check (fst st))) (0, true) n).

End Calendar.

(** ** The civil calendar

    The calendar by its rules, independently of the truncation above, to
    say which instants are the start of a month and the start of a week:
    months of 28 to 31 days, a leap year every fourth year except the
    centuries not divisible by 400, and weeks that start on Monday, 5
    January 1970 being a Monday. *)

Module Civil.

Definition is_leap (y : Z) : bool :=
  (y mod 4 =? 0) && (negb (y mod 100 =? 0) || (y mod 400 =? 0)).

Definition days_in_month (y m : Z) : Z :=
  if m =? 2 then (if is_leap y then 29 else 28)
  else if (m =? 4) || (m =? 6) || (m =? 9) || (m =? 11) then 30
  else 31.

(** The number of leap years among the years 1 to [y - 1]. *)
Definition leap_years_before (y : Z) : Z := (y - 1) / 4 - (y - 1) / 100 + (y - 1) / 400.

(** Days from 1 January 1970 to 1 January of year [y]. *)
Definition days_before_year (y : Z) : Z :=
  365 * (y - 1970) + (leap_years_before y - leap_years_before 1970).

(** Days from 1 January of year [y] to the first of its month [m]. *)
Definition days_before_month (y m : Z) : Z :=
  fold_right Z.add 0 (map (fun i => days_in_month y (Z.of_nat i)) (seq 1 (Z.to_nat (m - 1)))).

(** The day number of the first day of month [m] of year [y]. *)
Definition first_day (y m : Z) : Z := days_before_year y + days_before_month y m.

(** Midnight (UTC) at the start of month [m] of year [y], and of the
    following month. *)
Definition month_start (y m : Z) : timestamptz := first_day y m * 86400.

Definition next_month_start (y m : Z) : timestamptz :=
  if m =? 12 then month_start (y + 1) 1 else month_start y (m + 1).

(** Midnight (UTC) at the start of the [k]-th Monday after Monday, 5 January
    1970. *)
Definition week_start (k : Z) : timestamptz := (4 + 7 * k) * 86400.

End Civil.

(** Day [x] of a 400-year era, stepped back by its day of the month, is
    the first day of a month of the civil calendar, and the day lies in
    that month. *)
Definition month_start_is_first (x : Z) : bool :=
  let d := x - 719468 in
  let ym := Calendar.year_month d in
  let start := d - (Calendar.day_of_month d - 1) in
  (1 <=? snd ym) && (snd ym <=? 12)
  && (Civil.first_day (fst ym) (snd ym) =? start)
  && (start <=? d)
  && (if snd ym =? 12 then d <? Civil.first_day (fst ym + 1) 1
      else d <? Civil.first_day (fst ym) (snd ym + 1)).

(** ** The stored procedure [get_user_leaderboard] *)

Module Leaderboard.

(** A row of the CTE [user_scores]. *)
Record UserScore : Type := mkUserScore {
  us_user_id : uuid;
  us_total_score : Z;
  us_quiz_count : Z;
  us_average_score : option Q
}.

(** A row of the result table. *)
Record Entry : Type := mkEntry {
  user_id : uuid;
  full_name : string;
  total_score : Z;
  quiz_count : Z;
  average_score : option Q;
  rank : Z
}.

(** The WHERE clause: [CASE WHEN time_filter = 'month' THEN qa.completed_at
    >= date_trunc('month', NOW()) WHEN time_filter = 'week' THEN
    qa.completed_at >= date_trunc('week', NOW()) ELSE TRUE END]. *)
Definition in_window (time_filter : string) (now : timestamptz) (qa : Attempt.t) : bool :=
  if String.eqb time_filter "month"
  then Sql.ge_null (Attempt.completed_at qa) (Calendar.date_trunc_month now)
  else if String.eqb time_filter "week"
  then Sql.ge_null (Attempt.completed_at qa) (Calendar.date_trunc_week now)
  else true.

Definition windowed (time_filter : string) (now : timestamptz) (db : DB) : list Attempt.t :=
  List.filter (in_window time_filter now) (quiz_attempts db).

(** [SELECT user_id, SUM(score), COUNT(id), AVG(score) ... GROUP BY
    user_id]. *)
Definition user_scores (time_filter : string) (now : timestamptz) (db : DB)
    : list UserScore :=
  let rows := windowed time_filter now db in
  map (fun u =>
         let mine := map Attempt.score
                       (List.filter (fun qa => String.eqb (Attempt.user_id qa) u) rows) in
         mkUserScore u (Sql.SUM mine) (Sql.COUNT mine) (Sql.AVG mine))
      (remove_dups (map Attempt.user_id rows)).

(** [user_scores us JOIN profiles p ON us.user_id = p.id]. *)
Definition joined (time_filter : string) (now : timestamptz) (db : DB)
    : list (UserScore * Profile.t) :=
  flat_map (fun us =>
              map (fun p => (us, p))
                  (List.filter (fun p => String.eqb (us_user_id us) (Profile.id p))
                               (profiles db)))
           (user_scores time_filter now db).

(** [RANK() OVER (ORDER BY total_score DESC)]: the rows are put in
    descending order of [total_score]; the rank of a row is the row number
    of the first row of its peer group, the rows with the same
    [total_score]. *)
Fixpoint first_peer (t : Z) (sorted : list (UserScore * Profile.t)) : nat :=
  match sorted with
  | [] => 0
  | r :: rest => if us_total_score (fst r) =? t then 0 else S (first_peer t rest)
  end.

Definition RANK (sorted : list (UserScore * Profile.t)) (r : UserScore * Profile.t) : Z :=
  Z.of_nat (first_peer (us_total_score (fst r)) sorted) + 1.

Definition ranked (rows : list (UserScore * Profile.t)) : list Entry :=
  let sorted := Sql.sort_by (fun a b => us_total_score (fst b) <=? us_total_score (fst a))
                            rows in
  map (fun r => mkEntry (us_user_id (fst r)) (Profile.full_name (snd r))
                        (us_total_score (fst r)) (us_quiz_count (fst r))
                        (us_average_score (fst r)) (RANK sorted r))
      sorted.

(** The whole query, with its final [ORDER BY rank ASC]. *)
Definition get_user_leaderboard (time_filter : string) (now : timestamptz) (db : DB)
    : list Entry :=
  Sql.sort_by (fun a b => rank a <=? rank b) (ranked (joined time_filter now db)).

(** The store with another content of [quiz_attempts]. *)
Definition with_attempts (db : DB) (rows : list Attempt.t) : DB :=
  mkDB (profiles db) (quizzes db) (questions db) rows.

(** Dense ranking, as the specification words it: equal totals share a
    rank, and the rank of a row is one more than the number of distinct
    greater totals. *)
Definition dense_rank (totals : list Z) (t : Z) : Z :=
  Z.of_nat (length (remove_dups (List.filter (fun t' => t <? t') totals))) + 1.

(** The number of rows with a strictly greater total. *)
Definition count_greater (totals : list Z) (t : Z) : Z :=
  Z.of_nat (length (List.filter (fun t' => t <? t') totals)).

End Leaderboard.

(** ** The specification's time windows

    Written from the specification's words, to be compared with
    [Leaderboard.get_user_leaderboard]: an attempt counts when
    [completed_at >= windowStart], where [None] stands for the window start
    of 'all', minus infinity, which bounds nothing. *)

Module SpecWindow.

Definition counts (windowStart : option timestamptz) (qa : Attempt.t) : bool :=
  match windowStart with
  | None => true
  | Some start =>
      match Attempt.completed_at qa with
      | Some t => start <=? t
      | None => false
      end
  end.

(** The attempts of user [u] that count. *)
Definition attempts_of (windowStart : option timestamptz) (db : DB) (u : uuid)
    : list Attempt.t :=
  List.filter (fun qa => String.eqb (Attempt.user_id qa) u && counts windowStart qa)
              (quiz_attempts db).

End SpecWindow.

(** ** The specification's scoring contract

    Written from the specification's words, to be compared with
    [Scoring.score]: an error on an empty question set, otherwise the
    percentage of correct answers rounded half up. *)

Module SpecScoring.

Inductive Error : Type := InvalidInputError.

Definition score (questions : list Question.t) (answers : Answers) : Error + Z :=
  match questions with
  | [] => inl InvalidInputError
  | _ :: _ =>
      inr (Scoring.spec_percent
             (Z.of_nat (length (List.filter (Scoring.is_correct answers) questions)))
             (Z.of_nat (length questions)))
  end.

(** A number returned by the code meets a result of the contract when the
    contract gives a percentage and the number is that integer. *)
Definition meets (x : JS.number) (r : Error + Z) : Prop :=
  match r with
  | inl _ => False
  | inr z => x = JS.of_Z z
  end.

End SpecScoring.

(** ** Sample data *)

Module Sample.

Definition profile (u name : string) : Profile.t :=
  Profile.mk u (u +:+ "@example.org") name None None None.

Definition the_quiz : Quiz.t :=
  Quiz.mk "quiz-1" "Capitals" "European capitals" "Geography" (Some true) "u1"
          (Some 1750000000) (Some 1750000000) (Some 4) (Some 0) (Some 0%Q).

Definition question (i : nat) (correct : Z) : Question.t :=
  Question.mk ("q" +:+ pretty i) "quiz-1" "?" ["a"; "b"; "c"; "d"] correct None (Z.of_nat i).

(** Four questions with correct answers at indices 0, 1, 2, 3 and a
    submission with the third one wrong. *)
Definition four_questions : list Question.t :=
  [question 1 0; question 2 1; question 3 2; question 4 3].

Definition three_right : Answers :=
  <["q1" := 0]> (<["q2" := 1]> (<["q3" := 9]> (<["q4" := 3]> ∅))).

(** Forty questions whose correct answer is option 0, and a submission that
    picks option 0 for the first twenty-three and leaves the rest out. *)
Definition forty_questions : list Question.t :=
  map (fun i => question i 0) (seq 1 40).

Definition first_23_right : Answers :=
  list_to_map (map (fun i => ("q" +:+ pretty i, 0)) (seq 1 23)).

Definition db : DB :=
  mkDB [profile "u1" "Ann"; profile "u2" "Bob"; profile "u3" "Cy"; profile "u4" "Di"]
       [the_quiz] four_questions [].

Definition env : Env := mkEnv 1751173925 "attempt-1" true true.

Definition client_quiz : TakeQuiz.Quiz :=
  TakeQuiz.mkQuiz "quiz-1" "Capitals" "European capitals" "Geography" 4 None "u1"
                  (Some "Ann").

Definition state : TakeQuiz.State :=
  TakeQuiz.mkState (Some (TakeQuiz.mkUser "u2")) (Some client_quiz) four_questions
                   three_right None false true.

(** A later submission by another user, and a later call of the
    procedure. *)
Definition later_ops : list Op :=
  [Submit (mkEnv 1751180000 "attempt-2" true true)
          (TakeQuiz.mkState (Some (TakeQuiz.mkUser "u3")) (Some client_quiz) four_questions
                            ∅ None false true);
   UpdateStats 1751190000 "quiz-1" 50].

(** The environment of a submission whose rpc request does not reach the
    store. *)
Definition env_rpc_down : Env := mkEnv 1751173925 "attempt-1" true false.

Definition attempt (i u : string) (s : Z) (at_ : timestamptz) : Attempt.t :=
  Attempt.mk i "quiz-1" u s 4 0 ∅ (Some at_) (Some at_).

(** Attempts that give the four users the totals 300, 300, 200 and 100. *)
Definition leaderboard_db : DB :=
  mkDB (profiles db) [the_quiz] four_questions
       [attempt "a1" "u4" 100 1751000000;
        attempt "a2" "u1" 100 1751000001; attempt "a3" "u2" 100 1751000002;
        attempt "a4" "u3" 100 1751000003; attempt "a5" "u1" 100 1751000004;
        attempt "a6" "u1" 100 1751000005; attempt "a7" "u2" 100 1751000006;
        attempt "a8" "u2" 100 1751000007; attempt "a9" "u3" 100 1751000008].

(** An attempt completed 365 days before [now env], next to the recent
    ones. *)
Definition old_attempt : Attempt.t := attempt "a0" "u1" 90 (1751173925 - 365 * 86400).

Definition db_with_old : DB :=
  mkDB (profiles db) [the_quiz] four_questions
       (attempt "a1" "u4" 100 1751000000 :: old_attempt
        :: [attempt "a2" "u1" 100 1751000001]).

(** The sample quiz with its counter at the end of the range of
    [integer]. *)
Definition full_counter_quiz : Quiz.t :=
  Quiz.mk "quiz-1" "Capitals" "European capitals" "Geography" (Some true) "u1"
          (Some 1750000000) (Some 1750000000) (Some 4) (Some 2147483647) (Some 0%Q).

Definition full_counter_db : DB :=
  mkDB (profiles db) [full_counter_quiz] four_questions [].

(** Three submissions to the quiz, scoring 80, 100 and 60. *)
Definition step_80 : timestamptz * Attempt.t := (1751000100, attempt "b1" "u2" 80 1751000100).
Definition step_100 : timestamptz * Attempt.t := (1751000200, attempt "b2" "u3" 100 1751000200).
Definition step_60 : timestamptz * Attempt.t := (1751000300, attempt "b3" "u4" 60 1751000300).

End Sample.

(** ** The TakeQuiz component: loading, answering and moving around *)

Module TakeQuizUI.

(** The state of the component with the index of the shown question,
    [useState(0)]. *)
Record Session : Type := mkSession {
  state : TakeQuiz.State;
  currentQuestionIndex : Z
}.

Definition with_state (s : Session) (st : TakeQuiz.State) : Session :=
  mkSession st (currentQuestionIndex s).

(** [profileData?.full_name || 'Unknown'], where [profileData] is the row
    of [profiles] with [id = quizData.created_by] as the viewer may read it
    ("Users can read own profile": [auth.uid() = id]); a failed request
    leaves [profileData] null. *)
Definition creator_name (profile_reachable : bool) (auth_uid created_by : uuid) (db : DB)
    : string :=
  if negb profile_reachable then "Unknown"
  else
    match Sql.single (List.filter (fun p => String.eqb (Profile.id p) auth_uid
                                            && String.eqb (Profile.id p) created_by)
                                  (profiles db)) with
    | inr p => if String.eqb (Profile.full_name p) "" then "Unknown" else Profile.full_name p
    | inl _ => "Unknown"
    end.

(** [select('*').eq('id', id).eq('is_published', true).single()] on
    [quizzes]. *)
Definition select_published_quiz (auth_uid id : uuid) (db : DB) : PgError + Quiz.t :=
  Sql.single (List.filter (fun q => Rls.quiz_readable auth_uid q
                                    && String.eqb (Quiz.id q) id
                                    && bool_decide (Quiz.is_published q = Some true))
                          (quizzes db)).

(** [fetchQuizData] for the quiz [id] of the route.  Table [quizzes] has no
    column [time_limit], so [quizData.time_limit] is undefined and
    [timeLeft] keeps its value.  A NULL [total_questions] is shown as 0. *)
Definition fetchQuizData (quiz_reachable profile_reachable questions_reachable : bool)
    (auth_uid id : uuid) (st : TakeQuiz.State) (db : DB) : TakeQuiz.State * list Effect :=
  let failed :=
    (TakeQuiz.mkState (TakeQuiz.user st) (TakeQuiz.quiz st) (TakeQuiz.questions st)
                      (TakeQuiz.answers st) (TakeQuiz.timeLeft st) false
                      (TakeQuiz.quizStarted st),
     [ToastError "Failed to load quiz"; Navigate QuizzesRoute; SetLoading false]) in
  if negb quiz_reachable then failed
  else
    match select_published_quiz auth_uid id db with
    | inl _ => failed
    | inr quizData =>
        if negb questions_reachable then failed
        else
          (TakeQuiz.mkState
             (TakeQuiz.user st)
             (Some (TakeQuiz.mkQuiz (Quiz.id quizData) (Quiz.title quizData)
                      (Quiz.description quizData) (Quiz.category quizData)
                      (default 0 (Quiz.total_questions quizData)) None
                      (Quiz.created_by quizData)
                      (Some (creator_name profile_reachable auth_uid
                                          (Quiz.created_by quizData) db))))
             (QuizResults.select_questions auth_uid id db)
             (TakeQuiz.answers st) (TakeQuiz.timeLeft st) false
             (TakeQuiz.quizStarted st),
           [SetLoading false])
    end.

(** The state a freshly mounted component starts from. *)
Definition initial (user : option TakeQuiz.User) : TakeQuiz.State :=
  TakeQuiz.mkState user None [] ∅ None true false.

Definition startQuiz (s : Session) : Session :=
  let st := state s in
  with_state s (TakeQuiz.mkState (TakeQuiz.user st) (TakeQuiz.quiz st) (TakeQuiz.questions st)
                                 (TakeQuiz.answers st) (TakeQuiz.timeLeft st)
                                 (TakeQuiz.loading st) true).

(** [setAnswers(prev => ({ ...prev, [questionId]: answerIndex }))]. *)
Definition handleAnswerSelect (questionId : string) (answerIndex : Z) (s : Session)
    : Session :=
  let st := state s in
  with_state s (TakeQuiz.mkState (TakeQuiz.user st) (TakeQuiz.quiz st) (TakeQuiz.questions st)
                                 (<[questionId := answerIndex]> (TakeQuiz.answers st))
                                 (TakeQuiz.timeLeft st) (TakeQuiz.loading st)
                                 (TakeQuiz.quizStarted st)).

Definition goToNextQuestion (s : Session) : Session :=
  if currentQuestionIndex s <? Z.of_nat (length (TakeQuiz.questions (state s))) - 1
  then mkSession (state s) (currentQuestionIndex s + 1)
  else s.

Definition goToPreviousQuestion (s : Session) : Session :=
  if 0 <? currentQuestionIndex s
  then mkSession (state s) (currentQuestionIndex s - 1)
  else s.

Definition setCurrentQuestionIndex (index : Z) (s : Session) : Session :=
  mkSession (state s) index.

(** [questions[currentQuestionIndex]]; undefined outside the array. *)
Definition currentQuestion (s : Session) : option Question.t :=
  if currentQuestionIndex s <? 0 then None
  else nth_error (TakeQuiz.questions (state s)) (Z.to_nat (currentQuestionIndex s)).

(** [Object.keys(answers).length]. *)
Definition answeredQuestions (s : Session) : nat := size (TakeQuiz.answers (state s)).

(** What the question screen lets the user do: the Previous and Next
    buttons, a button of the question overview (one per index of
    [questions]) and a radio button of the shown question (one per index
    of its options). *)
Inductive Event : Type :=
| Next
| Previous
| Overview (index : nat)
| Choose (optionIndex : nat).

(** The event comes from an element that is on the screen. *)
Definition offered (s : Session) (ev : Event) : bool :=
  match ev with
  | Next | Previous => true
  | Overview index => (index <? length (TakeQuiz.questions (state s)))%nat
  | Choose optionIndex =>
      match currentQuestion s with
      | Some q => (optionIndex <? length (Question.options q))%nat
      | None => false
      end
  end.

Definition handle (ev : Event) (s : Session) : Session :=
  match ev with
  | Next => goToNextQuestion s
  | Previous => goToPreviousQuestion s
  | Overview index => setCurrentQuestionIndex (Z.of_nat index) s
  | Choose optionIndex =>
      match currentQuestion s with
      | Some q => handleAnswerSelect (Question.id q) (Z.of_nat optionIndex) s
      | None => s
      end
  end.

(** A run of events, each one offered by the screen it arrives at; events
    that are not offered do not happen. *)
Fixpoint run (evs : list Event) (s : Session) : Session :=
  match evs with
  | [] => s
  | ev :: evs' => run evs' (if offered s ev then handle ev s else s)
  end.

(** The shown question exists. *)
Definition in_range (s : Session) : Prop :=
  0 <= currentQuestionIndex s < Z.of_nat (length (TakeQuiz.questions (state s))).

(** Every answer belongs to a question of the quiz and names one of its
    options. *)
Definition answers_valid (s : Session) : Prop :=
  forall (k : string) (v : Z),
    TakeQuiz.answers (state s) !! k = Some v ->
    exists q, In q (TakeQuiz.questions (state s))
              /\ Question.id q = k
              /\ 0 <= v < Z.of_nat (length (Question.options q)).

End TakeQuizUI.

(** ** The QuizResults component: what is shown *)

Module ResultsView.

(** [questions.filter(q => attempt.answers[q.id] === q.correct_answer)
    .length]. *)
Definition correctAnswers (attempt : Attempt.t) (questions : list Question.t) : nat :=
  length (List.filter (Scoring.is_correct (Attempt.answers attempt)) questions).

Definition getScoreColor (score : Z) : string :=
  if 80 <=? score then "text-green-600"
  else if 60 <=? score then "text-yellow-600"
  else "text-red-600".

Definition getScoreBadge (score : Z) : string * string :=
  if 90 <=? score then ("Excellent!", "bg-green-100 text-green-800")
  else if 80 <=? score then ("Great Job!", "bg-blue-100 text-blue-800")
  else if 70 <=? score then ("Good Work!", "bg-yellow-100 text-yellow-800")
  else if 60 <=? score then ("Not Bad!", "bg-orange-100 text-orange-800")
  else ("Keep Trying!", "bg-red-100 text-red-800").

(** The early returns of the component. *)
Inductive View : Type :=
| LoadingView
| ResultsNotFoundView
| ResultsPage (attempt : QuizResults.QuizAttempt) (questions : list Question.t).

Definition render (loading : bool)
    (loaded : option (QuizResults.QuizAttempt * list Question.t)) : View :=
  if loading then LoadingView
  else
    match loaded with
    | Some (attempt, q :: qs) => ResultsPage attempt (q :: qs)
    | _ => ResultsNotFoundView
    end.

End ResultsView.

(** ** Writing quizzes and questions under row-level security *)

Module Store.

(** "Users can update own quizzes", "Users can delete own quizzes": USING
    (created_by = auth.uid()). *)
Definition quiz_owned (uid : uuid) (q : Quiz.t) : bool :=
  String.eqb (Quiz.created_by q) uid.

(** The policies on [questions] for INSERT, UPDATE and DELETE: the quiz of
    the question exists and belongs to the user. *)
Definition question_writable (db : DB) (uid : uuid) (quiz_id : uuid) : bool :=
  existsb (fun q => String.eqb (Quiz.id q) quiz_id && String.eqb (Quiz.created_by q) uid)
          (quizzes db).

(** [DELETE FROM questions WHERE quiz_id = ...] as user [uid]: rows the
    policy hides are not deleted, and that is no error. *)
Definition delete_questions (uid quiz_id : uuid) (db : DB) : DB :=
  mkDB (profiles db) (quizzes db)
       (List.filter (fun qn => negb (String.eqb (Question.quiz_id qn) quiz_id
                                     && question_writable db uid (Question.quiz_id qn)))
                    (questions db))
       (quiz_attempts db).

(** [DELETE FROM quiz_attempts WHERE quiz_id = ...] as a user: the table
    has no DELETE policy, so no row is visible to the statement. *)
Definition delete_attempts (uid quiz_id : uuid) (db : DB) : DB := db.

(** [DELETE FROM quizzes WHERE id = ...] as user [uid], with the cascades
    of the foreign keys [questions.quiz_id] and [quiz_attempts.quiz_id]
    (ON DELETE CASCADE), which do not go through the policies. *)
Definition delete_quiz (uid quiz_id : uuid) (db : DB) : DB :=
  let doomed := fun q => String.eqb (Quiz.id q) quiz_id && quiz_owned uid q in
  let gone := fun id => String.eqb id quiz_id && existsb doomed (quizzes db) in
  mkDB (profiles db)
       (List.filter (fun q => negb (doomed q)) (quizzes db))
       (List.filter (fun qn => negb (gone (Question.quiz_id qn))) (questions db))
       (List.filter (fun a => negb (gone (Attempt.quiz_id a))) (quiz_attempts db)).

(** [UPDATE quizzes SET ... WHERE id = ...] as user [uid]; the trigger
    stamps the updated rows. *)
Definition update_quiz (now : timestamptz) (uid quiz_id : uuid) (f : Quiz.t -> Quiz.t)
    (db : DB) : DB :=
  mkDB (profiles db)
       (map (fun q =>
               if String.eqb (Quiz.id q) quiz_id && quiz_owned uid q
               then let q' := f q in
                    Quiz.mk (Quiz.id q') (Quiz.title q') (Quiz.description q')
                            (Quiz.category q') (Quiz.is_published q') (Quiz.created_by q')
                            (Quiz.created_at q') (Some now) (Quiz.total_questions q')
                            (Quiz.total_attempts q') (Quiz.average_score q')
               else q)
            (quizzes db))
       (questions db) (quiz_attempts db).

(** [INSERT INTO questions] of several rows in one statement: the policy's
    check, the primary key (among the new rows and against the table) and
    the foreign key are checked for every row, and nothing is written when
    one fails. *)
Definition insert_questions (uid : uuid) (rows : list Question.t) (db : DB) : PgError + DB :=
  if negb (forallb (fun qn => question_writable db uid (Question.quiz_id qn)) rows)
  then inl RlsViolation
  else if negb (bool_decide (NoDup (map Question.id rows)))
          || existsb (fun qn => existsb (fun old => String.eqb (Question.id old)
                                                               (Question.id qn))
                                        (questions db)) rows
  then inl UniqueViolation
  else inr (mkDB (profiles db) (quizzes db) (questions db ++ rows) (quiz_attempts db)).

End Store.

(** ** The EditQuiz component *)

Module EditQuiz.

(** The component's [Question] interface: a question as the form holds
    it. *)
Record Question : Type := mkQuestion {
  id : string;
  question_text : string;
  options : list string;
  correct_answer : Z;
  explanation : string;
  order_index : Z
}.

Record QuizData : Type := mkQuizData {
  title : string;
  description : string;
  category : string
}.

Record State : Type := mkState {
  user : option TakeQuiz.User;
  quiz : option Quiz.t;
  questions : list Question;
  quizData : QuizData;
  loading : bool;
  saving : bool
}.

Inductive Effect : Type :=
| SetSaving (b : bool)
| SetLoading (b : bool)
| ToastError (msg : string)
| ToastSuccess (msg : string)
| ConsoleError (msg : string) (e : PgError)
| NavigateMyQuizzes.

Definition blank_question (id : string) (order_index : Z) : Question :=
  mkQuestion id "" [""; ""; ""; ""] 0 "" order_index.

(** [{ id: q.id, question_text: q.question_text, options: [...q.options,
    '', '', '', ''].slice(0, 4), correct_answer: q.correct_answer,
    explanation: q.explanation || '', order_index: q.order_index }]. *)
Definition format_question (q : Question.t) : Question :=
  mkQuestion (Question.id q) (Question.question_text q)
             (firstn 4 (Question.options q ++ [""; ""; ""; ""]))
             (Question.correct_answer q)
             (default "" (Question.explanation q))
             (Question.order_index q).

(** [select('*').eq('id', id).eq('created_by', user?.id).single()]. *)
Definition select_own_quiz (auth_uid id : uuid) (db : DB) : PgError + Quiz.t :=
  Sql.single (List.filter (fun q => Rls.quiz_readable auth_uid q
                                    && String.eqb (Quiz.id q) id
                                    && String.eqb (Quiz.created_by q) auth_uid)
                          (quizzes db)).

(** [fetchQuizData], run when the route has an id and a user is signed
    in. *)
Definition fetchQuizData (quiz_reachable questions_reachable : bool)
    (auth_uid id : uuid) (st : State) (db : DB) : State * list Effect :=
  let stop msg :=
    (mkState (user st) (quiz st) (questions st) (quizData st) false (saving st),
     [ToastError msg; NavigateMyQuizzes; SetLoading false]) in
  if negb quiz_reachable then stop "Failed to load quiz"
  else
    match select_own_quiz auth_uid id db with
    | inl _ => stop "Quiz not found or you do not have permission to edit it"
    | inr row =>
        if negb questions_reachable then stop "Failed to load questions"
        else
          let formattedQuestions :=
            map format_question (QuizResults.select_questions auth_uid id db) in
          (mkState (user st) (Some row)
                   (match formattedQuestions with
                    | [] => [blank_question "new-1" 0]
                    | _ :: _ => formattedQuestions
                    end)
                   (mkQuizData (Quiz.title row) (Quiz.description row) (Quiz.category row))
                   false (saving st),
           [SetLoading false])
    end.

Definition set_questions (st : State) (qs : list Question) : State :=
  mkState (user st) (quiz st) qs (quizData st) (loading st) (saving st).

(** [addQuestion]; [date_now] is the value of [Date.now()]. *)
Definition addQuestion (date_now : Z) (st : State) : State :=
  set_questions st
    (questions st ++ [blank_question ("new-" +:+ pretty date_now)
                                     (Z.of_nat (length (questions st)))]).

Definition removeQuestion (id : string) (st : State) : State :=
  if (1 <? length (questions st))%nat
  then set_questions st (List.filter (fun q => negb (String.eqb (EditQuiz.id q) id))
                                     (questions st))
  else st.

(** The fields the form sets through [updateQuestion]. *)
Inductive FieldValue : Type :=
| QuestionText (value : string)
| CorrectAnswer (value : Z)
| Explanation (value : string).

Definition set_field (v : FieldValue) (q : Question) : Question :=
  match v with
  | QuestionText value =>
      mkQuestion (EditQuiz.id q) value (options q) (correct_answer q) (explanation q)
                 (order_index q)
  | CorrectAnswer value =>
      mkQuestion (EditQuiz.id q) (question_text q) (options q) value (explanation q)
                 (order_index q)
  | Explanation value =>
      mkQuestion (EditQuiz.id q) (question_text q) (options q) (correct_answer q) value
                 (order_index q)
  end.

Definition updateQuestion (id : string) (v : FieldValue) (st : State) : State :=
  set_questions st
    (map (fun q => if String.eqb (EditQuiz.id q) id then set_field v q else q)
         (questions st)).

(** [options: q.options.map((opt, idx) => idx === optionIndex ? value :
    opt)]. *)
Definition updateOption (questionId : string) (optionIndex : nat) (value : string)
    (st : State) : State :=
  set_questions st
    (map (fun q =>
            if String.eqb (EditQuiz.id q) questionId
            then mkQuestion (EditQuiz.id q) (question_text q)
                            (<[optionIndex := value]> (options q))
                            (correct_answer q) (explanation q) (order_index q)
            else q)
         (questions st)).

(** What the form lets the author do to the question list. *)
Inductive Edit : Type :=
| Add (date_now : Z)
| Remove (id : string)
| Update (id : string) (v : FieldValue)
| UpdateOption (questionId : string) (optionIndex : nat) (value : string).

Definition apply_edit (e : Edit) (st : State) : State :=
  match e with
  | Add date_now => addQuestion date_now st
  | Remove id => removeQuestion id st
  | Update id v => updateQuestion id v st
  | UpdateOption questionId optionIndex value => updateOption questionId optionIndex value st
  end.

Definition edits (es : list Edit) (st : State) : State :=
  fold_left (fun st e => apply_edit e st) es st.

(** Every question added gets an id that no question of the form has at
    that moment: two questions are not added within the same
    millisecond, the unit of [Date.now()]. *)
Fixpoint well_timed (es : list Edit) (st : State) : Prop :=
  match es with
  | [] => True
  | e :: es' =>
      match e with
      | Add date_now => ~ In ("new-" +:+ pretty date_now) (map EditQuiz.id (questions st))
      | _ => True
      end
      /\ well_timed es' (apply_edit e st)
  end.

(** The form holds at least one question, every question has four option
    fields, and no two questions share an id. *)
Definition form_ok (st : State) : Prop :=
  questions st <> []
  /\ Forall (fun q => length (options q) = 4%nat) (questions st)
  /\ NoDup (map EditQuiz.id (questions st)).

(** What the store and the network contribute to one save. *)
Record SaveEnv : Type := mkSaveEnv {
  now : timestamptz;
  update_reachable : bool;
  delete_reachable : bool;
  insert_reachable : bool;
  gen_random_uuid : nat -> uuid        (* default of column id, per inserted row *)
}.

Section Trim.

(** [String.prototype.trim]. *)
Context (trim : string -> string).

(** A string is truthy when it is not empty. *)
Definition filled (s : string) : bool := negb (String.eqb (trim s) "").

(** [q.question_text.trim() && q.options.filter(opt => opt.trim()).length
    >= 2]. *)
Definition valid (q : Question) : bool :=
  filled (question_text q)
  && (2 <=? length (List.filter filled (options q)))%nat.

Definition validQuestions (st : State) : list Question :=
  List.filter valid (questions st).

(** [validQuestions.map((q, index) => ({ quiz_id: quiz.id, question_text:
    q.question_text.trim(), options: q.options.filter(opt => opt.trim()),
    correct_answer: q.correct_answer, explanation: q.explanation.trim() ||
    null, order_index: index }))], with the ids the store gives the rows. *)
Definition questionsToInsert (env : SaveEnv) (quiz_id : uuid) (valids : list Question)
    : list Question.t :=
  imap (fun index q =>
          Question.mk (gen_random_uuid env index) quiz_id
                           (trim (question_text q))
                           (List.filter filled (options q))
                           (correct_answer q)
                           (if filled (explanation q) then Some (trim (explanation q))
                            else None)
                           (Z.of_nat index))
       valids.

(** The [update] object of [saveQuiz] applied to a row. *)
Definition edited (st : State) (isPublished : bool) (count : nat) (q : Quiz.t) : Quiz.t :=
  Quiz.mk (Quiz.id q) (trim (title (quizData st))) (trim (description (quizData st)))
          (category (quizData st)) (Some isPublished) (Quiz.created_by q)
          (Quiz.created_at q) (Quiz.updated_at q) (Some (Z.of_nat count))
          (Quiz.total_attempts q) (Quiz.average_score q).

(** [saveQuiz(isPublished)]: the new store and the effects in the order
    they happen. *)
Definition saveQuiz (env : SaveEnv) (isPublished : bool) (st : State) (db : DB)
    : DB * list Effect :=
  match user st, quiz st with
  | Some u, Some q =>
      if negb (filled (title (quizData st))) || negb (filled (description (quizData st)))
      then (db, [ToastError "Please fill in the quiz title and description"])
      else
        let valids := validQuestions st in
        if (length valids =? 0)%nat
        then (db, [ToastError
                     "Please add at least one complete question with at least 2 options"])
        else
          let failed db' e :=
            (db', [SetSaving true; ToastError "Failed to update quiz";
                   ConsoleError "Error:" e; SetSaving false]) in
          if negb (update_reachable env) then failed db NetworkError
          else
            let db1 := Store.update_quiz (now env) (TakeQuiz.user_id u) (Quiz.id q)
                                         (edited st isPublished (length valids)) db in
            if negb (delete_reachable env) then failed db1 NetworkError
            else
              let db2 := Store.delete_questions (TakeQuiz.user_id u) (Quiz.id q) db1 in
              if negb (insert_reachable env) then failed db2 NetworkError
              else
                match Store.insert_questions (TakeQuiz.user_id u)
                        (questionsToInsert env (Quiz.id q) valids) db2 with
                | inl e => failed db2 e
                | inr db3 =>
                    (db3, [SetSaving true;
                           ToastSuccess (if isPublished then "Quiz updated and published!"
                                         else "Quiz updated and saved as draft!");
                           NavigateMyQuizzes;
                           SetSaving false])
                end
  | _, _ => (db, [ToastError "Unable to save quiz"])
  end.

End Trim.

(** [String.prototype.trim] on text held as UTF-8 bytes: the white space
    and line terminators of ECMAScript are cut from both ends, that is
    U+0009 to U+000D, U+0020, U+00A0, U+1680, U+2000 to U+200A, U+2028,
    U+2029, U+202F, U+205F, U+3000 and U+FEFF. *)
Definition white_space : list (list nat) :=
  map (fun n => [n]) [9; 10; 11; 12; 13; 32]%nat
  ++ [[194; 160]; [225; 154; 128]]%nat
  ++ map (fun n => [226; 128; n]%nat) (seq 128 11 ++ [168; 169; 175]%nat)
  ++ [[226; 129; 159]; [227; 128; 128]; [239; 187; 191]]%nat.

Fixpoint strip (pattern bytes : list nat) : option (list nat) :=
  match pattern, bytes with
  | [], _ => Some bytes
  | p :: pattern', b :: bytes' => if (p =? b)%nat then strip pattern' bytes' else None
  | _ :: _, [] => None
  end.

Definition strip_one (patterns : list (list nat)) (bytes : list nat) : option (list nat) :=
  fold_right (fun pattern found =>
                match strip pattern bytes with
                | Some rest => Some rest
                | None => found
                end)
             None patterns.

Fixpoint trim_start (fuel : nat) (patterns : list (list nat)) (bytes : list nat)
    : list nat :=
  match fuel with
  | O => bytes
  | S fuel' =>
      match strip_one patterns bytes with
      | Some rest => trim_start fuel' patterns rest
      | None => bytes
      end
  end.

Definition utf8_trim (s : string) : string :=
  let bytes := map Ascii.nat_of_ascii (String.list_ascii_of_string s) in
  let front := trim_start (length bytes) white_space bytes in
  let back := trim_start (length front) (map (@List.rev nat) white_space) (List.rev front) in
  String.string_of_list_ascii (map Ascii.ascii_of_nat (List.rev back)).

End EditQuiz.

(** ** The MyQuizzes component *)

Module MyQuizzes.

Inductive Effect : Type :=
| ToastError (msg : string)
| ToastSuccess (msg : string)
| ConsoleError (msg : string) (e : PgError)
| FetchMyQuizzes.

(** [deleteQuiz(quizId)] as user [uid]; [confirmed] is the answer to the
    confirmation dialog, the flags say whether each request reaches the
    store. *)
Definition deleteQuiz (confirmed questions_reachable attempts_reachable quiz_reachable : bool)
    (uid quizId : uuid) (db : DB) : DB * list Effect :=
  if negb confirmed then (db, [])
  else
    let failed db' := (db', [ToastError "Failed to delete quiz";
                             ConsoleError "Error:" NetworkError]) in
    if negb questions_reachable then failed db
    else
      let db1 := Store.delete_questions uid quizId db in
      if negb attempts_reachable then failed db1
      else
        let db2 := Store.delete_attempts uid quizId db1 in
        if negb quiz_reachable then failed db2
        else (Store.delete_quiz uid quizId db2,
              [ToastSuccess "Quiz deleted successfully"; FetchMyQuizzes]).

(** [togglePublishStatus(quizId, currentStatus)]. *)
Definition togglePublishStatus (now : timestamptz) (reachable : bool)
    (uid quizId : uuid) (currentStatus : bool) (db : DB) : DB * list Effect :=
  if negb reachable
  then (db, [ToastError "Failed to update quiz status"; ConsoleError "Error:" NetworkError])
  else
    (Store.update_quiz now uid quizId
       (fun q => Quiz.mk (Quiz.id q) (Quiz.title q) (Quiz.description q) (Quiz.category q)
                         (Some (negb currentStatus)) (Quiz.created_by q) (Quiz.created_at q)
                         (Quiz.updated_at q) (Quiz.total_questions q)
                         (Quiz.total_attempts q) (Quiz.average_score q))
       db,
     [ToastSuccess (if currentStatus then "Quiz unpublished" else "Quiz published");
      FetchMyQuizzes]).

End MyQuizzes.

(** ** Consistency of the statistics with the attempts *)

Module Stats.

(** The counter of the quiz is [k] behind the number of its attempt
    rows. *)
Definition lag (k : Z) (quiz_id : uuid) (db : DB) : Prop :=
  Forall (fun q => Quiz.id q = quiz_id ->
                   Quiz.total_attempts q = Some (Sql.COUNT (scores_of_quiz quiz_id db) - k))
         (quizzes db).

(** The average of the quiz is the average of its attempt rows. *)
Definition average_current (quiz_id : uuid) (db : DB) : Prop :=
  Forall (fun q => Quiz.id q = quiz_id ->
                   Quiz.average_score q = Sql.AVG (scores_of_quiz quiz_id db))
         (quizzes db).

(** The counter of the quiz stands at [k]. *)
Definition counter (k : Z) (quiz_id : uuid) (db : DB) : Prop :=
  Forall (fun q => Quiz.id q = quiz_id -> Quiz.total_attempts q = Some k) (quizzes db).

(** Later submissions, one after the other. *)
Definition submissions (subs : list (Env * TakeQuiz.State)) : list Op :=
  map (fun sub => Submit (fst sub) (snd sub)) subs.

(** The mean of a list of scores. *)
Definition mean (scores : list Z) : Q :=
  inject_Z (Sql.SUM scores) / inject_Z (Sql.COUNT scores).

End Stats.

(** What the policies and the queries read of a quiz row: id, publication
    flag and creator. *)
Definition quiz_keys (db : DB) : list (uuid * option bool * uuid) :=
  map (fun q => (Quiz.id q, Quiz.is_published q, Quiz.created_by q)) (quizzes db).

(** The scores of a user's attempts inside the window. *)
Definition scores_in_window (time_filter : string) (now : timestamptz) (db : DB) (u : uuid)
    : list Z :=
  map Attempt.score
      (List.filter (fun qa => String.eqb (Attempt.user_id qa) u)
                   (Leaderboard.windowed time_filter now db)).

(** ** Every writer of the store, and what the schema promises *)

Module Integrity.

Inductive Write : Type :=
| Submission (env : Env) (st : TakeQuiz.State)
| StatsCall (now : timestamptz) (quiz_id : uuid) (new_score : Z)
| Save (trim : string -> string) (env : EditQuiz.SaveEnv) (isPublished : bool)
       (st : EditQuiz.State)
| Deletion (confirmed questions_reachable attempts_reachable quiz_reachable : bool)
           (uid quizId : uuid)
| Toggle (now : timestamptz) (reachable : bool) (uid quizId : uuid) (currentStatus : bool).

Definition write (w : Write) (db : DB) : DB :=
  match w with
  | Submission env st => fst (TakeQuiz.handleSubmitQuiz env st db)
  | StatsCall now quiz_id new_score => update_quiz_stats now quiz_id new_score db
  | Save trim env isPublished st => fst (EditQuiz.saveQuiz trim env isPublished st db)
  | Deletion confirmed q_up a_up quiz_up uid quizId =>
      fst (MyQuizzes.deleteQuiz confirmed q_up a_up quiz_up uid quizId db)
  | Toggle now reachable uid quizId currentStatus =>
      fst (MyQuizzes.togglePublishStatus now reachable uid quizId currentStatus db)
  end.

Definition writes (ws : list Write) (db : DB) : DB :=
  fold_left (fun db w => write w db) ws db.

Definition quiz_ids (db : DB) : list uuid := map Quiz.id (quizzes db).

(** The primary keys of quizzes, questions and attempts and the foreign
    keys of questions and attempts. *)
Definition ok (db : DB) : Prop :=
  NoDup (quiz_ids db)
  /\ NoDup (map Question.id (questions db))
  /\ NoDup (map Attempt.id (quiz_attempts db))
  /\ Forall (fun qn => In (Question.quiz_id qn) (quiz_ids db)) (questions db)
  /\ Forall (fun a => In (Attempt.quiz_id a) (quiz_ids db)) (quiz_attempts db)
  /\ Forall (fun a => In (Attempt.user_id a) (map Profile.id (profiles db)))
            (quiz_attempts db).

End Integrity.

(** ** More sample data *)

Module Sample2.

(** A session on the sample quiz with no answer yet. *)
Definition fresh_state : TakeQuiz.State :=
  TakeQuiz.mkState (Some (TakeQuiz.mkUser "u2")) (Some Sample.client_quiz)
                   Sample.four_questions ∅ None false true.

Definition fresh_session : TakeQuizUI.Session := TakeQuizUI.mkSession fresh_state 0.

(** The second option, then on to the next question, a jump to the last
    one, back by one, and a radio button that is not on the screen. *)
Definition clicks : list TakeQuizUI.Event :=
  [TakeQuizUI.Choose 1; TakeQuizUI.Next; TakeQuizUI.Overview 3; TakeQuizUI.Previous;
   TakeQuizUI.Choose 7].

(** The editor of the sample quiz, opened by its creator, and some
    editing. *)
Definition editor_initial : EditQuiz.State :=
  EditQuiz.mkState (Some (TakeQuiz.mkUser "u1")) None []
                   (EditQuiz.mkQuizData "" "" "General Knowledge") true false.

Definition editor_loaded : EditQuiz.State :=
  fst (EditQuiz.fetchQuizData true true "u1" "quiz-1" editor_initial Sample.db).

Definition some_edits : list EditQuiz.Edit :=
  [EditQuiz.Add 1751173925000;
   EditQuiz.Update "q1" (EditQuiz.QuestionText "Capital of France?");
   EditQuiz.Remove "q2";
   EditQuiz.UpdateOption "q3" 0 "Rome";
   EditQuiz.Remove "q9"].

(** Two questions added within one millisecond, then one of them
    removed. *)
Definition hasty_edits : list EditQuiz.Edit :=
  [EditQuiz.Remove "q1"; EditQuiz.Remove "q2"; EditQuiz.Remove "q3"; EditQuiz.Remove "q4";
   EditQuiz.Add 1751173925000; EditQuiz.Add 1751173925000;
   EditQuiz.Remove "q4"; EditQuiz.Remove "new-1751173925000"].

Definition save_env : EditQuiz.SaveEnv :=
  EditQuiz.mkSaveEnv 1751200000 true true true (fun index => "nq" +:+ pretty index).

(** The same save with the last request, the insert, not reaching the
    store. *)
Definition save_env_insert_down : EditQuiz.SaveEnv :=
  EditQuiz.mkSaveEnv 1751200000 true true false (fun index => "nq" +:+ pretty index).

(** The form after the first option of the first question has been
    cleared while its second option is marked as correct. *)
Definition cleared_first_option : EditQuiz.State :=
  EditQuiz.edits [EditQuiz.Update "q1" (EditQuiz.CorrectAnswer 1);
                  EditQuiz.UpdateOption "q1" 0 "  "]
                 editor_loaded.

(** A submission, a save by the creator and the deletion of the quiz. *)
Definition some_writes : list Integrity.Write :=
  [Integrity.Submission Sample.env Sample.state;
   Integrity.Save EditQuiz.utf8_trim save_env true editor_loaded;
   Integrity.Submission (mkEnv 1751300000 "attempt-2" true false) fresh_state;
   Integrity.Toggle 1751400000 true "u1" "quiz-1" true;
   Integrity.Deletion true true true true "u1" "quiz-1"].

End Sample2.

(** * Properties *)

(** ** Scoring *)

Section ScoringFacts.

Local Open Scope Z_scope.

Lemma same_eq (x y : JS.number) : JS.same x y = true -> x = y.
Proof.
  destruct x as [s|s| |s m e], y as [s'|s'| |s' m' e']; simpl; try discriminate;
    try reflexivity.
  - intros H. apply Bool.eqb_prop in H. congruence.
  - intros H. apply Bool.eqb_prop in H. congruence.
  - intros H. apply andb_prop in H as [H He]. apply andb_prop in H as [Hs Hm].
    apply Bool.eqb_prop in Hs. apply Pos.eqb_eq in Hm. apply Z.eqb_eq in He. congruence.
Qed.

Lemma fold_count_acc (answers : Answers) (questions : list Question.t) (acc : Z) :
  fold_left (fun acc question =>
               if Scoring.is_correct answers question then acc + 1 else acc)
            questions acc
  = acc + Z.of_nat (length (List.filter (Scoring.is_correct answers) questions)).
Proof.
  revert acc. induction questions as [|q qs IH]; intros acc; simpl.
  - lia.
  - rewrite IH. destruct (Scoring.is_correct answers q); simpl length; lia.
Qed.

Lemma correctAnswers_filter (questions : list Question.t) (answers : Answers) :
  Scoring.correctAnswers questions answers
  = Z.of_nat (length (List.filter (Scoring.is_correct answers) questions)).
Proof. unfold Scoring.correctAnswers. rewrite fold_count_acc. lia. Qed.

Lemma correctAnswers_bounds (questions : list Question.t) (answers : Answers) :
  0 <= Scoring.correctAnswers questions answers <= Z.of_nat (length questions).
Proof.
  rewrite correctAnswers_filter.
  pose proof (List.filter_length_le (Scoring.is_correct answers) questions). lia.
Qed.

Lemma is_correct_iff (answers : Answers) (q : Question.t) :
  Scoring.is_correct answers q = true
  <-> answers !! Question.id q = Some (Question.correct_answer q).
Proof. unfold Scoring.is_correct. rewrite bool_decide_eq_true. reflexivity. Qed.

Lemma is_correct_missing (answers : Answers) (q : Question.t) :
  answers !! Question.id q = None -> Scoring.is_correct answers q = false.
Proof.
  intros H. unfold Scoring.is_correct. apply bool_decide_eq_false. rewrite H. discriminate.
Qed.

End ScoringFacts.

(** The worked example of the specification: three of four correct is
    75. *)
Example score_three_of_four :
  Scoring.score Sample.four_questions Sample.three_right = JS.of_Z 75.
Proof. vm_compute. reflexivity. Qed.

(** On quizzes of up to 39 questions the computed percentage is the exact
    percentage rounded half up, whatever the number of correct answers. *)
Lemma agree_upto_39 : Scoring.agree_upto 39 = true.
Proof. vm_compute. reflexivity. Qed.

Lemma percent_exact_upto_39 (c len : Z) :
  1 <= len <= 39 -> 0 <= c <= len ->
  Scoring.percent c len = JS.of_Z (Scoring.spec_percent c len).
Proof.
  intros Hlen Hc.
  pose proof agree_upto_39 as Hall.
  unfold Scoring.agree_upto in Hall.
  pose proof (proj1 (forallb_forall _ _) Hall (Z.to_nat len)) as Hrow.
  assert (Hin : In (Z.to_nat len) (seq 1 39)) by (apply in_seq; lia).
  pose proof (proj1 (forallb_forall _ _) (Hrow Hin) (Z.to_nat c)) as Hcell.
  rewrite !Z2Nat.id in Hcell by lia.
  apply same_eq, Hcell. apply in_seq. lia.
Qed.

Lemma score_exact_upto_39 (questions : list Question.t) (answers : Answers) :
  (1 <= length questions <= 39)%nat ->
  SpecScoring.meets (Scoring.score questions answers) (SpecScoring.score questions answers).
Proof.
  intros Hlen. unfold SpecScoring.score, Scoring.score.
  destruct questions as [|q qs]; [simpl in Hlen; lia|].
  unfold SpecScoring.meets. rewrite <- correctAnswers_filter.
  apply percent_exact_upto_39; [lia|].
  apply correctAnswers_bounds.
Qed.

(** C5. On a quiz of 40 questions with 23 correct answers the code stores
    57, while [100 * 23 / 40 = 57.5] rounded half up is 58: the quotient
    [23 / 40] is rounded to a double before it is multiplied by 100, and
    the product 57.49999999999999 lies below the half. *)
Theorem score_23_of_40_is_57 :
  length Sample.forty_questions = 40%nat
  /\ Scoring.correctAnswers Sample.forty_questions Sample.first_23_right = 23
  /\ Scoring.score Sample.forty_questions Sample.first_23_right = JS.of_Z 57
  /\ SpecScoring.score Sample.forty_questions Sample.first_23_right = inr 58
  /\ JS.of_Z 57 <> JS.of_Z 58.
Proof. vm_compute. repeat split; discriminate. Qed.

(** C8. A question counts as correct exactly when the answers map holds its
    correct answer under its id: the counter of the scoring loop is the
    number of such questions, a question without an entry is not counted,
    and the loop has no failing case (it is a total function of the
    questions and the answers). *)
Theorem correct_iff_answer_matches (questions : list Question.t) (answers : Answers) :
  Scoring.correctAnswers questions answers
  = Z.of_nat (length (List.filter (Scoring.is_correct answers) questions))
  /\ (forall q, Scoring.is_correct answers q = true
                <-> answers !! Question.id q = Some (Question.correct_answer q))
  /\ (forall q, answers !! Question.id q = None ->
                Scoring.is_correct answers q = false
                /\ Scoring.correctAnswers (questions ++ [q]) answers
                   = Scoring.correctAnswers questions answers).
Proof.
  split; [apply correctAnswers_filter|].
  split; intros q.
  - apply is_correct_iff.
  - intros Hnone. pose proof (is_correct_missing answers q Hnone) as Hq.
    split; [exact Hq|].
    unfold Scoring.correctAnswers. rewrite fold_left_app. simpl. rewrite Hq. reflexivity.
Qed.

Lemma correct_iff_answer_matches_witness :
  Scoring.correctAnswers Sample.four_questions Sample.three_right = 3
  /\ Scoring.is_correct Sample.three_right (Sample.question 5 0) = false
  /\ Scoring.correctAnswers (Sample.four_questions ++ [Sample.question 5 0])
                            Sample.three_right = 3.
Proof.
  destruct (correct_iff_answer_matches Sample.four_questions Sample.three_right)
    as (Hcount & _ & Hmiss).
  destruct (Hmiss (Sample.question 5 0)) as [Hq Happ]; [vm_compute; reflexivity|].
  split; [rewrite Hcount; vm_compute; reflexivity|].
  split; [exact Hq|].
  rewrite Happ, Hcount. vm_compute. reflexivity.
Defined.

(** C3 (as stated). With no questions the scoring expression is
    [Math.round((0 / 0) * 100)], the number NaN: nothing is thrown where the
    contract asks for InvalidInputError.  The only error of the submission
    comes later, from the store, which refuses the NULL score. *)
Lemma empty_quiz_scores_NaN :
  Scoring.score [] Sample.three_right = JS.NaN
  /\ SpecScoring.score [] Sample.three_right = inl SpecScoring.InvalidInputError
  /\ snd (TakeQuiz.handleSubmitQuiz Sample.env
            (TakeQuiz.mkState (Some (TakeQuiz.mkUser "u2")) (Some Sample.client_quiz) []
                              Sample.three_right None false true)
            Sample.db)
     = [SetSubmitting true; ToastError "Failed to submit quiz";
        ConsoleError "Error:" NotNullViolation; SetSubmitting false].
Proof. vm_compute. repeat split. Qed.

(** C3 (amended). For every answers map the score of an empty question set
    is NaN and no error is raised by the scoring step.  A submission with no
    questions stores nothing: without a signed-in user or a loaded quiz the
    handler only says "You must be logged in to submit a quiz"; otherwise
    the request carries a null score, which the store, once the request
    reaches it, refuses for the NOT NULL constraint, and the handler says
    "Failed to submit quiz", as it does when the request does not reach the
    store.  The page shows the loading or the "Quiz Not Found" view instead
    of the quiz, so that it offers no way to submit. *)
Theorem empty_quiz_score_is_NaN (answers : Answers) :
  Scoring.score [] answers = JS.NaN
  /\ JS.to_Z (Scoring.score [] answers) = None
  /\ (forall env st db,
        TakeQuiz.questions st = [] ->
        fst (TakeQuiz.handleSubmitQuiz env st db) = db
        /\ (TakeQuiz.user st = None \/ TakeQuiz.quiz st = None ->
            snd (TakeQuiz.handleSubmitQuiz env st db)
            = [ToastError "You must be logged in to submit a quiz"])
        /\ (is_Some (TakeQuiz.user st) -> is_Some (TakeQuiz.quiz st) ->
            snd (TakeQuiz.handleSubmitQuiz env st db)
            = [SetSubmitting true;
               ToastError "Failed to submit quiz";
               ConsoleError "Error:" (if insert_reachable env then NotNullViolation
                                      else NetworkError);
               SetSubmitting false])
        /\ (TakeQuiz.render st = TakeQuiz.LoadingView
            \/ TakeQuiz.render st = TakeQuiz.QuizNotFoundView)).
Proof.
  assert (Hnan : forall a, Scoring.score [] a = JS.NaN) by (intros a; reflexivity).
  split; [apply Hnan|]. split; [rewrite Hnan; reflexivity|].
  intros env st db Hq.
  assert (Hrun : forall u q,
             TakeQuiz.user st = Some u -> TakeQuiz.quiz st = Some q ->
             TakeQuiz.handleSubmitQuiz env st db
             = (db, [SetSubmitting true;
                     ToastError "Failed to submit quiz";
                     ConsoleError "Error:" (if insert_reachable env then NotNullViolation
                                            else NetworkError);
                     SetSubmitting false])).
  { intros u q Hu Hquiz. unfold TakeQuiz.handleSubmitQuiz. rewrite Hu, Hquiz.
    unfold insert_quiz_attempt, TakeQuiz.new_attempt. cbn [ins_score ins_user_id].
    rewrite Hq, Hnan. unfold Rls.attempt_insertable. rewrite String.eqb_refl.
    destruct (insert_reachable env); reflexivity. }
  split; [|split; [|split]].
  - destruct (TakeQuiz.user st) as [u|] eqn:Hu;
      [destruct (TakeQuiz.quiz st) as [q|] eqn:Hquiz|].
    + rewrite (Hrun u q); reflexivity.
    + unfold TakeQuiz.handleSubmitQuiz. rewrite Hu, Hquiz. reflexivity.
    + unfold TakeQuiz.handleSubmitQuiz. rewrite Hu. reflexivity.
  - intros Hnone. unfold TakeQuiz.handleSubmitQuiz.
    destruct Hnone as [-> | ->]; [reflexivity|].
    destruct (TakeQuiz.user st); reflexivity.
  - intros [u Hu] [q Hquiz]. rewrite (Hrun u q); [reflexivity|exact Hu|exact Hquiz].
  - unfold TakeQuiz.render. rewrite Hq.
    destruct (TakeQuiz.loading st); [left; reflexivity|right].
    simpl. rewrite orb_true_r. reflexivity.
Qed.

Lemma empty_quiz_score_is_NaN_witness :
  Scoring.score [] Sample.three_right = JS.NaN
  /\ TakeQuiz.handleSubmitQuiz Sample.env
       (TakeQuiz.mkState (Some (TakeQuiz.mkUser "u2")) (Some Sample.client_quiz) []
                         Sample.three_right None false true)
       Sample.db
     = (Sample.db,
        [SetSubmitting true; ToastError "Failed to submit quiz";
         ConsoleError "Error:" NotNullViolation; SetSubmitting false]).
Proof.
  destruct (empty_quiz_score_is_NaN Sample.three_right) as (Hs & _ & Hsub).
  split; [exact Hs|].
  destruct (Hsub Sample.env
              (TakeQuiz.mkState (Some (TakeQuiz.mkUser "u2")) (Some Sample.client_quiz) []
                                Sample.three_right None false true)
              Sample.db) as (Hdb & _ & Heff & _).
  - reflexivity.
  - rewrite (surjective_pairing (TakeQuiz.handleSubmitQuiz _ _ _)), Hdb, Heff.
    + reflexivity.
    + eexists. reflexivity.
    + eexists. reflexivity.
Defined.

(** ** Numeric division *)

Section NumericFacts.

Local Open Scope Z_scope.

Lemma pow10_pos (scale : Z) : 0 <= scale -> Z.pos (Z.to_pos (10 ^ scale)) = 10 ^ scale.
Proof. intros H. apply Z2Pos.id, Z.pow_pos_nonneg; lia. Qed.

Lemma select_div_scale_range (var1 var2 : Z) :
  0 <= Numeric.select_div_scale var1 var2 <= Numeric.NUMERIC_MAX_DISPLAY_SCALE.
Proof. unfold Numeric.select_div_scale, Numeric.NUMERIC_MAX_DISPLAY_SCALE. lia. Qed.

(** The digits of the quotient name the multiple of [10 ^ - rscale] nearest
    to the exact quotient. *)
Lemma div_digits_near (var1 var2 rscale : Z) :
  0 < var2 ->
  - var2 <= 2 * (Numeric.div_digits var1 var2 rscale * var2 - var1 * 10 ^ rscale) <= var2.
Proof.
  intros Hpos. unfold Numeric.div_digits.
  set (a := Z.abs var1 * 10 ^ rscale).
  pose proof (Z.div_mod (2 * a + var2) (2 * var2) ltac:(lia)) as Hdm.
  pose proof (Z.mod_pos_bound (2 * a + var2) (2 * var2) ltac:(lia)) as Hmod.
  set (q := (2 * a + var2) / (2 * var2)) in *.
  assert (Hq : - var2 < 2 * (q * var2 - a) <= var2) by lia.
  destruct (Z.sgn_spec var1) as [[Hv Hs]|[[Hv Hs]|[Hv Hs]]]; rewrite Hs.
  - replace (var1 * 10 ^ rscale) with a by (unfold a; rewrite Z.abs_eq by lia; reflexivity).
    lia.
  - subst var1. replace a with 0 in * by (unfold a; reflexivity). lia.
  - replace (var1 * 10 ^ rscale) with (- a)
      by (unfold a; rewrite Z.abs_neq by lia; lia).
    lia.
Qed.

(** A quotient that lies half a unit from the exact one is the greater of
    the two in absolute value. *)
Lemma div_digits_tie (var1 var2 rscale : Z) :
  0 < var2 -> 0 <= rscale ->
  2 * Z.abs (Numeric.div_digits var1 var2 rscale * var2 - var1 * 10 ^ rscale) = var2 ->
  Z.abs var1 * 10 ^ rscale < Z.abs (Numeric.div_digits var1 var2 rscale) * var2.
Proof.
  intros Hpos Hr. unfold Numeric.div_digits.
  assert (HP : 0 < 10 ^ rscale) by (apply Z.pow_pos_nonneg; lia).
  set (a := Z.abs var1 * 10 ^ rscale).
  assert (Ha : 0 <= a) by (unfold a; nia).
  pose proof (Z.div_mod (2 * a + var2) (2 * var2) ltac:(lia)) as Hdm.
  pose proof (Z.mod_pos_bound (2 * a + var2) (2 * var2) ltac:(lia)) as Hmod.
  assert (Hq0 : 0 <= (2 * a + var2) / (2 * var2)) by (apply Z.div_pos; lia).
  set (q := (2 * a + var2) / (2 * var2)) in *.
  assert (Hq : - var2 < 2 * (q * var2 - a) <= var2) by lia.
  destruct (Z.sgn_spec var1) as [[Hv Hs]|[[Hv Hs]|[Hv Hs]]]; rewrite Hs.
  - replace (var1 * 10 ^ rscale) with a by (unfold a; rewrite Z.abs_eq by lia; reflexivity).
    intros Htie. rewrite Z.mul_1_l, (Z.abs_eq q) by lia. lia.
  - subst var1. replace a with 0 in * by (unfold a; reflexivity). lia.
  - replace (var1 * 10 ^ rscale) with (- a)
      by (unfold a; rewrite Z.abs_neq by lia; lia).
    intros Htie. replace (Z.abs (-1 * q)) with q by lia. lia.
Qed.

Lemma numeric_div_rounded (var1 var2 : Z) :
  0 < var2 ->
  Numeric.rounded (Numeric.select_div_scale var1 var2)
                  (inject_Z var1 / inject_Z var2) (Numeric.numeric_div var1 var2).
Proof.
  intros Hpos. unfold Numeric.rounded, Numeric.numeric_div.
  set (rscale := Numeric.select_div_scale var1 var2).
  assert (Hr : 0 <= rscale) by apply select_div_scale_range.
  pose proof (pow10_pos rscale Hr) as HP.
  pose proof (div_digits_near var1 var2 rscale Hpos) as Hnear.
  pose proof (div_digits_tie var1 var2 rscale Hpos Hr) as Htie.
  set (n := Numeric.div_digits var1 var2 rscale) in *.
  set (P := Z.to_pos (10 ^ rscale)) in *.
  split; [exists n; apply Qred_correct|].
  rewrite Qred_correct.
  destruct var2 as [|v|v]; try lia.
  rewrite <- Qmake_Qdiv.
  rewrite <- HP in Hnear, Htie.
  split.
  - apply Qabs_Qle_condition.
    unfold Qle, Qminus, Qplus, Qopp; simpl Qnum; simpl Qden.
    rewrite !Pos2Z.inj_mul.
    split; nia.
  - unfold Qeq, Qlt, Qabs, Qminus, Qplus, Qopp; simpl Qnum; simpl Qden.
    rewrite !Pos2Z.inj_mul. intros Heq. apply Htie.
    set (D := n * Z.pos v + - var1 * Z.pos P) in *.
    replace (n * Z.pos v - var1 * Z.pos P) with D by (unfold D; lia).
    nia.
Qed.

(** When the exact quotient has no more than [rscale] decimal places, the
    division is exact. *)
Lemma numeric_div_exact (var1 var2 : Z) :
  0 < var2 ->
  (var1 * 10 ^ Numeric.select_div_scale var1 var2) mod var2 = 0 ->
  (Numeric.numeric_div var1 var2 == inject_Z var1 / inject_Z var2)%Q.
Proof.
  intros Hpos Hmod. unfold Numeric.numeric_div.
  set (rscale := Numeric.select_div_scale var1 var2) in *.
  assert (Hr : 0 <= rscale) by apply select_div_scale_range.
  pose proof (pow10_pos rscale Hr) as HP.
  pose proof (div_digits_near var1 var2 rscale Hpos) as Hnear.
  set (n := Numeric.div_digits var1 var2 rscale) in *.
  apply Z.mod_divide in Hmod; [|lia]. destruct Hmod as [m Hm].
  rewrite Hm in Hnear.
  assert (Hn : n = m) by nia.
  rewrite Qred_correct.
  destruct var2 as [|v|v]; try lia.
  rewrite <- Qmake_Qdiv. unfold Qeq. simpl Qnum; simpl Qden.
  rewrite HP, Hn. lia.
Qed.

Lemma first_digit_spec (fuel : nat) (x : Z) :
  0 <= x -> x < Numeric.NBASE ^ (Z.of_nat fuel + 1) ->
  0 <= fst (Numeric.first_digit fuel x)
  /\ snd (Numeric.first_digit fuel x) * Numeric.NBASE ^ fst (Numeric.first_digit fuel x) <= x
  /\ x < (snd (Numeric.first_digit fuel x) + 1)
         * Numeric.NBASE ^ fst (Numeric.first_digit fuel x)
  /\ snd (Numeric.first_digit fuel x) < Numeric.NBASE
  /\ (0 < x -> 1 <= snd (Numeric.first_digit fuel x)).
Proof.
  revert x. induction fuel as [|fuel IH]; intros x Hx Hlt.
  - simpl in *. unfold Numeric.NBASE in *. lia.
  - cbn [Numeric.first_digit]. destruct (x <? Numeric.NBASE) eqn:Hsmall.
    + apply Z.ltb_lt in Hsmall. simpl. unfold Numeric.NBASE in *. lia.
    + apply Z.ltb_ge in Hsmall. cbn [fst snd].
      assert (Hpow : Numeric.NBASE ^ (Z.of_nat (S fuel) + 1)
                     = Numeric.NBASE * Numeric.NBASE ^ (Z.of_nat fuel + 1)).
      { replace (Z.of_nat (S fuel) + 1) with (Z.succ (Z.of_nat fuel + 1)) by lia.
        apply Z.pow_succ_r. lia. }
      rewrite Hpow in Hlt.
      pose proof (Z.div_mod x Numeric.NBASE ltac:(unfold Numeric.NBASE; lia)) as Hdm.
      pose proof (Z.mod_pos_bound x Numeric.NBASE ltac:(unfold Numeric.NBASE; lia)) as Hmod.
      set (x' := x / Numeric.NBASE) in *.
      assert (Hx' : 0 < x') by (unfold Numeric.NBASE in *; lia).
      destruct (IH x') as (Hw & Hlo & Hhi & Hd & Hd1);
        [lia|unfold Numeric.NBASE in *; nia|].
      set (w := fst (Numeric.first_digit fuel x')) in *.
      set (d := snd (Numeric.first_digit fuel x')) in *.
      rewrite (Z.pow_add_r _ w 1) by lia. rewrite Z.pow_1_r.
      specialize (Hd1 Hx').
      unfold Numeric.NBASE in *.
      repeat split; try lia; nia.
Qed.

Lemma weight_digit_spec (x : Z) :
  0 <= fst (Numeric.weight_digit x)
  /\ snd (Numeric.weight_digit x) * Numeric.NBASE ^ fst (Numeric.weight_digit x) <= Z.abs x
  /\ Z.abs x < (snd (Numeric.weight_digit x) + 1)
               * Numeric.NBASE ^ fst (Numeric.weight_digit x)
  /\ snd (Numeric.weight_digit x) < Numeric.NBASE
  /\ (x <> 0 -> 1 <= snd (Numeric.weight_digit x)).
Proof.
  unfold Numeric.weight_digit.
  destruct (first_digit_spec (Z.to_nat (Z.log2 (Z.abs x))) (Z.abs x))
    as (Hw & Hlo & Hhi & Hd & Hd1).
  - lia.
  - rewrite Z2Nat.id by apply Z.log2_nonneg.
    destruct (Z.eq_dec (Z.abs x) 0) as [H0|H0].
    + rewrite H0. simpl. unfold Numeric.NBASE. lia.
    + pose proof (Z.log2_spec (Z.abs x) ltac:(lia)) as [_ Hlog].
      eapply Z.lt_le_trans; [exact Hlog|].
      replace (Z.succ (Z.log2 (Z.abs x))) with (Z.log2 (Z.abs x) + 1) by lia.
      apply Z.pow_le_mono_l. unfold Numeric.NBASE. lia.
  - repeat split; try assumption. intros Hx. apply Hd1. lia.
Qed.

(** A quotient below [NBASE] gets at least 16 decimal places. *)
Lemma select_div_scale_min (var1 var2 : Z) :
  0 < var2 -> Z.abs var1 < Numeric.NBASE * var2 ->
  16 <= Numeric.select_div_scale var1 var2.
Proof.
  intros Hpos Hsmall. unfold Numeric.select_div_scale.
  destruct (weight_digit_spec var1) as (Hw1 & Hlo1 & Hhi1 & Hd1 & Hone1).
  destruct (weight_digit_spec var2) as (Hw2 & Hlo2 & Hhi2 & Hd2 & Hone2).
  set (w1 := fst (Numeric.weight_digit var1)) in *.
  set (d1 := snd (Numeric.weight_digit var1)) in *.
  set (w2 := fst (Numeric.weight_digit var2)) in *.
  set (d2 := snd (Numeric.weight_digit var2)) in *.
  cbv zeta.
  assert (Hq : w1 - w2 - (if d1 <=? d2 then 1 else 0) <= 0).
  { rewrite Z.abs_eq in Hhi2 by lia.
    assert (Hp2 : 0 < Numeric.NBASE ^ w2) by (apply Z.pow_pos_nonneg; unfold Numeric.NBASE; lia).
    destruct (Z_le_gt_dec w1 w2) as [Hle|Hgt]; [destruct (d1 <=? d2); lia|].
    assert (Hv1 : var1 <> 0).
    { intros ->. unfold w1, Numeric.weight_digit in Hgt. simpl in Hgt. lia. }
    specialize (Hone1 Hv1).
    assert (Hmono : Numeric.NBASE ^ (w2 + 1) <= Numeric.NBASE ^ w1).
    { apply Z.pow_le_mono_r; unfold Numeric.NBASE; lia. }
    rewrite Z.pow_add_r, Z.pow_1_r in Hmono by lia.
    destruct (Z.eq_dec w1 (w2 + 1)) as [Heq|Hne].
    - destruct (d1 <=? d2) eqn:Hd; [lia|]. apply Z.leb_gt in Hd. exfalso.
      rewrite Heq, Z.pow_add_r, Z.pow_1_r in Hlo1 by lia.
      unfold Numeric.NBASE in *. nia.
    - exfalso.
      assert (Hmono2 : Numeric.NBASE ^ (w2 + 2) <= Numeric.NBASE ^ w1).
      { apply Z.pow_le_mono_r; unfold Numeric.NBASE; lia. }
      rewrite Z.pow_add_r in Hmono2 by lia.
      change (Numeric.NBASE ^ 2) with 100000000 in Hmono2.
      unfold Numeric.NBASE in *. nia. }
  unfold Numeric.NUMERIC_MIN_SIG_DIGITS, Numeric.DEC_DIGITS, Numeric.NUMERIC_MAX_DISPLAY_SCALE.
  lia.
Qed.

End NumericFacts.

(** PostgreSQL's answer for the scores 100, 100 and 90:
    96.6666666666666667. *)
Example AVG_100_100_90 :
  Sql.AVG [100; 100; 90] = Some (966666666666666667 # 10000000000000000).
Proof. vm_compute. reflexivity. Qed.

(** ** Statistics *)

Section StatsFacts.

Local Open Scope Z_scope.

Lemma update_quiz_stats_eq now quiz_id s db :
  update_quiz_stats now quiz_id s db
  = if countable quiz_id db
    then mkDB (profiles db)
              (map (fun q =>
                      if String.eqb (Quiz.id q) quiz_id
                      then set_stats now (Sql.AVG (scores_of_quiz quiz_id db)) q
                      else q)
                   (quizzes db))
              (questions db) (quiz_attempts db)
    else db.
Proof.
  unfold update_quiz_stats, call_update_quiz_stats.
  destruct (countable quiz_id db); reflexivity.
Qed.

Lemma update_keeps_attempts now quiz_id s db :
  quiz_attempts (update_quiz_stats now quiz_id s db) = quiz_attempts db.
Proof. rewrite update_quiz_stats_eq. destruct (countable quiz_id db); reflexivity. Qed.

Lemma update_keeps_questions now quiz_id s db :
  questions (update_quiz_stats now quiz_id s db) = questions db.
Proof. rewrite update_quiz_stats_eq. destruct (countable quiz_id db); reflexivity. Qed.

Lemma update_keeps_profiles now quiz_id s db :
  profiles (update_quiz_stats now quiz_id s db) = profiles db.
Proof. rewrite update_quiz_stats_eq. destruct (countable quiz_id db); reflexivity. Qed.

Lemma find_map_update (quiz_id : uuid) (f : Quiz.t -> Quiz.t) (l : list Quiz.t) :
  (forall q, Quiz.id (f q) = Quiz.id q) ->
  List.find (fun q => String.eqb (Quiz.id q) quiz_id)
            (map (fun q => if String.eqb (Quiz.id q) quiz_id then f q else q) l)
  = f <$> List.find (fun q => String.eqb (Quiz.id q) quiz_id) l.
Proof.
  intros Hid. induction l as [|q l IH]; simpl; [reflexivity|].
  destruct (String.eqb (Quiz.id q) quiz_id) eqn:E; simpl.
  - rewrite Hid, E. reflexivity.
  - rewrite E. exact IH.
Qed.

Lemma quiz_row_update now quiz_id s db :
  countable quiz_id db = true ->
  quiz_row quiz_id (update_quiz_stats now quiz_id s db)
  = set_stats now (Sql.AVG (scores_of_quiz quiz_id db)) <$> quiz_row quiz_id db.
Proof.
  intros Hc. rewrite update_quiz_stats_eq, Hc.
  unfold quiz_row. simpl. apply find_map_update. reflexivity.
Qed.

(** The statement raises exactly when a row of the quiz holds a counter
    that cannot be raised inside the range of [integer]. *)
Lemma countable_false quiz_id db :
  countable quiz_id db = false
  <-> exists q n, In q (quizzes db) /\ Quiz.id q = quiz_id
                  /\ Quiz.total_attempts q = Some n
                  /\ ~ (int4_min <= n + 1 <= int4_max).
Proof.
  unfold countable. split.
  - intros Hc.
    assert (Hex : existsb (fun q => negb (can_count q))
                          (List.filter (fun q => String.eqb (Quiz.id q) quiz_id)
                                       (quizzes db)) = true).
    { induction (List.filter _ _) as [|q l IH]; simpl in *; [discriminate|].
      destruct (can_count q); simpl in *; [apply IH, Hc|reflexivity]. }
    apply existsb_exists in Hex as (q & Hq & Hno).
    apply filter_In in Hq as [Hq Hid]. apply String.eqb_eq in Hid.
    unfold can_count in Hno. destruct (Quiz.total_attempts q) as [n|] eqn:Hn;
      [|discriminate].
    exists q, n. repeat split; try assumption.
    unfold is_int4 in Hno. intros [H1 H2].
    apply Z.leb_le in H1, H2. rewrite H1, H2 in Hno. discriminate.
  - intros (q & n & Hq & Hid & Hn & Hout).
    destruct (forallb can_count _) eqn:Hc; [|reflexivity]. exfalso.
    rewrite forallb_forall in Hc.
    assert (Hin : In q (List.filter (fun q => String.eqb (Quiz.id q) quiz_id) (quizzes db))).
    { apply filter_In. split; [exact Hq|]. apply String.eqb_eq, Hid. }
    specialize (Hc q Hin). unfold can_count in Hc. rewrite Hn in Hc.
    unfold is_int4 in Hc. apply andb_prop in Hc as [H1 H2].
    apply Z.leb_le in H1, H2. apply Hout. split; assumption.
Qed.

Lemma counter_countable k quiz_id db :
  Stats.counter k quiz_id db -> int4_min <= k + 1 <= int4_max ->
  countable quiz_id db = true.
Proof.
  intros Hk Hrange. destruct (countable quiz_id db) eqn:Hc; [reflexivity|].
  apply countable_false in Hc as (q & n & Hq & Hid & Hn & Hout).
  unfold Stats.counter in Hk. rewrite List.Forall_forall in Hk.
  rewrite (Hk q Hq Hid) in Hn. injection Hn as <-. contradiction.
Qed.

Lemma counter_update k quiz_id db now s :
  Stats.counter k quiz_id db -> int4_min <= k + 1 <= int4_max ->
  Stats.counter (k + 1) quiz_id (update_quiz_stats now quiz_id s db).
Proof.
  intros Hk Hrange. rewrite update_quiz_stats_eq, (counter_countable k) by assumption.
  unfold Stats.counter in *. simpl quizzes. rewrite List.Forall_map.
  eapply List.Forall_impl; [|exact Hk]. intros q Hq.
  destruct (String.eqb (Quiz.id q) quiz_id) eqn:E.
  - apply String.eqb_eq in E. intros _. simpl. rewrite (Hq E). reflexivity.
  - intros Hid. apply String.eqb_neq in E. contradiction.
Qed.

Lemma scores_of_quiz_app quiz_id db row :
  scores_of_quiz quiz_id
    (mkDB (profiles db) (quizzes db) (questions db) (quiz_attempts db ++ [row]))
  = scores_of_quiz quiz_id db
    ++ (if String.eqb (Attempt.quiz_id row) quiz_id then [Attempt.score row] else []).
Proof.
  unfold scores_of_quiz. simpl. rewrite List.filter_app, map_app. simpl.
  destruct (String.eqb (Attempt.quiz_id row) quiz_id); reflexivity.
Qed.

Lemma record_all_snoc steps step db :
  record_all (steps ++ [step]) db = record_attempt_row step (record_all steps db).
Proof. unfold record_all. rewrite fold_left_app. reflexivity. Qed.

Lemma record_all_scores quiz_id steps db :
  Forall (fun step => Attempt.quiz_id (snd step) = quiz_id) steps ->
  scores_of_quiz quiz_id (record_all steps db)
  = scores_of_quiz quiz_id db ++ map (fun step => Attempt.score (snd step)) steps.
Proof.
  induction steps as [|step steps IH] using rev_ind; intros Hall.
  - simpl. rewrite app_nil_r. reflexivity.
  - apply Forall_app in Hall as [Hsteps Hstep]. inversion Hstep as [|? ? Hq _]; subst.
    rewrite record_all_snoc. unfold record_attempt_row.
    unfold scores_of_quiz at 1. rewrite update_keeps_attempts.
    fold (scores_of_quiz (Attempt.quiz_id (snd step))
            (mkDB (profiles (record_all steps db)) (quizzes (record_all steps db))
                  (questions (record_all steps db))
                  (quiz_attempts (record_all steps db) ++ [snd step]))).
    rewrite scores_of_quiz_app, String.eqb_refl, IH by exact Hsteps.
    rewrite map_app, app_assoc. reflexivity.
Qed.

(** While the counter stays inside the range of [integer], every recorded
    attempt raises it by one. *)
Lemma record_all_counter quiz_id steps db k :
  Stats.counter k quiz_id db ->
  int4_min <= k -> k + Z.of_nat (length steps) <= int4_max ->
  Forall (fun step => Attempt.quiz_id (snd step) = quiz_id) steps ->
  Stats.counter (k + Z.of_nat (length steps)) quiz_id (record_all steps db).
Proof.
  intros Hk Hmin.
  induction steps as [|step steps IH] using rev_ind; intros Hmax Hall.
  - simpl. rewrite Z.add_0_r. exact Hk.
  - apply Forall_app in Hall as [Hsteps Hstep]. inversion Hstep as [|? ? Hq _]; subst.
    rewrite length_app in *. simpl length in *.
    rewrite record_all_snoc. unfold record_attempt_row.
    replace (k + Z.of_nat (length steps + 1)) with (k + Z.of_nat (length steps) + 1) by lia.
    apply counter_update; [|lia].
    apply IH; [lia|exact Hsteps].
Qed.

(** After a non-empty run of recorded attempts for one quiz, its row has
    been counted up once per attempt and carries the average of all its
    attempt rows. *)
Lemma record_all_row quiz_id steps db q k :
  quiz_row quiz_id db = Some q ->
  Stats.counter k quiz_id db ->
  int4_min <= k -> k + Z.of_nat (length steps) <= int4_max ->
  Forall (fun step => Attempt.quiz_id (snd step) = quiz_id) steps ->
  steps <> [] ->
  exists q',
    quiz_row quiz_id (record_all steps db) = Some q'
    /\ Quiz.total_attempts q' = Some (k + Z.of_nat (length steps))
    /\ Quiz.average_score q'
       = Sql.AVG (scores_of_quiz quiz_id db
                  ++ map (fun step => Attempt.score (snd step)) steps).
Proof.
  intros Hrow Hk Hmin.
  induction steps as [|step steps IH] using rev_ind; intros Hmax Hall Hne; [congruence|].
  apply Forall_app in Hall as [Hsteps Hstep]. inversion Hstep as [|? ? Hq _]; subst.
  rewrite length_app in *. simpl length in *.
  assert (Hprev : Stats.counter (k + Z.of_nat (length steps)) (Attempt.quiz_id (snd step))
                                (record_all steps db)).
  { apply record_all_counter; [exact Hk|exact Hmin|lia|exact Hsteps]. }
  assert (Hrow' : exists q0,
             quiz_row (Attempt.quiz_id (snd step)) (record_all steps db) = Some q0).
  { destruct steps as [|s0 steps0].
    - exists q. exact Hrow.
    - destruct (IH ltac:(lia) Hsteps ltac:(discriminate)) as (q0 & H0 & _).
      exists q0. exact H0. }
  destruct Hrow' as (q0 & H0).
  assert (Ht0 : Quiz.total_attempts q0 = Some (k + Z.of_nat (length steps))).
  { unfold Stats.counter in Hprev. rewrite List.Forall_forall in Hprev.
    unfold quiz_row in H0. apply find_some in H0 as [Hin Hid].
    apply String.eqb_eq in Hid. apply Hprev; assumption. }
  rewrite record_all_snoc. unfold record_attempt_row.
  rewrite quiz_row_update.
  2:{ apply (counter_countable (k + Z.of_nat (length steps))); [exact Hprev|lia]. }
  rewrite scores_of_quiz_app, String.eqb_refl.
  rewrite record_all_scores by exact Hsteps.
  unfold quiz_row in *. simpl quizzes. rewrite H0. simpl.
  eexists. split; [reflexivity|]. simpl. split.
  - rewrite Ht0. simpl. f_equal. lia.
  - rewrite map_app, app_assoc. reflexivity.
Qed.

Lemma SUM_app l1 l2 : Sql.SUM (l1 ++ l2) = Sql.SUM l1 + Sql.SUM l2.
Proof. induction l1 as [|x l1 IH]; simpl; [reflexivity|]. rewrite IH. lia. Qed.

Lemma SUM_Permutation l1 l2 : Permutation l1 l2 -> Sql.SUM l1 = Sql.SUM l2.
Proof. induction 1; simpl; lia. Qed.

(** Percentages average to a [numeric] with at least 16 decimal places. *)
Lemma percent_scale (l : list Z) :
  l <> [] -> Forall (fun s => 0 <= s <= 100) l ->
  16 <= Numeric.select_div_scale (Sql.SUM l) (Sql.COUNT l).
Proof.
  intros Hne Hall.
  assert (Hsum : 0 <= Sql.SUM l <= 100 * Sql.COUNT l).
  { unfold Sql.COUNT. clear Hne. induction Hall as [|x l Hx Hall IH]; simpl; [lia|].
    rewrite Nat2Z.inj_succ in *. unfold Sql.SUM in *. lia. }
  assert (Hpos : 0 < Sql.COUNT l).
  { unfold Sql.COUNT. destruct l; [congruence|simpl length; lia]. }
  apply select_div_scale_min; [exact Hpos|].
  unfold Numeric.NBASE. lia.
Qed.

(** [AVG] of a non-empty column is the mean rounded to the scale of the
    division, and the mean itself when that has no more decimal places. *)
Lemma AVG_rounded (l : list Z) :
  l <> [] ->
  exists avg,
    Sql.AVG l = Some avg
    /\ Numeric.rounded (Numeric.select_div_scale (Sql.SUM l) (Sql.COUNT l))
                       (Stats.mean l) avg
    /\ ((Sql.SUM l * 10 ^ Numeric.select_div_scale (Sql.SUM l) (Sql.COUNT l))
        mod Sql.COUNT l = 0 -> (avg == Stats.mean l)%Q).
Proof.
  intros Hne. destruct l as [|x l]; [congruence|].
  assert (Hpos : 0 < Sql.COUNT (x :: l)) by (unfold Sql.COUNT; simpl length; lia).
  eexists. split; [reflexivity|]. split.
  - apply numeric_div_rounded, Hpos.
  - apply numeric_div_exact, Hpos.
Qed.

End StatsFacts.

(** C10. The score handed to [update_quiz_stats] does not reach the
    result: two calls from the same state with different scores, or with
    no score, give the same store and the same error.  When the counter of
    the quiz can be raised, its row has the counter raised by one and the
    average set to the average of the stored attempt rows of the quiz;
    otherwise the store stays as it was.  The attempt rows stay as they
    were. *)
Theorem new_score_is_ignored (now : timestamptz) (quiz_id : uuid) (s1 s2 : Z) (db : DB) :
  update_quiz_stats now quiz_id s1 db = update_quiz_stats now quiz_id s2 db
  /\ (forall new_score1 new_score2,
        call_update_quiz_stats now quiz_id new_score1 db
        = call_update_quiz_stats now quiz_id new_score2 db)
  /\ (countable quiz_id db = true ->
      quiz_row quiz_id (update_quiz_stats now quiz_id s1 db)
      = set_stats now (Sql.AVG (scores_of_quiz quiz_id db)) <$> quiz_row quiz_id db
      /\ (Quiz.total_attempts <$> quiz_row quiz_id (update_quiz_stats now quiz_id s1 db))
         = ((fun q => (fun n => n + 1) <$> Quiz.total_attempts q) <$> quiz_row quiz_id db)
      /\ (Quiz.average_score <$> quiz_row quiz_id (update_quiz_stats now quiz_id s1 db))
         = ((fun _ => Sql.AVG (scores_of_quiz quiz_id db)) <$> quiz_row quiz_id db))
  /\ (countable quiz_id db = false -> update_quiz_stats now quiz_id s1 db = db)
  /\ quiz_attempts (update_quiz_stats now quiz_id s1 db) = quiz_attempts db.
Proof.
  split; [reflexivity|]. split; [reflexivity|].
  split; [|split; [|apply update_keeps_attempts]].
  - intros Hc. rewrite quiz_row_update by exact Hc.
    split; [reflexivity|].
    destruct (quiz_row quiz_id db); repeat split.
  - intros Hc. rewrite update_quiz_stats_eq, Hc. reflexivity.
Qed.

Lemma new_score_is_ignored_witness :
  update_quiz_stats 1751173925 "quiz-1" 10 Sample.db
  = update_quiz_stats 1751173925 "quiz-1" 90 Sample.db
  /\ (Quiz.total_attempts <$> quiz_row "quiz-1" (update_quiz_stats 1751173925 "quiz-1" 10 Sample.db))
     = Some (Some 1).
Proof.
  destruct (new_score_is_ignored 1751173925 "quiz-1" 10 90 Sample.db)
    as (Hsame & _ & Hrow & _).
  split; [exact Hsame|].
  destruct Hrow as (_ & Ht & _); [reflexivity|].
  rewrite Ht. reflexivity.
Defined.

(** C4 (as stated). Called for a quiz without attempt rows, the procedure
    is neither a no-op nor a failure: the counter goes from 0 to 1 and the
    average is overwritten with NULL. *)
Lemma no_attempts_update_changes_row :
  scores_of_quiz "quiz-1" Sample.db = []
  /\ (Quiz.total_attempts <$> quiz_row "quiz-1" Sample.db) = Some (Some 0)
  /\ (Quiz.total_attempts <$> quiz_row "quiz-1" (update_quiz_stats 1751173925 "quiz-1" 80 Sample.db))
     = Some (Some 1)
  /\ (Quiz.average_score <$> quiz_row "quiz-1" (update_quiz_stats 1751173925 "quiz-1" 80 Sample.db))
     = Some None
  /\ update_quiz_stats 1751173925 "quiz-1" 80 Sample.db <> Sample.db.
Proof. vm_compute. repeat split; discriminate. Qed.

(** C4 (amended). Called for a quiz without attempt rows, the procedure
    divides nothing by zero.  As long as the counter of the quiz can be
    raised inside the range of [integer] the call does not fail: it raises
    the counter by one and sets the average to NULL, the average of no
    rows.  When a row of the quiz holds a counter that cannot be raised,
    2147483647, the call fails with "integer out of range" and leaves the
    store as it was.  The attempt rows stay as they were in both cases. *)
Theorem stats_without_attempts (now : timestamptz) (quiz_id : uuid) (s : Z) (db : DB) :
  scores_of_quiz quiz_id db = [] ->
  ((forall q n, In q (quizzes db) -> Quiz.id q = quiz_id ->
                Quiz.total_attempts q = Some n -> int4_min <= n + 1 <= int4_max) ->
   call_update_quiz_stats now quiz_id (Some s) db
   = inr (update_quiz_stats now quiz_id s db)
   /\ (Quiz.total_attempts <$> quiz_row quiz_id (update_quiz_stats now quiz_id s db))
      = ((fun q => (fun n => n + 1) <$> Quiz.total_attempts q) <$> quiz_row quiz_id db)
   /\ (Quiz.average_score <$> quiz_row quiz_id (update_quiz_stats now quiz_id s db))
      = ((fun _ => None) <$> quiz_row quiz_id db))
  /\ ((exists q n, In q (quizzes db) /\ Quiz.id q = quiz_id
                   /\ Quiz.total_attempts q = Some n
                   /\ ~ (int4_min <= n + 1 <= int4_max)) ->
      call_update_quiz_stats now quiz_id (Some s) db = inl NumericValueOutOfRange
      /\ update_quiz_stats now quiz_id s db = db)
  /\ quiz_attempts (update_quiz_stats now quiz_id s db) = quiz_attempts db.
Proof.
  intros Hnone. split; [|split; [|apply update_keeps_attempts]].
  - intros Hfit.
    assert (Hc : countable quiz_id db = true).
    { destruct (countable quiz_id db) eqn:Hc; [reflexivity|].
      apply countable_false in Hc as (q & n & Hq & Hid & Hn & Hout).
      exfalso. apply Hout, (Hfit q n); assumption. }
    rewrite quiz_row_update by exact Hc. rewrite Hnone.
    split; [|destruct (quiz_row quiz_id db); split; reflexivity].
    unfold update_quiz_stats, call_update_quiz_stats. rewrite Hc. reflexivity.
  - intros Hout. apply countable_false in Hout.
    unfold update_quiz_stats, call_update_quiz_stats. rewrite Hout.
    split; reflexivity.
Qed.

Lemma stats_without_attempts_witness :
  (Quiz.total_attempts <$> quiz_row "quiz-1" (update_quiz_stats 1751173925 "quiz-1" 80 Sample.db))
  = Some (Some 1)
  /\ (Quiz.average_score <$> quiz_row "quiz-1" (update_quiz_stats 1751173925 "quiz-1" 80 Sample.db))
     = Some None
  /\ call_update_quiz_stats 1751173925 "quiz-1" (Some 80) Sample.full_counter_db
     = inl NumericValueOutOfRange
  /\ update_quiz_stats 1751173925 "quiz-1" 80 Sample.full_counter_db
     = Sample.full_counter_db.
Proof.
  destruct (stats_without_attempts 1751173925 "quiz-1" 80 Sample.db) as (Hok & _ & _);
    [reflexivity|].
  destruct Hok as (_ & Ht & Ha).
  { intros q n [<-|[]] _ Hn. injection Hn as <-. vm_compute. split; discriminate. }
  destruct (stats_without_attempts 1751173925 "quiz-1" 80 Sample.full_counter_db)
    as (_ & Hfail & _); [reflexivity|].
  destruct Hfail as (Hcall & Hsame).
  { exists Sample.full_counter_quiz, 2147483647.
    split; [left; reflexivity|]. split; [reflexivity|]. split; [reflexivity|].
    vm_compute. intros [_ H]. apply H. reflexivity. }
  split; [rewrite Ht; reflexivity|]. split; [rewrite Ha; reflexivity|].
  split; assumption.
Defined.

(** C2 (as stated). A submission whose statistics call does not reach the
    store leaves a quiz with a counter of 0 and one attempt row, of score
    75.  Three attempts of 80, 100 and 60 recorded from there give a
    counter of 3 and an average of 78.75, the average of the four rows, not
    the mean 80 of the three scores. *)
Lemma stats_after_failed_call :
  let db0 := fst (TakeQuiz.handleSubmitQuiz Sample.env_rpc_down Sample.state Sample.db) in
  let db3 := record_all [Sample.step_80; Sample.step_100; Sample.step_60] db0 in
  (Quiz.total_attempts <$> quiz_row "quiz-1" db0) = Some (Some 0)
  /\ scores_of_quiz "quiz-1" db0 = [75]
  /\ (Quiz.total_attempts <$> quiz_row "quiz-1" db3) = Some (Some 3)
  /\ (Quiz.average_score <$> quiz_row "quiz-1" db3) = Some (Some (315 # 4))
  /\ ~ (315 # 4 == Stats.mean [80%Z; 100%Z; 60%Z])%Q.
Proof. vm_compute. repeat split. discriminate. Qed.

(** C2 (amended). A quiz has a counter of k and some attempt rows, whose
    number may differ from k.  After N >= 1 attempts have been inserted,
    each followed by the call of the procedure, in any order, and as long
    as k + N stays inside the range of [integer], its counter is k + N and
    its average is the mean of the scores of all its attempt rows, the
    earlier ones and the N new ones, rounded to the scale of the division;
    it is that mean itself when the mean has no more decimal places, and
    the scale is of 16 decimal places or more when the scores are
    percentages. *)
Theorem stats_after_n_attempts (db : DB) (quiz_id : uuid) (q : Quiz.t) (k : Z)
    (steps steps' : list (timestamptz * Attempt.t)) :
  quiz_row quiz_id db = Some q ->
  Stats.counter k quiz_id db ->
  int4_min <= k -> k + Z.of_nat (length steps) <= int4_max ->
  steps <> [] ->
  Forall (fun step => Attempt.quiz_id (snd step) = quiz_id) steps ->
  Permutation steps steps' ->
  let scores := scores_of_quiz quiz_id db ++ map (fun step => Attempt.score (snd step)) steps in
  let scale := Numeric.select_div_scale (Sql.SUM scores) (Sql.COUNT scores) in
  exists q' avg,
    quiz_row quiz_id (record_all steps' db) = Some q'
    /\ Quiz.total_attempts q' = Some (k + Z.of_nat (length steps))
    /\ Quiz.average_score q' = Some avg
    /\ Numeric.rounded scale (Stats.mean scores) avg
    /\ ((Sql.SUM scores * 10 ^ scale) mod Sql.COUNT scores = 0 ->
        (avg == Stats.mean scores)%Q)
    /\ (Forall (fun s => 0 <= s <= 100) scores -> 16 <= scale).
Proof.
  intros Hrow Hk Hmin Hmax Hne Hall Hperm scores scale.
  assert (Hne' : steps' <> []).
  { intros ->. apply Permutation_sym, Permutation_nil in Hperm. congruence. }
  assert (Hall' : Forall (fun step => Attempt.quiz_id (snd step) = quiz_id) steps').
  { rewrite List.Forall_forall in *. intros x Hx. apply Hall.
    apply (Permutation_in x (Permutation_sym Hperm)), Hx. }
  assert (Hlen : length steps' = length steps) by (symmetry; apply Permutation_length, Hperm).
  destruct (record_all_row quiz_id steps' db q k Hrow Hk Hmin) as (q' & Hq' & Ht & Ha);
    [rewrite Hlen; exact Hmax|exact Hall'|exact Hne'|].
  set (scores' := scores_of_quiz quiz_id db
                  ++ map (fun step => Attempt.score (snd step)) steps') in *.
  assert (Hp : Permutation scores' scores).
  { apply Permutation_app_head, Permutation_map, Permutation_sym, Hperm. }
  assert (Hsum : Sql.SUM scores' = Sql.SUM scores) by apply SUM_Permutation, Hp.
  assert (Hcount : Sql.COUNT scores' = Sql.COUNT scores).
  { unfold Sql.COUNT. rewrite (Permutation_length Hp). reflexivity. }
  destruct (AVG_rounded scores') as (avg & Havg & Hround & Hexact).
  { subst scores'. destruct steps'; [congruence|].
    intros H. apply app_eq_nil in H as [_ H]. discriminate. }
  unfold Stats.mean in *. rewrite Hsum, Hcount in Hround, Hexact.
  exists q', avg. split; [exact Hq'|]. split; [rewrite Ht, Hlen; reflexivity|].
  split; [rewrite Ha; exact Havg|]. split; [exact Hround|]. split; [exact Hexact|].
  apply percent_scale. subst scores. destruct steps; [congruence|].
  intros H. apply app_eq_nil in H as [_ H]. discriminate.
Qed.

(** The example of the specification: 80, 100 and 60, here applied as 60,
    80, 100, to a quiz with a counter of 0 and no attempt rows, give a
    counter of 3 and an average of 80. *)
Lemma stats_after_n_attempts_witness :
  exists q' avg,
    quiz_row "quiz-1"
      (record_all [Sample.step_60; Sample.step_80; Sample.step_100] Sample.db) = Some q'
    /\ Quiz.total_attempts q' = Some 3
    /\ Quiz.average_score q' = Some avg
    /\ (avg == 80)%Q.
Proof.
  destruct (stats_after_n_attempts Sample.db "quiz-1" Sample.the_quiz 0
              [Sample.step_80; Sample.step_100; Sample.step_60]
              [Sample.step_60; Sample.step_80; Sample.step_100])
    as (q' & avg & Hq & Ht & Ha & _ & Hm & _).
  - reflexivity.
  - repeat constructor.
  - vm_compute. discriminate.
  - vm_compute. discriminate.
  - discriminate.
  - repeat constructor.
  - apply Permutation_sym, (Permutation_cons_app [Sample.step_80; Sample.step_100] []).
    reflexivity.
  - exists q', avg. repeat split; try assumption.
    rewrite Hm; [|vm_compute; reflexivity]. vm_compute. reflexivity.
Defined.

(** The same example in every order of application. *)
Example stats_80_100_60_any_order :
  Forall (fun steps =>
            (Quiz.total_attempts <$> quiz_row "quiz-1" (record_all steps Sample.db))
            = Some (Some 3)
            /\ (Quiz.average_score <$> quiz_row "quiz-1" (record_all steps Sample.db))
               = Some (Some 80%Q))
         [[Sample.step_80; Sample.step_100; Sample.step_60];
          [Sample.step_80; Sample.step_60; Sample.step_100];
          [Sample.step_100; Sample.step_80; Sample.step_60];
          [Sample.step_100; Sample.step_60; Sample.step_80];
          [Sample.step_60; Sample.step_80; Sample.step_100];
          [Sample.step_60; Sample.step_100; Sample.step_80]].
Proof. repeat (constructor; [split; vm_compute; reflexivity|]). constructor. Qed.

(** ** Recording an attempt *)

Section RecordingFacts.

Local Open Scope Z_scope.

Lemma to_int4_to_Z (x : JS.number) (z : Z) : to_int4 x = inr z -> JS.to_Z x = Some z.
Proof.
  unfold to_int4, json_int4. destruct x as [s|s| |s m e]; try discriminate;
    destruct (JS.to_Z _) as [z'|]; try discriminate;
    destruct (is_int4 z'); congruence.
Qed.

Lemma to_int4_json (x : JS.number) (z : Z) : to_int4 x = inr z <-> json_int4 x = inr (Some z).
Proof.
  unfold to_int4. destruct (json_int4 x) as [e|[z'|]]; split; congruence.
Qed.

(** What a successful insert has checked and written. *)
Lemma insert_inv env auth_uid v db db1 a :
  insert_quiz_attempt env auth_uid v db = inr (db1, a) ->
  exists z,
    to_int4 (ins_score v) = inr z
    /\ ins_user_id v = auth_uid
    /\ existsb (fun qa => String.eqb (Attempt.id qa) (gen_random_uuid env))
               (quiz_attempts db) = false
    /\ a = Attempt.mk (gen_random_uuid env) (ins_quiz_id v) (ins_user_id v) z
                      (ins_total_questions v) (ins_time_taken v) (ins_answers v)
                      (Some (now env)) (Some (now env))
    /\ db1 = mkDB (profiles db) (quizzes db) (questions db) (quiz_attempts db ++ [a]).
Proof.
  unfold insert_quiz_attempt.
  destruct (insert_reachable env); simpl; [|discriminate].
  destruct (json_int4 (ins_score v)) as [e|[z|]] eqn:Hz; [discriminate| |];
    unfold Rls.attempt_insertable;
    (destruct (String.eqb (ins_user_id v) auth_uid) eqn:Hu; simpl; [|discriminate]);
    [|discriminate].
  destruct (existsb _ (quiz_attempts db)) eqn:Hpk; [discriminate|].
  destruct (existsb _ (quizzes db)); simpl; [|discriminate].
  destruct (existsb _ (profiles db)); simpl; [|discriminate].
  intros H. injection H as <- <-.
  exists z. apply String.eqb_eq in Hu. apply to_int4_json in Hz.
  repeat split; assumption.
Qed.

Lemma rpc_keeps_attempts env quiz_id s db :
  quiz_attempts (fst (rpc_update_quiz_stats env quiz_id s db)) = quiz_attempts db.
Proof.
  unfold rpc_update_quiz_stats, call_update_quiz_stats.
  destruct (rpc_reachable env); simpl; [|reflexivity].
  destruct (json_int4 s); [reflexivity|].
  destruct (countable quiz_id db); reflexivity.
Qed.

(** A failed call of the procedure leaves the store as it was. *)
Lemma rpc_failure_keeps_store env quiz_id s db db2 e :
  rpc_update_quiz_stats env quiz_id s db = (db2, Some e) -> db2 = db.
Proof.
  unfold rpc_update_quiz_stats.
  destruct (rpc_reachable env); simpl; [|congruence].
  destruct (json_int4 s); [congruence|].
  destruct (call_update_quiz_stats _ _ _ _); congruence.
Qed.

(** A submission leaves the attempt rows alone or appends one row, whose
    id is new. *)
Lemma submit_attempts env st db :
  quiz_attempts (fst (TakeQuiz.handleSubmitQuiz env st db)) = quiz_attempts db
  \/ exists a,
       quiz_attempts (fst (TakeQuiz.handleSubmitQuiz env st db)) = quiz_attempts db ++ [a]
       /\ existsb (fun qa => String.eqb (Attempt.id qa) (Attempt.id a)) (quiz_attempts db)
          = false.
Proof.
  unfold TakeQuiz.handleSubmitQuiz.
  destruct (TakeQuiz.user st) as [u|]; [|left; reflexivity].
  destruct (TakeQuiz.quiz st) as [q|]; [|left; reflexivity].
  destruct (insert_quiz_attempt _ _ _ _) as [e|[db1 a]] eqn:Hins; [left; reflexivity|].
  right. exists a.
  destruct (insert_inv _ _ _ _ _ _ Hins) as (z & _ & _ & Hpk & Ha & Hdb1).
  destruct (rpc_update_quiz_stats _ _ _ db1) as [db2 err] eqn:Hrpc.
  simpl. split.
  - change db2 with (fst (db2, err)). rewrite <- Hrpc, rpc_keeps_attempts, Hdb1.
    reflexivity.
  - rewrite Ha. exact Hpk.
Qed.

Lemma existsb_false_filter {A : Type} (p : A -> bool) (l : list A) :
  existsb p l = false -> List.filter p l = [].
Proof.
  induction l as [|x l IH]; simpl; [reflexivity|].
  destruct (p x); simpl; [discriminate|exact IH].
Qed.

Lemma filter_existsb {A : Type} (p : A -> bool) (l : list A) (a : A) :
  In a (List.filter p l) -> existsb p l = true.
Proof.
  intros Hin. apply filter_In in Hin as [Hin Hp]. apply existsb_exists. eauto.
Qed.

(** Once an id names exactly one attempt row, the normal flow does not
    change that. *)
Lemma run_op_keeps_attempt op db aid a :
  attempts_with_id aid db = [a] -> attempts_with_id aid (run_op op db) = [a].
Proof.
  unfold attempts_with_id. intros Hone. destruct op as [env st|now quiz_id s]; simpl.
  - destruct (submit_attempts env st db) as [Hsame|(b & Happ & Hfresh)].
    + rewrite Hsame. exact Hone.
    + rewrite Happ, List.filter_app, Hone. simpl.
      destruct (String.eqb (Attempt.id b) aid) eqn:Hb; [|reflexivity].
      apply String.eqb_eq in Hb. subst aid.
      assert (Hex : existsb (fun qa => String.eqb (Attempt.id qa) (Attempt.id b))
                            (quiz_attempts db) = true).
      { apply (filter_existsb _ _ a). rewrite Hone. left. reflexivity. }
      congruence.
  - rewrite update_keeps_attempts. exact Hone.
Qed.

Lemma run_ops_keeps_attempt ops db aid a :
  attempts_with_id aid db = [a] -> attempts_with_id aid (run_ops ops db) = [a].
Proof.
  revert db. induction ops as [|op ops IH]; intros db Hone; [exact Hone|].
  simpl. apply IH, run_op_keeps_attempt, Hone.
Qed.

Lemma filter_andb {A : Type} (p q : A -> bool) (l : list A) :
  List.filter (fun x => p x && q x) l = List.filter p (List.filter q l).
Proof.
  induction l as [|x l IH]; simpl; [reflexivity|].
  destruct (q x); simpl; destruct (p x); simpl; rewrite ?IH; reflexivity.
Qed.

(** The owner of an attempt reads it back by its id. *)
Lemma select_own_attempt db aid a :
  attempts_with_id aid db = [a] ->
  exists info,
    QuizResults.select_attempt (Attempt.user_id a) aid db
    = inr (QuizResults.mkQuizAttempt a info).
Proof.
  unfold attempts_with_id, QuizResults.select_attempt. intros Hone.
  rewrite filter_andb, Hone. simpl.
  unfold Rls.attempt_readable. rewrite String.eqb_refl. simpl.
  eexists. reflexivity.
Qed.

End RecordingFacts.

Lemma inserted_attempt_unique env auth_uid v db db1 a :
  insert_quiz_attempt env auth_uid v db = inr (db1, a) ->
  attempts_with_id (Attempt.id a) db1 = [a] /\ Attempt.user_id a = auth_uid.
Proof.
  intros Hins. destruct (insert_inv _ _ _ _ _ _ Hins) as (z & _ & Hu & Hpk & Ha & Hdb1).
  subst db1. split.
  - unfold attempts_with_id. simpl quiz_attempts. rewrite List.filter_app.
    assert (Hid : Attempt.id a = gen_random_uuid env) by (rewrite Ha; reflexivity).
    rewrite Hid, (existsb_false_filter _ _ Hpk).
    simpl. rewrite Hid, String.eqb_refl. reflexivity.
  - rewrite Ha. exact Hu.
Qed.

(** C6. When the attempt row has been inserted and the call of the
    statistics procedure fails, the submission still ends as a success: the
    store is the one the insert left (the attempt row is there and its owner
    reads it back, the quiz rows are untouched), the failure is reported by
    a console warning, and the user gets the success toast and is sent to
    the results page of the attempt. *)
Theorem stats_failure_keeps_attempt (env : Env) (st : TakeQuiz.State) (db db1 : DB)
    (u : TakeQuiz.User) (q : TakeQuiz.Quiz) (a : Attempt.t) (e : PgError) :
  TakeQuiz.user st = Some u ->
  TakeQuiz.quiz st = Some q ->
  insert_quiz_attempt env (TakeQuiz.user_id u) (TakeQuiz.new_attempt u q st) db
  = inr (db1, a) ->
  snd (rpc_update_quiz_stats env (TakeQuiz.id q)
         (Scoring.score (TakeQuiz.questions st) (TakeQuiz.answers st)) db1) = Some e ->
  fst (TakeQuiz.handleSubmitQuiz env st db) = db1
  /\ quiz_attempts db1 = quiz_attempts db ++ [a]
  /\ quizzes db1 = quizzes db
  /\ snd (TakeQuiz.handleSubmitQuiz env st db)
     = [SetSubmitting true;
        ConsoleWarn "Failed to update quiz stats:" e;
        ToastSuccess "Quiz submitted successfully!";
        Navigate (ResultsRoute (TakeQuiz.id q) (Attempt.id a));
        SetSubmitting false]
  /\ exists info,
       QuizResults.select_attempt (TakeQuiz.user_id u) (Attempt.id a) db1
       = inr (QuizResults.mkQuizAttempt a info).
Proof.
  intros Hu Hq Hins Hrpc.
  unfold TakeQuiz.handleSubmitQuiz. rewrite Hu, Hq, Hins.
  destruct (rpc_update_quiz_stats _ _ _ db1) as [db2 err] eqn:Hcall.
  simpl in Hrpc. subst err.
  pose proof (rpc_failure_keeps_store _ _ _ _ _ _ Hcall) as ->.
  destruct (insert_inv _ _ _ _ _ _ Hins) as (z & _ & _ & _ & _ & Hdb1).
  destruct (inserted_attempt_unique _ _ _ _ _ _ Hins) as [Hone Hown].
  simpl. repeat split.
  - rewrite Hdb1. reflexivity.
  - rewrite Hdb1. reflexivity.
  - rewrite <- Hown. apply select_own_attempt, Hone.
Qed.

Lemma stats_failure_keeps_attempt_witness :
  map Attempt.id (quiz_attempts (fst (TakeQuiz.handleSubmitQuiz Sample.env_rpc_down
                                        Sample.state Sample.db)))
  = ["attempt-1"]
  /\ snd (TakeQuiz.handleSubmitQuiz Sample.env_rpc_down Sample.state Sample.db)
     = [SetSubmitting true;
        ConsoleWarn "Failed to update quiz stats:" NetworkError;
        ToastSuccess "Quiz submitted successfully!";
        Navigate (ResultsRoute "quiz-1" "attempt-1");
        SetSubmitting false].
Proof.
  edestruct (stats_failure_keeps_attempt Sample.env_rpc_down Sample.state Sample.db)
    as (Hdb & Hrows & _ & Heff & _).
  - reflexivity.
  - reflexivity.
  - vm_compute. reflexivity.
  - vm_compute. reflexivity.
  - split.
    + rewrite Hdb, Hrows. reflexivity.
    + rewrite Heff. reflexivity.
Defined.

(** C9. An attempt created by a submission is read back by its owner, by
    its id, with the score, the answers and the number of questions of the
    submission, also after any further submissions and statistics updates:
    the normal flow never changes or removes an attempt row. *)
Theorem attempt_round_trip (env : Env) (st : TakeQuiz.State) (db : DB)
    (u : TakeQuiz.User) (q : TakeQuiz.Quiz) (aid : uuid) (ops : list Op) :
  TakeQuiz.user st = Some u ->
  TakeQuiz.quiz st = Some q ->
  In (Navigate (ResultsRoute (TakeQuiz.id q) aid))
     (snd (TakeQuiz.handleSubmitQuiz env st db)) ->
  exists data qs,
    QuizResults.fetchResults true true (TakeQuiz.user_id u) (TakeQuiz.id q) aid
      (run_ops ops (fst (TakeQuiz.handleSubmitQuiz env st db)))
    = (Some (data, qs), [SetLoading false])
    /\ Attempt.id (QuizResults.row data) = aid
    /\ JS.to_Z (Scoring.score (TakeQuiz.questions st) (TakeQuiz.answers st))
       = Some (Attempt.score (QuizResults.row data))
    /\ Attempt.answers (QuizResults.row data) = TakeQuiz.answers st
    /\ Attempt.total_questions (QuizResults.row data)
       = Z.of_nat (length (TakeQuiz.questions st)).
Proof.
  intros Hu Hq. unfold TakeQuiz.handleSubmitQuiz. rewrite Hu, Hq.
  destruct (insert_quiz_attempt _ _ _ db) as [err|[db1 a]] eqn:Hins.
  { simpl. intros Hin. repeat destruct Hin as [Hin|Hin]; try discriminate; contradiction. }
  destruct (rpc_update_quiz_stats _ _ _ db1) as [db2 err] eqn:Hcall.
  intros Hin.
  assert (Haid : aid = Attempt.id a).
  { simpl in Hin. destruct err; simpl in Hin;
      repeat destruct Hin as [Hin|Hin]; try discriminate; try contradiction;
      congruence. }
  subst aid. simpl fst.
  destruct (inserted_attempt_unique _ _ _ _ _ _ Hins) as [Hone Hown].
  destruct (insert_inv _ _ _ _ _ _ Hins) as (z & Hz & _ & _ & Ha & _).
  assert (Hone2 : attempts_with_id (Attempt.id a) db2 = [a]).
  { unfold attempts_with_id in *.
    change db2 with (fst (db2, err)). rewrite <- Hcall, rpc_keeps_attempts. exact Hone. }
  destruct (select_own_attempt _ _ _ (run_ops_keeps_attempt ops _ _ _ Hone2))
    as (info & Hsel).
  rewrite Hown in Hsel.
  exists (QuizResults.mkQuizAttempt a info). eexists.
  unfold QuizResults.fetchResults. simpl negb. cbv iota. rewrite Hsel.
  split; [reflexivity|]. simpl QuizResults.row.
  split; [reflexivity|].
  split; [|rewrite Ha; split; reflexivity].
  apply to_int4_to_Z in Hz. simpl in Hz. rewrite Hz, Ha. reflexivity.
Qed.

Lemma attempt_round_trip_witness :
  exists data qs,
    QuizResults.fetchResults true true "u2" "quiz-1" "attempt-1"
      (run_ops Sample.later_ops
               (fst (TakeQuiz.handleSubmitQuiz Sample.env Sample.state Sample.db)))
    = (Some (data, qs), [SetLoading false])
    /\ Attempt.score (QuizResults.row data) = 75
    /\ Attempt.answers (QuizResults.row data) = Sample.three_right
    /\ Attempt.total_questions (QuizResults.row data) = 4.
Proof.
  destruct (attempt_round_trip Sample.env Sample.state Sample.db
              (TakeQuiz.mkUser "u2") Sample.client_quiz "attempt-1" Sample.later_ops)
    as (data & qs & Hfetch & _ & Hscore & Hans & Htot).
  - reflexivity.
  - reflexivity.
  - vm_compute. right. right. left. reflexivity.
  - exists data, qs. split; [exact Hfetch|].
    split; [|split; assumption].
    assert (Hs : JS.to_Z (Scoring.score (TakeQuiz.questions Sample.state)
                                        (TakeQuiz.answers Sample.state)) = Some 75)
      by (vm_compute; reflexivity).
    congruence.
Defined.

(** The stored rows after the sample submission and the later operations:
    the first attempt is still the one that was written. *)
Example later_ops_keep_first_attempt :
  map (fun a => (Attempt.id a, Attempt.user_id a, Attempt.score a))
      (quiz_attempts (run_ops Sample.later_ops
                        (fst (TakeQuiz.handleSubmitQuiz Sample.env Sample.state Sample.db))))
  = [("attempt-1", "u2", 75); ("attempt-2", "u3", 0)].
Proof. vm_compute. reflexivity. Qed.

(** ** Calendar *)

Section CalendarFacts.

Local Open Scope Z_scope.

Lemma day_of_month_range (d : Z) : 1 <= Calendar.day_of_month d <= 31.
Proof.
  unfold Calendar.day_of_month.
  set (doe := (d + 719468) mod 146097).
  set (yoe := (doe - doe / 1460 + doe / 36524 - doe / 146096) / 365).
  set (doy := doe - (365 * yoe + yoe / 4 - yoe / 100)).
  clearbody doy. clear.
  pose proof (Z.div_mod (5 * doy + 2) 153 ltac:(lia)) as H1.
  pose proof (Z.mod_pos_bound (5 * doy + 2) 153 ltac:(lia)) as H2.
  set (mp := (5 * doy + 2) / 153) in *.
  pose proof (Z.div_mod (153 * mp + 2) 5 ltac:(lia)) as H3.
  pose proof (Z.mod_pos_bound (153 * mp + 2) 5 ltac:(lia)) as H4.
  lia.
Qed.

Lemma day_number_spec (ts : Z) :
  Calendar.day_number ts * Calendar.day <= ts
  < Calendar.day_number ts * Calendar.day + Calendar.day.
Proof.
  unfold Calendar.day_number, Calendar.day.
  pose proof (Z.div_mod ts 86400 ltac:(lia)).
  pose proof (Z.mod_pos_bound ts 86400 ltac:(lia)). lia.
Qed.

Lemma date_trunc_month_bounds (now : Z) :
  Calendar.date_trunc_month now <= now < Calendar.date_trunc_month now + 31 * Calendar.day.
Proof.
  unfold Calendar.date_trunc_month.
  pose proof (day_number_spec now). pose proof (day_of_month_range (Calendar.day_number now)).
  unfold Calendar.day in *. lia.
Qed.

Lemma weekday_range (d : Z) : 0 <= Calendar.weekday d <= 6.
Proof.
  unfold Calendar.weekday. pose proof (Z.mod_pos_bound (d + 3) 7 ltac:(lia)). lia.
Qed.

Lemma date_trunc_week_bounds (now : Z) :
  Calendar.date_trunc_week now <= now < Calendar.date_trunc_week now + 7 * Calendar.day.
Proof.
  unfold Calendar.date_trunc_week.
  pose proof (day_number_spec now). pose proof (weekday_range (Calendar.day_number now)).
  unfold Calendar.day in *. lia.
Qed.

Lemma day_number_of_midnight (d : Z) : Calendar.day_number (d * Calendar.day) = d.
Proof. unfold Calendar.day_number, Calendar.day. apply Z.div_mul. lia. Qed.

Lemma iter_all_below (check : Z -> bool) (n : nat) :
  let st := Nat.iter n (fun st => (fst st + 1, snd st && check (fst st))) (0, true) in
  fst st = Z.of_nat n
  /\ (snd st = true -> forall x, 0 <= x < Z.of_nat n -> check x = true).
Proof.
  induction n as [|n [IHc IHb]].
  - simpl. split; [reflexivity|]. intros _ x Hx. lia.
  - cbn zeta in *. rewrite Nat.iter_succ. cbn [fst snd]. split; [lia|].
    intros Hok x Hx. apply andb_prop in Hok as [Hprev Hlast].
    destruct (Z.eq_dec x (Z.of_nat n)) as [->|Hne].
    + rewrite <- IHc. exact Hlast.
    + apply IHb; [exact Hprev|lia].
Qed.

Lemma all_below_spec (n : positive) (check : Z -> bool) :
  Calendar.all_below n check = true -> forall x, 0 <= x < Z.pos n -> check x = true.
Proof.
  unfold Calendar.all_below. rewrite Pos2Nat.inj_iter. intros Hok x Hx.
  apply (proj2 (iter_all_below check (Pos.to_nat n)) Hok).
  rewrite positive_nat_Z. exact Hx.
Qed.

Lemma day_of_month_periodic (d : Z) :
  Calendar.day_of_month d = Calendar.day_of_month ((d + 719468) mod 146097 - 719468).
Proof.
  unfold Calendar.day_of_month.
  replace ((d + 719468) mod 146097 - 719468 + 719468) with ((d + 719468) mod 146097) by lia.
  rewrite Z.mod_mod by lia. reflexivity.
Qed.

Lemma month_starts_checked :
  Calendar.all_below 146097 month_start_is_first = true.
Proof. vm_compute. reflexivity. Qed.

Lemma year_month_periodic (d : Z) :
  Calendar.year_month d
  = (fst (Calendar.year_month ((d + 719468) mod 146097 - 719468))
     + 400 * ((d + 719468) / 146097),
     snd (Calendar.year_month ((d + 719468) mod 146097 - 719468))).
Proof.
  unfold Calendar.year_month. cbv zeta.
  replace ((d + 719468) mod 146097 - 719468 + 719468) with ((d + 719468) mod 146097) by lia.
  rewrite Z.mod_mod by lia.
  rewrite (Z.div_small ((d + 719468) mod 146097) 146097)
    by (apply Z.mod_pos_bound; lia).
  cbn [fst snd]. f_equal. lia.
Qed.

Lemma is_leap_shift (y k : Z) : Civil.is_leap (y + 400 * k) = Civil.is_leap y.
Proof.
  unfold Civil.is_leap.
  replace ((y + 400 * k) mod 4) with (y mod 4)
    by (replace (y + 400 * k) with (y + 100 * k * 4) by lia; rewrite Z.mod_add by lia;
        reflexivity).
  replace ((y + 400 * k) mod 100) with (y mod 100)
    by (replace (y + 400 * k) with (y + 4 * k * 100) by lia; rewrite Z.mod_add by lia;
        reflexivity).
  replace ((y + 400 * k) mod 400) with (y mod 400)
    by (replace (y + 400 * k) with (y + k * 400) by lia; rewrite Z.mod_add by lia;
        reflexivity).
  reflexivity.
Qed.

(** Four hundred years are 146097 days. *)
Lemma first_day_shift (y m k : Z) :
  Civil.first_day (y + 400 * k) m = Civil.first_day y m + 146097 * k.
Proof.
  unfold Civil.first_day.
  assert (Hm : Civil.days_before_month (y + 400 * k) m = Civil.days_before_month y m).
  { unfold Civil.days_before_month. f_equal. apply map_ext. intros i.
    unfold Civil.days_in_month. rewrite is_leap_shift. reflexivity. }
  assert (Hy : Civil.days_before_year (y + 400 * k) = Civil.days_before_year y + 146097 * k).
  { unfold Civil.days_before_year, Civil.leap_years_before.
    assert (H4 : (y + 400 * k - 1) / 4 = (y - 1) / 4 + 100 * k).
    { replace (y + 400 * k - 1) with (y - 1 + 100 * k * 4) by lia. apply Z.div_add. lia. }
    assert (H100 : (y + 400 * k - 1) / 100 = (y - 1) / 100 + 4 * k).
    { replace (y + 400 * k - 1) with (y - 1 + 4 * k * 100) by lia. apply Z.div_add. lia. }
    assert (H400 : (y + 400 * k - 1) / 400 = (y - 1) / 400 + k).
    { replace (y + 400 * k - 1) with (y - 1 + k * 400) by lia. apply Z.div_add. lia. }
    rewrite H4, H100, H400. lia. }
  rewrite Hm, Hy. lia.
Qed.

(** [date_trunc('month', now)] is the start of a month of the civil
    calendar, and [now] lies in that month. *)
Lemma date_trunc_month_start (now : Z) :
  exists y m,
    1 <= m <= 12
    /\ Calendar.date_trunc_month now = Civil.month_start y m
    /\ Civil.month_start y m <= now < Civil.next_month_start y m.
Proof.
  set (d := Calendar.day_number now).
  set (x := (d + 719468) mod 146097).
  set (k := (d + 719468) / 146097).
  pose proof (Z.mod_pos_bound (d + 719468) 146097 ltac:(lia)) as Hx. fold x in Hx.
  pose proof (Z.div_mod (d + 719468) 146097 ltac:(lia)) as Hd. fold x k in Hd.
  pose proof (all_below_spec 146097 month_start_is_first month_starts_checked x Hx)
    as Hcell.
  unfold month_start_is_first in Hcell. cbv zeta in Hcell.
  pose proof (year_month_periodic d) as Hym. fold x k in Hym.
  pose proof (day_of_month_periodic d) as Hdom. fold x in Hdom.
  set (d0 := x - 719468) in *.
  set (y0 := fst (Calendar.year_month d0)) in *.
  set (m := snd (Calendar.year_month d0)) in *.
  apply andb_prop in Hcell as [Hcell Hnext].
  apply andb_prop in Hcell as [Hcell Hle].
  apply andb_prop in Hcell as [Hcell Hfirst].
  apply andb_prop in Hcell as [Hm1 Hm12].
  apply Z.leb_le in Hm1, Hm12, Hle. apply Z.eqb_eq in Hfirst.
  pose proof (day_number_spec now) as Hnow. fold d in Hnow.
  exists (y0 + 400 * k), m. split; [lia|].
  assert (Hstart : Calendar.date_trunc_month now = Civil.month_start (y0 + 400 * k) m).
  { unfold Calendar.date_trunc_month, Civil.month_start. fold d.
    rewrite first_day_shift, Hfirst, Hdom. unfold Calendar.day. lia. }
  split; [exact Hstart|]. rewrite <- Hstart.
  unfold Calendar.date_trunc_month. fold d. rewrite Hdom.
  unfold Civil.next_month_start, Civil.month_start, Calendar.day in *.
  split; [lia|].
  destruct (m =? 12).
  - apply Z.ltb_lt in Hnext.
    replace (y0 + 400 * k + 1) with (y0 + 1 + 400 * k) by lia.
    rewrite first_day_shift. lia.
  - apply Z.ltb_lt in Hnext. rewrite first_day_shift. lia.
Qed.

(** [date_trunc('week', now)] is the start of a Monday, and [now] lies in
    the week that starts there. *)
Lemma date_trunc_week_start (now : Z) :
  exists k,
    Calendar.date_trunc_week now = Civil.week_start k
    /\ Civil.week_start k <= now < Civil.week_start (k + 1).
Proof.
  exists ((Calendar.day_number now + 3) / 7 - 1).
  pose proof (date_trunc_week_bounds now) as Hb.
  assert (Hstart : Calendar.date_trunc_week now
                   = Civil.week_start ((Calendar.day_number now + 3) / 7 - 1)).
  { unfold Calendar.date_trunc_week, Calendar.weekday, Civil.week_start, Calendar.day.
    pose proof (Z.div_mod (Calendar.day_number now + 3) 7 ltac:(lia)). lia. }
  split; [exact Hstart|]. rewrite <- Hstart.
  replace (Civil.week_start ((Calendar.day_number now + 3) / 7 - 1 + 1))
    with (Calendar.date_trunc_week now + 7 * Calendar.day).
  - exact Hb.
  - rewrite Hstart. unfold Civil.week_start, Calendar.day. lia.
Qed.

End CalendarFacts.

(** ** ORDER BY *)

Section SortFacts.

Context {A : Type} (le : A -> A -> bool).

Lemma insert_by_perm (a : A) (l : list A) : Permutation (Sql.insert_by le a l) (a :: l).
Proof.
  induction l as [|b l IH]; simpl; [reflexivity|].
  destruct (le a b); [reflexivity|].
  rewrite IH. apply perm_swap.
Qed.

Lemma sort_by_perm (l : list A) : Permutation (Sql.sort_by le l) l.
Proof.
  induction l as [|a l IH]; simpl; [reflexivity|].
  rewrite insert_by_perm, IH. reflexivity.
Qed.

Hypothesis le_total : forall a b, le a b = true \/ le b a = true.
Hypothesis le_trans : forall a b c, le a b = true -> le b c = true -> le a c = true.

Lemma insert_by_sorted (a : A) (l : list A) :
  StronglySorted (fun x y => le x y = true) l ->
  StronglySorted (fun x y => le x y = true) (Sql.insert_by le a l).
Proof.
  induction 1 as [|b l Hsorted IH Hall]; simpl.
  - repeat constructor.
  - destruct (le a b) eqn:Hab.
    + constructor; [constructor; assumption|].
      constructor; [exact Hab|].
      eapply List.Forall_impl; [|exact Hall]. intros c Hbc. simpl in Hbc. eauto.
    + constructor; [exact IH|].
      apply (Permutation_Forall (Permutation_sym (insert_by_perm a l))).
      constructor; [|exact Hall].
      destruct (le_total a b) as [H|H]; [congruence|exact H].
Qed.

Lemma sort_by_sorted (l : list A) :
  StronglySorted (fun x y => le x y = true) (Sql.sort_by le l).
Proof.
  induction l as [|a l IH]; simpl; [constructor|].
  apply insert_by_sorted, IH.
Qed.

End SortFacts.

(** ** Leaderboard *)

Section LeaderboardFacts.

Local Open Scope Z_scope.

Import Leaderboard.

Lemma count_greater_perm (l1 l2 : list Z) (t : Z) :
  Permutation l1 l2 -> count_greater l1 t = count_greater l2 t.
Proof.
  intros Hperm. unfold count_greater. f_equal.
  induction Hperm; simpl; repeat (destruct (_ <? _)); simpl; congruence.
Qed.

(** In a list in descending order of total, the rows before the first peer
    of a row are the rows with a greater total. *)
Lemma first_peer_count (sorted : list (UserScore * Profile.t)) (t : Z) :
  StronglySorted (fun a b => (us_total_score (fst b) <=? us_total_score (fst a)) = true)
                 sorted ->
  In t (map (fun r => us_total_score (fst r)) sorted) ->
  Z.of_nat (first_peer t sorted)
  = count_greater (map (fun r => us_total_score (fst r)) sorted) t.
Proof.
  unfold count_greater.
  induction 1 as [|r rest Hsorted IH Hall]; intros Hin; [contradiction|].
  simpl. destruct (us_total_score (fst r) =? t) eqn:Heq.
  - apply Z.eqb_eq in Heq. rewrite (proj2 (Z.ltb_ge _ _)) by lia.
    replace (List.filter (fun t' => t <? t')
                         (map (fun r0 => us_total_score (fst r0)) rest)) with (@nil Z);
      [reflexivity|].
    symmetry. apply existsb_false_filter. apply not_true_is_false. intros Hex.
    apply existsb_exists in Hex as (t' & Ht' & Hlt).
    apply in_map_iff in Ht' as (r' & <- & Hr').
    rewrite List.Forall_forall in Hall. specialize (Hall r' Hr').
    apply Z.leb_le in Hall. apply Z.ltb_lt in Hlt. lia.
  - apply Z.eqb_neq in Heq.
    assert (Hin' : In t (map (fun r0 => us_total_score (fst r0)) rest)).
    { destruct Hin as [Hin|Hin]; [congruence|exact Hin]. }
    assert (Hlt : t < us_total_score (fst r)).
    { apply in_map_iff in Hin' as (r' & <- & Hr').
      rewrite List.Forall_forall in Hall. specialize (Hall r' Hr').
      apply Z.leb_le in Hall. lia. }
    rewrite (proj2 (Z.ltb_lt _ _) Hlt). simpl length.
    specialize (IH Hin'). lia.
Qed.

Lemma ranked_totals (rows : list (UserScore * Profile.t)) :
  map total_score (ranked rows)
  = map (fun r => us_total_score (fst r))
        (Sql.sort_by (fun a b => us_total_score (fst b) <=? us_total_score (fst a)) rows).
Proof. unfold ranked. rewrite map_map. reflexivity. Qed.

(** The rank given to a row is one more than the number of rows with a
    greater total. *)
Lemma ranked_rank (rows : list (UserScore * Profile.t)) :
  Forall (fun e => rank e = count_greater (map total_score (ranked rows)) (total_score e) + 1)
         (ranked rows).
Proof.
  rewrite ranked_totals. unfold ranked.
  set (sorted := Sql.sort_by _ rows).
  assert (Hsorted : StronglySorted
            (fun a b => (us_total_score (fst b) <=? us_total_score (fst a)) = true) sorted).
  { apply (sort_by_sorted (fun a b => us_total_score (fst b) <=? us_total_score (fst a))).
    - intros a b. destruct (Z.le_ge_cases (us_total_score (fst a)) (us_total_score (fst b)));
        [right|left]; apply Z.leb_le; assumption.
    - intros a b c Hab Hbc. apply Z.leb_le in Hab, Hbc. apply Z.leb_le. lia. }
  apply List.Forall_forall. intros e He.
  apply in_map_iff in He as (r & <- & Hr). simpl. unfold RANK.
  rewrite (first_peer_count sorted (us_total_score (fst r)) Hsorted); [reflexivity|].
  apply in_map_iff. exists r. split; [reflexivity|exact Hr].
Qed.

End LeaderboardFacts.

Section LeaderboardClaims.

Local Open Scope Z_scope.

Import Leaderboard.

Lemma StronglySorted_leb (l : list Entry) :
  StronglySorted (fun a b => (rank a <=? rank b) = true) l ->
  StronglySorted (fun a b => rank a <= rank b) l.
Proof.
  induction 1 as [|a l Hsorted IH Hall]; constructor; [exact IH|].
  eapply List.Forall_impl; [|exact Hall]. intros b Hb. apply Z.leb_le, Hb.
Qed.

Lemma leaderboard_perm time_filter now db :
  Permutation (get_user_leaderboard time_filter now db)
              (ranked (joined time_filter now db)).
Proof. apply sort_by_perm. Qed.

(** The result depends on the attempts only through the rows that pass the
    window. *)
Lemma leaderboard_of_window time_filter now db1 db2 :
  windowed time_filter now db1 = windowed time_filter now db2 ->
  profiles db1 = profiles db2 ->
  get_user_leaderboard time_filter now db1 = get_user_leaderboard time_filter now db2.
Proof.
  intros Hw Hp. unfold get_user_leaderboard, joined, user_scores. rewrite Hw, Hp.
  reflexivity.
Qed.

End LeaderboardClaims.

(** C1 (as stated). With totals 300, 300, 200 and 100 the ranks are 1, 1, 3
    and 4: after the two rows that share rank 1 the next rank is 3, while
    dense ranking would give 1, 1, 2, 3. *)
Lemma leaderboard_ranks_have_gaps :
  map (fun e => (Leaderboard.user_id e, Leaderboard.total_score e, Leaderboard.rank e))
      (Leaderboard.get_user_leaderboard "all" 1751173925 Sample.leaderboard_db)
  = [("u1", 300, 1); ("u2", 300, 1); ("u3", 200, 3); ("u4", 100, 4)]
  /\ map (Leaderboard.dense_rank [300; 300; 200; 100]) [300; 300; 200; 100] = [1; 1; 2; 3]
  /\ map Leaderboard.rank
         (Leaderboard.get_user_leaderboard "all" 1751173925 Sample.leaderboard_db)
     <> [1; 1; 2; 3].
Proof. vm_compute. repeat split. discriminate. Qed.

(** C1 (amended). The rank of an entry is one more than the number of
    entries with a strictly greater total_score (SQL RANK(), ranking with
    gaps): entries with equal totals have equal ranks, and the result is in
    ascending order of rank. *)
Theorem leaderboard_rank_counts_greater (time_filter : string) (now : timestamptz) (db : DB) :
  let lb := Leaderboard.get_user_leaderboard time_filter now db in
  Forall (fun e => Leaderboard.rank e
                   = Leaderboard.count_greater (map Leaderboard.total_score lb)
                                               (Leaderboard.total_score e) + 1) lb
  /\ Forall (fun e =>
               Forall (fun e' => Leaderboard.total_score e = Leaderboard.total_score e' ->
                                 Leaderboard.rank e = Leaderboard.rank e') lb) lb
  /\ StronglySorted (fun a b => Leaderboard.rank a <= Leaderboard.rank b) lb.
Proof.
  intros lb.
  assert (Hperm : Permutation lb (Leaderboard.ranked (Leaderboard.joined time_filter now db)))
    by apply leaderboard_perm.
  assert (Hrank : Forall (fun e => Leaderboard.rank e
                     = Leaderboard.count_greater (map Leaderboard.total_score lb)
                                                 (Leaderboard.total_score e) + 1) lb).
  { apply (Permutation_Forall (Permutation_sym Hperm)).
    eapply List.Forall_impl; [|apply ranked_rank].
    intros e He. simpl in He. rewrite He. f_equal.
    apply count_greater_perm, Permutation_map, Permutation_sym, Hperm. }
  split; [exact Hrank|]. split.
  - rewrite List.Forall_forall in Hrank.
    apply List.Forall_forall. intros e He. apply List.Forall_forall. intros e' He' Heq.
    rewrite (Hrank e He), (Hrank e' He'), Heq. reflexivity.
  - apply StronglySorted_leb.
    apply (sort_by_sorted (fun a b => Leaderboard.rank a <=? Leaderboard.rank b)).
    + intros a b. destruct (Z.le_ge_cases (Leaderboard.rank a) (Leaderboard.rank b));
        [left|right]; apply Z.leb_le; assumption.
    + intros a b c Hab Hbc. apply Z.leb_le in Hab, Hbc. apply Z.leb_le. lia.
Qed.

Lemma leaderboard_rank_counts_greater_witness :
  Forall (fun e => Leaderboard.rank e
                   = Leaderboard.count_greater [300; 300; 200; 100]
                                               (Leaderboard.total_score e) + 1)
         (Leaderboard.get_user_leaderboard "all" 1751173925 Sample.leaderboard_db).
Proof.
  pose proof (leaderboard_rank_counts_greater "all" 1751173925 Sample.leaderboard_db)
    as (Hrank & _ & _).
  assert (Htotals : map Leaderboard.total_score
            (Leaderboard.get_user_leaderboard "all" 1751173925 Sample.leaderboard_db)
          = [300; 300; 200; 100]) by (vm_compute; reflexivity).
  rewrite Htotals in Hrank. exact Hrank.
Defined.

Section WindowFacts.

Local Open Scope Z_scope.

Import Leaderboard.

Lemma ge_null_iff (x : option Z) (y : Z) :
  Sql.ge_null x y = true <-> exists t, x = Some t /\ y <= t.
Proof.
  unfold Sql.ge_null. destruct x as [v|].
  - rewrite Z.leb_le. split.
    + intros H. exists v. split; [reflexivity|exact H].
    + intros (t & Ht & Hle). congruence.
  - split; [discriminate|]. intros (t & Ht & _). discriminate.
Qed.

(** An attempt completed at least 31 days ago is in neither window. *)
Lemma old_attempt_outside (now t : Z) (qa : Attempt.t) :
  Attempt.completed_at qa = Some t ->
  t + 31 * Calendar.day <= now ->
  in_window "month" now qa = false /\ in_window "week" now qa = false.
Proof.
  intros Hc Hold. unfold in_window. simpl. rewrite Hc. simpl.
  pose proof (date_trunc_month_bounds now). pose proof (date_trunc_week_bounds now).
  unfold Calendar.day in *. split; apply Z.leb_gt; lia.
Qed.

Lemma windowed_without time_filter now db before qa after :
  quiz_attempts db = before ++ qa :: after ->
  in_window time_filter now qa = false ->
  windowed time_filter now db
  = windowed time_filter now (with_attempts db (before ++ after)).
Proof.
  intros Hrows Hout. unfold windowed, with_attempts. simpl. rewrite Hrows.
  rewrite !List.filter_app. simpl. rewrite Hout. reflexivity.
Qed.

End WindowFacts.

(** ** The leaderboard's entries *)

Section BoardFacts.

Local Open Scope Z_scope.

Lemma board_In time_filter now db e :
  In e (Leaderboard.get_user_leaderboard time_filter now db)
  <-> In e (Leaderboard.ranked (Leaderboard.joined time_filter now db)).
Proof.
  split; apply Permutation_in; [|apply Permutation_sym]; apply leaderboard_perm.
Qed.

Lemma sorted_In {A : Type} (le : A -> A -> bool) (l : list A) (x : A) :
  In x (Sql.sort_by le l) <-> In x l.
Proof. split; apply Permutation_in; [|apply Permutation_sym]; apply sort_by_perm. Qed.

Lemma ranked_In rows e :
  In e (Leaderboard.ranked rows)
  <-> exists r rk,
        In r rows
        /\ e = Leaderboard.mkEntry (Leaderboard.us_user_id r.1) (Profile.full_name r.2)
                 (Leaderboard.us_total_score r.1) (Leaderboard.us_quiz_count r.1)
                 (Leaderboard.us_average_score r.1) rk
        /\ rk = Leaderboard.RANK
                  (Sql.sort_by (fun a b => Leaderboard.us_total_score b.1
                                           <=? Leaderboard.us_total_score a.1) rows) r.
Proof.
  unfold Leaderboard.ranked. rewrite in_map_iff. split.
  - intros (r & <- & Hr). apply sorted_In in Hr. exists r. eexists. eauto.
  - intros (r & rk & Hr & -> & ->). exists r. split; [reflexivity|]. apply sorted_In, Hr.
Qed.

Lemma joined_In time_filter now db us p :
  In (us, p) (Leaderboard.joined time_filter now db)
  <-> In us (Leaderboard.user_scores time_filter now db)
      /\ In p (profiles db) /\ Leaderboard.us_user_id us = Profile.id p.
Proof.
  unfold Leaderboard.joined. rewrite in_flat_map. split.
  - intros (us' & Hus & Hin). apply in_map_iff in Hin as (p' & Heq & Hp).
    injection Heq as -> ->. apply filter_In in Hp as [Hp Hid].
    apply String.eqb_eq in Hid. repeat split; assumption.
  - intros (Hus & Hp & Hid). exists us. split; [exact Hus|].
    apply in_map_iff. exists p. split; [reflexivity|]. apply filter_In.
    split; [exact Hp|]. apply String.eqb_eq, Hid.
Qed.

Lemma user_scores_In time_filter now db us :
  In us (Leaderboard.user_scores time_filter now db)
  <-> exists u,
        In u (map Attempt.user_id (Leaderboard.windowed time_filter now db))
        /\ us = Leaderboard.mkUserScore u
                  (Sql.SUM (scores_in_window time_filter now db u))
                  (Sql.COUNT (scores_in_window time_filter now db u))
                  (Sql.AVG (scores_in_window time_filter now db u)).
Proof.
  unfold Leaderboard.user_scores. rewrite in_map_iff. split.
  - intros (u & <- & Hu). exists u. split; [|reflexivity].
    rewrite <- list_elem_of_In, elem_of_remove_dups, list_elem_of_In in Hu. exact Hu.
  - intros (u & Hu & ->). exists u. split; [reflexivity|].
    rewrite <- list_elem_of_In, elem_of_remove_dups, list_elem_of_In. exact Hu.
Qed.

Lemma scores_in_window_nonempty time_filter now db u :
  In u (map Attempt.user_id (Leaderboard.windowed time_filter now db)) ->
  scores_in_window time_filter now db u <> [].
Proof.
  intros Hu Hnil. apply in_map_iff in Hu as (a & Hid & Ha).
  assert (Hin : In (Attempt.score a) (scores_in_window time_filter now db u)).
  { apply in_map_iff. exists a. split; [reflexivity|]. apply filter_In.
    split; [exact Ha|]. apply String.eqb_eq, Hid. }
  rewrite Hnil in Hin. contradiction.
Qed.

(** What stands in an entry of the board. *)
Lemma board_entry time_filter now db e :
  In e (Leaderboard.get_user_leaderboard time_filter now db) ->
  In (Leaderboard.user_id e)
     (map Attempt.user_id (Leaderboard.windowed time_filter now db))
  /\ (exists p, In p (profiles db) /\ Profile.id p = Leaderboard.user_id e
                /\ Profile.full_name p = Leaderboard.full_name e)
  /\ Leaderboard.total_score e
     = Sql.SUM (scores_in_window time_filter now db (Leaderboard.user_id e))
  /\ Leaderboard.quiz_count e
     = Sql.COUNT (scores_in_window time_filter now db (Leaderboard.user_id e))
  /\ Leaderboard.average_score e
     = Sql.AVG (scores_in_window time_filter now db (Leaderboard.user_id e)).
Proof.
  intros He. apply board_In, ranked_In in He as ([us p] & rk & Hr & -> & _).
  apply joined_In in Hr as (Hus & Hp & Hid).
  apply user_scores_In in Hus as (u & Hu & ->). simpl in *.
  split; [exact Hu|]. split; [|repeat split].
  exists p. repeat split; [exact Hp|congruence].
Qed.

(** Who is on the board. *)
Lemma board_users time_filter now db u :
  In u (map Leaderboard.user_id (Leaderboard.get_user_leaderboard time_filter now db))
  <-> In u (map Attempt.user_id (Leaderboard.windowed time_filter now db))
      /\ In u (map Profile.id (profiles db)).
Proof.
  split.
  - intros Hin. apply in_map_iff in Hin as (e & <- & He).
    destruct (board_entry _ _ _ _ He) as (Hu & (p & Hp & Hid & _) & _).
    split; [exact Hu|]. apply in_map_iff. exists p. split; assumption.
  - intros [Hu Hp]. apply in_map_iff in Hp as (p & Hid & Hp).
    apply in_map_iff. eexists. split; [|apply board_In, ranked_In].
    2:{ exists (Leaderboard.mkUserScore u
                  (Sql.SUM (scores_in_window time_filter now db u))
                  (Sql.COUNT (scores_in_window time_filter now db u))
                  (Sql.AVG (scores_in_window time_filter now db u)), p).
        eexists. split; [|split; reflexivity].
        apply joined_In. split; [|split; [exact Hp|simpl; congruence]].
        apply user_scores_In. exists u. split; [exact Hu|reflexivity]. }
    reflexivity.
Qed.

(** When the WHERE clause lets through the attempts that count from
    [windowStart] on, the board is made of these attempts. *)
Lemma scores_of_counts time_filter now db windowStart u :
  (forall qa, Leaderboard.in_window time_filter now qa = SpecWindow.counts windowStart qa) ->
  scores_in_window time_filter now db u
  = map Attempt.score (SpecWindow.attempts_of windowStart db u).
Proof.
  intros Hwin. unfold scores_in_window, SpecWindow.attempts_of, Leaderboard.windowed.
  rewrite filter_andb. f_equal. f_equal. apply List.filter_ext, Hwin.
Qed.

Lemma users_of_counts time_filter now db windowStart u :
  (forall qa, Leaderboard.in_window time_filter now qa = SpecWindow.counts windowStart qa) ->
  In u (map Attempt.user_id (Leaderboard.windowed time_filter now db))
  <-> SpecWindow.attempts_of windowStart db u <> [].
Proof.
  intros Hwin. unfold SpecWindow.attempts_of, Leaderboard.windowed. split.
  - intros Hin Hnil. apply in_map_iff in Hin as (a & Hid & Ha).
    apply filter_In in Ha as [Ha Hw].
    assert (Hin : In a (List.filter
                          (fun qa => String.eqb (Attempt.user_id qa) u
                                     && SpecWindow.counts windowStart qa)
                          (quiz_attempts db))).
    { apply filter_In. split; [exact Ha|].
      rewrite <- Hwin, Hw, Hid, String.eqb_refl. reflexivity. }
    rewrite Hnil in Hin. contradiction.
  - intros Hne.
    destruct (List.filter _ (quiz_attempts db)) as [|a l] eqn:Hf; [congruence|].
    assert (Hin : In a (List.filter
                          (fun qa => String.eqb (Attempt.user_id qa) u
                                     && SpecWindow.counts windowStart qa)
                          (quiz_attempts db))) by (rewrite Hf; left; reflexivity).
    apply filter_In in Hin as [Ha Hc]. apply andb_prop in Hc as [Hid Hc].
    apply String.eqb_eq in Hid. apply in_map_iff. exists a. split; [exact Hid|].
    apply filter_In. split; [exact Ha|]. rewrite Hwin. exact Hc.
Qed.

Lemma board_of_counts time_filter now db windowStart :
  (forall qa, Leaderboard.in_window time_filter now qa = SpecWindow.counts windowStart qa) ->
  let lb := Leaderboard.get_user_leaderboard time_filter now db in
  (forall u, In u (map Leaderboard.user_id lb)
             <-> SpecWindow.attempts_of windowStart db u <> []
                 /\ In u (map Profile.id (profiles db)))
  /\ Forall (fun e =>
               let mine := SpecWindow.attempts_of windowStart db (Leaderboard.user_id e) in
               Leaderboard.total_score e = Sql.SUM (map Attempt.score mine)
               /\ Leaderboard.quiz_count e = Z.of_nat (length mine)) lb.
Proof.
  intros Hwin lb. split.
  - intros u. unfold lb. rewrite board_users, (users_of_counts _ _ _ windowStart u Hwin).
    reflexivity.
  - apply List.Forall_forall. intros e He.
    destruct (board_entry _ _ _ _ He) as (_ & _ & Ht & Hc & _).
    rewrite (scores_of_counts _ _ _ windowStart _ Hwin) in Ht, Hc.
    cbv zeta. split; [exact Ht|]. rewrite Hc. unfold Sql.COUNT. rewrite length_map.
    reflexivity.
Qed.

End BoardFacts.

(** C7. The attempts that count are those with [completed_at >=
    windowStart(timeWindow)]: no bound for 'all', the start of the month of
    the civil calendar in which [now] lies for 'month', and the start of
    the week, from Monday, in which [now] lies for 'week'.  On each of the
    three boards the users are those with a profile and an attempt that
    counts, and an entry adds up the attempts of its user that count.  An
    attempt completed a year ago does not count for 'month' and 'week',
    whose boards are the boards of the store without it, and counts for
    'all', where its user is on the board. *)
Theorem leaderboard_window (now : timestamptz) (db : DB) :
  exists y m k,
    1 <= m <= 12
    /\ Civil.month_start y m <= now < Civil.next_month_start y m
    /\ Civil.week_start k <= now < Civil.week_start (k + 1)
    /\ (forall time_filter windowStart,
          In (time_filter, windowStart)
             [("all", None);
              ("month", Some (Civil.month_start y m));
              ("week", Some (Civil.week_start k))] ->
          let lb := Leaderboard.get_user_leaderboard time_filter now db in
          (forall u, In u (map Leaderboard.user_id lb)
                     <-> SpecWindow.attempts_of windowStart db u <> []
                         /\ In u (map Profile.id (profiles db)))
          /\ Forall (fun e =>
                       let mine := SpecWindow.attempts_of windowStart db
                                     (Leaderboard.user_id e) in
                       Leaderboard.total_score e = Sql.SUM (map Attempt.score mine)
                       /\ Leaderboard.quiz_count e = Z.of_nat (length mine)) lb)
    /\ (forall qa t,
          In qa (quiz_attempts db) ->
          Attempt.completed_at qa = Some t ->
          t + 365 * Calendar.day <= now ->
          In qa (SpecWindow.attempts_of None db (Attempt.user_id qa))
          /\ ~ In qa (SpecWindow.attempts_of (Some (Civil.month_start y m)) db
                        (Attempt.user_id qa))
          /\ ~ In qa (SpecWindow.attempts_of (Some (Civil.week_start k)) db
                        (Attempt.user_id qa))
          /\ (In (Attempt.user_id qa) (map Profile.id (profiles db)) ->
              In (Attempt.user_id qa)
                 (map Leaderboard.user_id (Leaderboard.get_user_leaderboard "all" now db)))
          /\ (forall before after,
                quiz_attempts db = before ++ qa :: after ->
                Leaderboard.get_user_leaderboard "month" now db
                = Leaderboard.get_user_leaderboard "month" now
                    (Leaderboard.with_attempts db (before ++ after))
                /\ Leaderboard.get_user_leaderboard "week" now db
                   = Leaderboard.get_user_leaderboard "week" now
                       (Leaderboard.with_attempts db (before ++ after)))).
Proof.
  destruct (date_trunc_month_start now) as (y & m & Hm & Hms & Hmb).
  destruct (date_trunc_week_start now) as (k & Hws & Hwb).
  exists y, m, k.
  assert (Hall : forall qa, Leaderboard.in_window "all" now qa = SpecWindow.counts None qa)
    by reflexivity.
  assert (Hmonth : forall qa, Leaderboard.in_window "month" now qa
                              = SpecWindow.counts (Some (Civil.month_start y m)) qa).
  { intros qa. unfold Leaderboard.in_window. simpl. rewrite Hms. reflexivity. }
  assert (Hweek : forall qa, Leaderboard.in_window "week" now qa
                             = SpecWindow.counts (Some (Civil.week_start k)) qa).
  { intros qa. unfold Leaderboard.in_window. simpl. rewrite Hws. reflexivity. }
  split; [exact Hm|]. split; [exact Hmb|]. split; [exact Hwb|]. split.
  - intros time_filter windowStart Hin.
    destruct Hin as [Heq|[Heq|[Heq|[]]]]; injection Heq as <- <-;
      apply board_of_counts; assumption.
  - intros qa t Hqa Hc Hold.
    destruct (old_attempt_outside now t qa Hc) as [Hom How].
    { unfold Calendar.day in *. lia. }
    rewrite Hmonth in Hom. rewrite Hweek in How.
    assert (Hcounted : In qa (SpecWindow.attempts_of None db (Attempt.user_id qa))).
    { apply filter_In. split; [exact Hqa|]. rewrite String.eqb_refl. reflexivity. }
    split; [exact Hcounted|].
    split.
    { intros Hin. apply filter_In in Hin as [_ Hin]. rewrite Hom, andb_false_r in Hin.
      discriminate. }
    split.
    { intros Hin. apply filter_In in Hin as [_ Hin]. rewrite How, andb_false_r in Hin.
      discriminate. }
    split.
    { intros Hp. apply (board_of_counts "all" now db None Hall). split; [|exact Hp].
      intros Hnil. rewrite Hnil in Hcounted. contradiction. }
    intros before after Hrows.
    rewrite <- Hmonth in Hom. rewrite <- Hweek in How.
    split; apply leaderboard_of_window; try reflexivity;
      apply (windowed_without _ now db before qa after); assumption.
Qed.

Lemma leaderboard_window_witness :
  In "u1" (map Leaderboard.user_id
               (Leaderboard.get_user_leaderboard "all" 1751173925 Sample.db_with_old))
  /\ Leaderboard.get_user_leaderboard "month" 1751173925 Sample.db_with_old
     = Leaderboard.get_user_leaderboard "month" 1751173925
         (Leaderboard.with_attempts Sample.db_with_old
            [Sample.attempt "a1" "u4" 100 1751000000;
             Sample.attempt "a2" "u1" 100 1751000001]).
Proof.
  destruct (leaderboard_window 1751173925 Sample.db_with_old)
    as (y & m & k & _ & _ & _ & _ & Hold).
  destruct (Hold Sample.old_attempt (1751173925 - 365 * 86400))
    as (_ & _ & _ & Hall & Hwithout).
  - right. left. reflexivity.
  - reflexivity.
  - vm_compute. discriminate.
  - split.
    + apply Hall. left. reflexivity.
    + apply (Hwithout [Sample.attempt "a1" "u4" 100 1751000000]
                      [Sample.attempt "a2" "u1" 100 1751000001]).
      reflexivity.
Defined.

(** The window starts of the sample instant, Sunday, 29 June 2025: the
    month starts on 1 June 2025 and the week on Monday, 23 June 2025. *)
Example window_starts_of_sample :
  Calendar.date_trunc_month 1751173925 = 1748736000
  /\ Civil.month_start 2025 6 = 1748736000
  /\ Civil.next_month_start 2025 6 = 1751328000
  /\ Calendar.date_trunc_week 1751173925 = 1750636800
  /\ Civil.week_start 2894 = 1750636800
  /\ Civil.month_start 1970 1 = 0
  /\ Civil.month_start 2000 3 = 951868800.
Proof. vm_compute. repeat split. Qed.

(** The boards of the sample store: the user with only the old attempt and
    one recent attempt keeps the recent one in the 'month' board and has
    both in the 'all' board. *)
Example boards_of_sample :
  map (fun e => (Leaderboard.user_id e, Leaderboard.total_score e, Leaderboard.quiz_count e))
      (Leaderboard.get_user_leaderboard "month" 1751173925 Sample.db_with_old)
  = [("u4", 100, 1); ("u1", 100, 1)]
  /\ map (fun e => (Leaderboard.user_id e, Leaderboard.total_score e,
                    Leaderboard.quiz_count e))
         (Leaderboard.get_user_leaderboard "all" 1751173925 Sample.db_with_old)
     = [("u1", 190, 2); ("u4", 100, 1)].
Proof. vm_compute. split; reflexivity. Qed.

(** * Further properties *)

(** ** Statistics and submissions *)

Section StatsMore.

Local Open Scope Z_scope.

Lemma scores_of_quiz_update now quiz_id s db quiz_id' :
  scores_of_quiz quiz_id' (update_quiz_stats now quiz_id s db) = scores_of_quiz quiz_id' db.
Proof. unfold scores_of_quiz. rewrite update_keeps_attempts. reflexivity. Qed.

Lemma quiz_row_update_other now quiz_id s db quiz_id' :
  quiz_id' <> quiz_id ->
  quiz_row quiz_id' (update_quiz_stats now quiz_id s db) = quiz_row quiz_id' db.
Proof.
  intros Hne. rewrite update_quiz_stats_eq.
  destruct (countable quiz_id db); [|reflexivity].
  unfold quiz_row. simpl.
  induction (quizzes db) as [|q l IH]; simpl; [reflexivity|].
  destruct (String.eqb (Quiz.id q) quiz_id) eqn:E; simpl.
  - apply String.eqb_eq in E.
    destruct (String.eqb (Quiz.id q) quiz_id') eqn:E'.
    + apply String.eqb_eq in E'. congruence.
    + exact IH.
  - destruct (String.eqb (Quiz.id q) quiz_id'); [reflexivity|exact IH].
Qed.

End StatsMore.

(** X1. A call of [update_quiz_stats] for one quiz touches nothing else:
    the rows of quizzes with another id, the ids and the order of all quiz
    rows, and the other three tables are as before. *)
Theorem update_quiz_stats_frame (now : timestamptz) (quiz_id : uuid) (s : Z) (db : DB) :
  List.filter (fun q => negb (String.eqb (Quiz.id q) quiz_id))
              (quizzes (update_quiz_stats now quiz_id s db))
  = List.filter (fun q => negb (String.eqb (Quiz.id q) quiz_id)) (quizzes db)
  /\ map Quiz.id (quizzes (update_quiz_stats now quiz_id s db)) = map Quiz.id (quizzes db)
  /\ (forall quiz_id', quiz_id' <> quiz_id ->
        quiz_row quiz_id' (update_quiz_stats now quiz_id s db) = quiz_row quiz_id' db)
  /\ profiles (update_quiz_stats now quiz_id s db) = profiles db
  /\ questions (update_quiz_stats now quiz_id s db) = questions db
  /\ quiz_attempts (update_quiz_stats now quiz_id s db) = quiz_attempts db.
Proof.
  split; [|split; [|split; [|rewrite update_quiz_stats_eq;
                              destruct (countable quiz_id db); repeat split]]].
  - rewrite update_quiz_stats_eq. destruct (countable quiz_id db); [|reflexivity].
    simpl. induction (quizzes db) as [|q l IH]; simpl; [reflexivity|].
    destruct (String.eqb (Quiz.id q) quiz_id) eqn:E; simpl; rewrite E; simpl;
      rewrite IH; reflexivity.
  - rewrite update_quiz_stats_eq. destruct (countable quiz_id db); [|reflexivity].
    simpl. rewrite map_map. apply map_ext. intros q.
    destruct (String.eqb (Quiz.id q) quiz_id); reflexivity.
  - intros quiz_id' Hne. apply quiz_row_update_other, Hne.
Qed.

Lemma update_quiz_stats_frame_witness :
  quiz_row "quiz-2" (update_quiz_stats 1751173925 "quiz-1" 80 Sample.db)
  = quiz_row "quiz-2" Sample.db.
Proof.
  destruct (update_quiz_stats_frame 1751173925 "quiz-1" 80 Sample.db)
    as (_ & _ & Hother & _).
  apply Hother. discriminate.
Defined.

Section SubmitCases.

Local Open Scope Z_scope.

(** The two ways a submission can end. *)
Lemma submit_cases env st db :
  (fst (TakeQuiz.handleSubmitQuiz env st db) = db
   /\ (exists msg, In (ToastError msg) (snd (TakeQuiz.handleSubmitQuiz env st db)))
   /\ (forall r, ~ In (Navigate r) (snd (TakeQuiz.handleSubmitQuiz env st db))))
  \/ (exists u q z a,
        TakeQuiz.user st = Some u
        /\ TakeQuiz.quiz st = Some q
        /\ to_int4 (Scoring.score (TakeQuiz.questions st) (TakeQuiz.answers st)) = inr z
        /\ existsb (fun qa => String.eqb (Attempt.id qa) (gen_random_uuid env))
                   (quiz_attempts db) = false
        /\ a = Attempt.mk (gen_random_uuid env) (TakeQuiz.id q) (TakeQuiz.user_id u) z
                          (Z.of_nat (length (TakeQuiz.questions st)))
                          (TakeQuiz.timeTaken q (TakeQuiz.timeLeft st))
                          (TakeQuiz.answers st) (Some (now env)) (Some (now env))
        /\ fst (TakeQuiz.handleSubmitQuiz env st db)
           = (let db1 := mkDB (profiles db) (quizzes db) (questions db)
                              (quiz_attempts db ++ [a]) in
              if rpc_reachable env then update_quiz_stats (now env) (TakeQuiz.id q) z db1
              else db1)
        /\ snd (TakeQuiz.handleSubmitQuiz env st db)
           = [SetSubmitting true]
             ++ (if rpc_reachable env
                 then if countable (TakeQuiz.id q) db then []
                      else [ConsoleWarn "Failed to update quiz stats:"
                                        NumericValueOutOfRange]
                 else [ConsoleWarn "Failed to update quiz stats:" NetworkError])
             ++ [ToastSuccess "Quiz submitted successfully!";
                 Navigate (ResultsRoute (TakeQuiz.id q) (Attempt.id a));
                 SetSubmitting false]).
Proof.
  unfold TakeQuiz.handleSubmitQuiz.
  destruct (TakeQuiz.user st) as [u|].
  2:{ left. simpl. split; [reflexivity|]. split; [eexists; left; reflexivity|].
      intros r [H|[]]. discriminate. }
  destruct (TakeQuiz.quiz st) as [q|].
  2:{ left. simpl. split; [reflexivity|]. split; [eexists; left; reflexivity|].
      intros r [H|[]]. discriminate. }
  destruct (insert_quiz_attempt _ _ _ db) as [err|[db1 a]] eqn:Hins.
  { left. simpl. split; [reflexivity|]. split; [eexists; right; left; reflexivity|].
    intros r Hin. repeat destruct Hin as [Hin|Hin]; try discriminate; contradiction. }
  right. destruct (insert_inv _ _ _ _ _ _ Hins) as (z & Hz & _ & Hpk & Ha & Hdb1).
  simpl in Hz, Ha.
  exists u, q, z, a. repeat (split; [first [reflexivity|assumption]|]).
  unfold rpc_update_quiz_stats, update_quiz_stats, call_update_quiz_stats.
  apply to_int4_json in Hz. rewrite Hz, <- Hdb1.
  replace (countable (TakeQuiz.id q) db1) with (countable (TakeQuiz.id q) db)
    by (rewrite Hdb1; reflexivity).
  destruct (rpc_reachable env); simpl; [|split; reflexivity].
  destruct (countable (TakeQuiz.id q) db); split; reflexivity.
Qed.

End SubmitCases.

(** X4. A submission is all or nothing on the store: either the store is
    left as it was, an error toast is shown and there is no navigation, or
    exactly one attempt row is appended, with the signed-in user, the shown
    quiz, the number of questions and the answers of the submission and the
    time of the request, and the user is sent to the results page of that
    row; the profiles and the questions are never written. *)
Theorem submit_all_or_nothing (env : Env) (st : TakeQuiz.State) (db : DB) :
  (fst (TakeQuiz.handleSubmitQuiz env st db) = db
   /\ (exists msg, In (ToastError msg) (snd (TakeQuiz.handleSubmitQuiz env st db)))
   /\ (forall r, ~ In (Navigate r) (snd (TakeQuiz.handleSubmitQuiz env st db))))
  \/ (exists u q a,
        TakeQuiz.user st = Some u
        /\ TakeQuiz.quiz st = Some q
        /\ quiz_attempts (fst (TakeQuiz.handleSubmitQuiz env st db)) = quiz_attempts db ++ [a]
        /\ profiles (fst (TakeQuiz.handleSubmitQuiz env st db)) = profiles db
        /\ questions (fst (TakeQuiz.handleSubmitQuiz env st db)) = questions db
        /\ Attempt.user_id a = TakeQuiz.user_id u
        /\ Attempt.quiz_id a = TakeQuiz.id q
        /\ Attempt.total_questions a = Z.of_nat (length (TakeQuiz.questions st))
        /\ Attempt.answers a = TakeQuiz.answers st
        /\ Attempt.completed_at a = Some (now env)
        /\ ~ In (Attempt.id a) (map Attempt.id (quiz_attempts db))
        /\ In (ToastSuccess "Quiz submitted successfully!")
              (snd (TakeQuiz.handleSubmitQuiz env st db))
        /\ In (Navigate (ResultsRoute (TakeQuiz.id q) (Attempt.id a)))
              (snd (TakeQuiz.handleSubmitQuiz env st db))).
Proof.
  destruct (submit_cases env st db)
    as [Hfail|(u & q & z & a & Hu & Hq & Hz & Hpk & Ha & Hdb & Heff)];
    [left; exact Hfail|right].
  exists u, q, a. rewrite Hdb, Heff. split; [exact Hu|]. split; [exact Hq|].
  assert (Hid : Attempt.id a = gen_random_uuid env) by (rewrite Ha; reflexivity).
  cbv zeta.
  split; [destruct (rpc_reachable env); [rewrite update_keeps_attempts|]; reflexivity|].
  split; [destruct (rpc_reachable env); [rewrite update_keeps_profiles|]; reflexivity|].
  split; [destruct (rpc_reachable env); [rewrite update_keeps_questions|]; reflexivity|].
  rewrite Ha at 1 2 3 4 5. simpl.
  repeat (split; [reflexivity|]).
  split.
  { rewrite Hid. intros Hin. apply in_map_iff in Hin as (b & Hb & Hin).
    assert (existsb (fun qa => String.eqb (Attempt.id qa) (gen_random_uuid env))
                    (quiz_attempts db) = true).
    { apply existsb_exists. exists b. split; [exact Hin|]. apply String.eqb_eq, Hb. }
    congruence. }
  split; destruct (rpc_reachable env); try destruct (countable (TakeQuiz.id q) db);
    simpl; auto 10.
Qed.

Section LagFacts.

Local Open Scope Z_scope.

Lemma scores_after_insert quiz_id db a :
  scores_of_quiz quiz_id
    (mkDB (profiles db) (quizzes db) (questions db) (quiz_attempts db ++ [a]))
  = scores_of_quiz quiz_id db
    ++ (if String.eqb (Attempt.quiz_id a) quiz_id then [Attempt.score a] else []).
Proof. apply scores_of_quiz_app. Qed.

Lemma COUNT_snoc (l : list Z) (x : Z) : Sql.COUNT (l ++ [x]) = Sql.COUNT l + 1.
Proof. unfold Sql.COUNT. rewrite length_app. simpl. lia. Qed.

(** An attempt row without the statistics call: the counter of its quiz
    falls one more behind, the other quizzes are not concerned. *)
Lemma lag_insert_only k quiz_id db a :
  Stats.lag k quiz_id db ->
  Stats.lag (if String.eqb (Attempt.quiz_id a) quiz_id then k + 1 else k) quiz_id
            (mkDB (profiles db) (quizzes db) (questions db) (quiz_attempts db ++ [a])).
Proof.
  unfold Stats.lag. rewrite scores_after_insert. simpl quizzes.
  intros Hlag. eapply List.Forall_impl; [|exact Hlag]. intros q Hq Hid.
  rewrite (Hq Hid). destruct (String.eqb (Attempt.quiz_id a) quiz_id).
  - rewrite COUNT_snoc. f_equal. lia.
  - rewrite app_nil_r. reflexivity.
Qed.

(** An attempt row followed by a statistics call that goes through keeps
    every counter as far behind as it was. *)
Lemma lag_insert_update k quiz_id db a now s :
  countable (Attempt.quiz_id a) db = true ->
  Stats.lag k quiz_id db ->
  Stats.lag k quiz_id
    (update_quiz_stats now (Attempt.quiz_id a) s
       (mkDB (profiles db) (quizzes db) (questions db) (quiz_attempts db ++ [a]))).
Proof.
  intros Hc Hlag. pose proof (lag_insert_only k quiz_id db a Hlag) as H1.
  unfold Stats.lag in *. rewrite scores_of_quiz_update.
  rewrite update_quiz_stats_eq.
  replace (countable (Attempt.quiz_id a) (mkDB _ _ _ _)) with true.
  simpl quizzes in *. rewrite List.Forall_map.
  eapply List.Forall_impl; [|exact H1]. intros q Hq.
  destruct (String.eqb (Quiz.id q) (Attempt.quiz_id a)) eqn:E.
  - apply String.eqb_eq in E. simpl. intros Hid. rewrite Hid in E.
    rewrite (Hq Hid). rewrite <- E, String.eqb_refl. simpl. f_equal. lia.
  - intros Hid. rewrite (Hq Hid).
    destruct (String.eqb (Attempt.quiz_id a) quiz_id) eqn:E'; [|reflexivity].
    apply String.eqb_eq in E'. apply String.eqb_neq in E. congruence.
Qed.

Lemma average_after_update quiz_id db now s :
  countable quiz_id db = true ->
  Stats.average_current quiz_id (update_quiz_stats now quiz_id s db).
Proof.
  intros Hc.
  unfold Stats.average_current. rewrite scores_of_quiz_update.
  rewrite update_quiz_stats_eq, Hc. simpl quizzes.
  rewrite List.Forall_map. apply List.Forall_forall. intros q _.
  destruct (String.eqb (Quiz.id q) quiz_id) eqn:E; [reflexivity|].
  intros Hid. apply String.eqb_neq in E. congruence.
Qed.

(** No submission brings a counter nearer to the number of attempt
    rows. *)
Lemma submit_lag_grows env st db k quiz_id :
  Stats.lag k quiz_id db ->
  exists k', k <= k' /\ Stats.lag k' quiz_id (fst (TakeQuiz.handleSubmitQuiz env st db)).
Proof.
  intros Hlag.
  destruct (submit_cases env st db)
    as [(Hsame & _)|(u & q & z & a & _ & _ & _ & _ & Ha & Hdb & _)].
  - exists k. rewrite Hsame. split; [lia|exact Hlag].
  - rewrite Hdb. cbv zeta.
    pose proof (lag_insert_only k quiz_id db a Hlag) as H1.
    assert (Hq : TakeQuiz.id q = Attempt.quiz_id a) by (rewrite Ha; reflexivity).
    assert (Hk1 : exists k', k <= k' /\ Stats.lag k' quiz_id
                    (mkDB (profiles db) (quizzes db) (questions db)
                          (quiz_attempts db ++ [a]))).
    { eexists. split; [|exact H1]. destruct (String.eqb _ _); lia. }
    destruct (rpc_reachable env); [|exact Hk1].
    destruct (countable (Attempt.quiz_id a) db) eqn:Hc.
    + exists k. split; [lia|]. rewrite Hq. apply lag_insert_update; assumption.
    + rewrite update_quiz_stats_eq.
      replace (countable (TakeQuiz.id q) (mkDB _ _ _ _)) with false
        by (rewrite Hq, <- Hc; reflexivity).
      exact Hk1.
Qed.

Lemma submit_keeps_lag env st db k quiz_id :
  rpc_reachable env = true ->
  countable quiz_id db = true ->
  Stats.lag k quiz_id db ->
  Stats.lag k quiz_id (fst (TakeQuiz.handleSubmitQuiz env st db)).
Proof.
  intros Hup Hroom Hlag.
  destruct (submit_cases env st db)
    as [(Hsame & _)|(u & q & z & a & _ & _ & _ & _ & Ha & Hdb & _)].
  - rewrite Hsame. exact Hlag.
  - rewrite Hdb, Hup. cbv zeta.
    assert (Hq : TakeQuiz.id q = Attempt.quiz_id a) by (rewrite Ha; reflexivity).
    rewrite Hq.
    destruct (countable (Attempt.quiz_id a) db) eqn:Hc.
    + apply lag_insert_update; assumption.
    + rewrite update_quiz_stats_eq.
      replace (countable (Attempt.quiz_id a) (mkDB _ _ _ _)) with false
        by (rewrite <- Hc; reflexivity).
      pose proof (lag_insert_only k quiz_id db a Hlag) as H1.
      destruct (String.eqb (Attempt.quiz_id a) quiz_id) eqn:E; [|exact H1].
      apply String.eqb_eq in E. congruence.
Qed.

End LagFacts.

(** X2. With the statistics call reachable and the counter of a quiz
    below the end of the range of [integer], a submission keeps the
    distance between the number of attempt rows of the quiz and its
    total_attempts (in particular a counter that equals the number of rows
    keeps doing so), whether the submission fails, succeeds for this quiz
    or succeeds for another one; and after a successful submission to the
    quiz its average_score is [AVG] over all attempt rows of the quiz, their
    mean rounded to the scale of the division. *)
Theorem submit_keeps_stats (env : Env) (st : TakeQuiz.State) (db : DB) (k : Z)
    (quiz_id : uuid) :
  rpc_reachable env = true ->
  countable quiz_id db = true ->
  Stats.lag k quiz_id db ->
  Stats.lag k quiz_id (fst (TakeQuiz.handleSubmitQuiz env st db))
  /\ (forall attemptId,
        In (Navigate (ResultsRoute quiz_id attemptId))
           (snd (TakeQuiz.handleSubmitQuiz env st db)) ->
        let db' := fst (TakeQuiz.handleSubmitQuiz env st db) in
        Stats.average_current quiz_id db'
        /\ exists avg,
             Sql.AVG (scores_of_quiz quiz_id db') = Some avg
             /\ Numeric.rounded
                  (Numeric.select_div_scale (Sql.SUM (scores_of_quiz quiz_id db'))
                                            (Sql.COUNT (scores_of_quiz quiz_id db')))
                  (Stats.mean (scores_of_quiz quiz_id db')) avg).
Proof.
  intros Hup Hroom Hlag. split; [apply submit_keeps_lag; assumption|].
  intros attemptId Hnav.
  destruct (submit_cases env st db)
    as [(_ & _ & Hno)|(u & q & z & a & _ & _ & _ & _ & Ha & Hdb & Heff)].
  - exfalso. exact (Hno _ Hnav).
  - rewrite Heff, Hup in Hnav.
    assert (Hq : TakeQuiz.id q = quiz_id).
    { destruct (countable (TakeQuiz.id q) db); simpl in Hnav;
        repeat destruct Hnav as [Hnav|Hnav]; try discriminate; try contradiction;
        congruence. }
    cbv zeta. rewrite Hdb, Hup, Hq. cbv zeta. split.
    + apply average_after_update. exact Hroom.
    + rewrite scores_of_quiz_update, scores_after_insert.
      replace (Attempt.quiz_id a) with quiz_id by (rewrite Ha, <- Hq; reflexivity).
      rewrite String.eqb_refl.
      destruct (AVG_rounded (scores_of_quiz quiz_id db ++ [Attempt.score a]))
        as (avg & Havg & Hround & _).
      { intros H. apply app_eq_nil in H as [_ H]. discriminate. }
      exists avg. split; assumption.
Qed.

Lemma submit_keeps_stats_witness :
  Stats.lag 0 "quiz-1" (fst (TakeQuiz.handleSubmitQuiz Sample.env Sample.state Sample.db))
  /\ Stats.average_current "quiz-1"
       (fst (TakeQuiz.handleSubmitQuiz Sample.env Sample.state Sample.db)).
Proof.
  destruct (submit_keeps_stats Sample.env Sample.state Sample.db 0 "quiz-1")
    as [Hlag Havg].
  - reflexivity.
  - reflexivity.
  - repeat constructor.
  - split; [exact Hlag|]. apply (Havg "attempt-1").
    vm_compute. right. right. left. reflexivity.
Defined.

(** X3. When the attempt row is written and the statistics call then does
    not reach the store, total_attempts of the quiz falls one further
    behind the number of its attempt rows, and no later submissions make up
    for it, whether their statistics calls go through or not: a submission
    raises the counter by one at most, it never recounts. *)
Theorem failed_stats_call_is_never_made_up (env : Env) (st : TakeQuiz.State) (db : DB)
    (q : TakeQuiz.Quiz) (attemptId : uuid) (k : Z) (subs : list (Env * TakeQuiz.State)) :
  TakeQuiz.quiz st = Some q ->
  rpc_reachable env = false ->
  In (Navigate (ResultsRoute (TakeQuiz.id q) attemptId))
     (snd (TakeQuiz.handleSubmitQuiz env st db)) ->
  Stats.lag k (TakeQuiz.id q) db ->
  Stats.lag (k + 1) (TakeQuiz.id q) (fst (TakeQuiz.handleSubmitQuiz env st db))
  /\ exists k',
       k + 1 <= k'
       /\ Stats.lag k' (TakeQuiz.id q)
            (run_ops (Stats.submissions subs) (fst (TakeQuiz.handleSubmitQuiz env st db))).
Proof.
  intros Hq Hdown Hnav Hlag.
  assert (Hfirst : Stats.lag (k + 1) (TakeQuiz.id q)
                             (fst (TakeQuiz.handleSubmitQuiz env st db))).
  { destruct (submit_cases env st db)
      as [(_ & _ & Hno)|(u & q' & z & a & _ & Hq' & _ & _ & Ha & Hdb & _)].
    - exfalso. exact (Hno _ Hnav).
    - rewrite Hq in Hq'. injection Hq' as <-.
      rewrite Hdb, Hdown. cbv zeta.
      pose proof (lag_insert_only k (TakeQuiz.id q) db a Hlag) as H1.
      replace (Attempt.quiz_id a) with (TakeQuiz.id q) in H1 by (rewrite Ha; reflexivity).
      rewrite String.eqb_refl in H1. exact H1. }
  split; [exact Hfirst|].
  clear Hnav Hlag. revert Hfirst.
  generalize (fst (TakeQuiz.handleSubmitQuiz env st db)) as db0.
  generalize (k + 1) as k0.
  induction subs as [|sub subs IH]; intros k0 db0 Hlag.
  - exists k0. split; [lia|exact Hlag].
  - destruct (submit_lag_grows (fst sub) (snd sub) db0 k0 (TakeQuiz.id q) Hlag)
      as (k1 & Hk1 & Hlag1).
    destruct (IH k1 _ Hlag1) as (k' & Hk' & Hlag').
    exists k'. split; [lia|exact Hlag'].
Qed.

Lemma failed_stats_call_is_never_made_up_witness :
  exists k',
    1 <= k'
    /\ Stats.lag k' "quiz-1"
         (run_ops [Submit (mkEnv 1751180000 "attempt-2" true true)
                          (TakeQuiz.mkState (Some (TakeQuiz.mkUser "u3"))
                                            (Some Sample.client_quiz)
                                            Sample.four_questions ∅ None false true)]
                  (fst (TakeQuiz.handleSubmitQuiz Sample.env_rpc_down Sample.state
                                                  Sample.db))).
Proof.
  destruct (failed_stats_call_is_never_made_up Sample.env_rpc_down Sample.state Sample.db
              Sample.client_quiz "attempt-1" 0
              [(mkEnv 1751180000 "attempt-2" true true,
                TakeQuiz.mkState (Some (TakeQuiz.mkUser "u3")) (Some Sample.client_quiz)
                                 Sample.four_questions ∅ None false true)])
    as (_ & k' & Hk' & Hlag).
  - reflexivity.
  - reflexivity.
  - vm_compute. right. right. right. left. reflexivity.
  - repeat constructor.
  - exists k'. split; [lia|exact Hlag].
Defined.

Section ScoreRange.

Local Open Scope Z_scope.

Lemma spec_percent_range (c n : Z) :
  1 <= n -> 0 <= c <= n ->
  0 <= Scoring.spec_percent c n <= 100
  /\ (c = n -> Scoring.spec_percent c n = 100)
  /\ (c = 0 -> Scoring.spec_percent c n = 0).
Proof.
  intros Hn Hc. unfold Scoring.spec_percent, Scoring.round_half_up.
  split; [split|split].
  - apply Z.div_pos; lia.
  - apply Z.lt_succ_r, Z.div_lt_upper_bound; lia.
  - intros ->. symmetry. apply (Z.div_unique _ _ 100 n); lia.
  - intros ->. apply Z.div_small. lia.
Qed.

Lemma percents_are_stored :
  forallb (fun n => match to_int4 (JS.of_Z (Z.of_nat n)) with
                    | inr z => z =? Z.of_nat n
                    | inl _ => false
                    end)
          (seq 0 101) = true.
Proof. vm_compute. reflexivity. Qed.

Lemma to_int4_percent (z : Z) : 0 <= z <= 100 -> to_int4 (JS.of_Z z) = inr z.
Proof.
  intros Hz.
  pose proof (proj1 (forallb_forall _ _) percents_are_stored (Z.to_nat z)) as H.
  assert (Hin : In (Z.to_nat z) (seq 0 101)) by (apply in_seq; lia).
  specialize (H Hin). cbv beta in H. rewrite Z2Nat.id in H by lia.
  destruct (to_int4 (JS.of_Z z)) as [e|z']; [discriminate|].
  f_equal. apply Z.eqb_eq, H.
Qed.

Lemma filter_all {A : Type} (p : A -> bool) (l : list A) :
  Forall (fun x => p x = true) l -> List.filter p l = l.
Proof. induction 1 as [|x l Hx _ IH]; simpl; [reflexivity|]. rewrite Hx, IH. reflexivity. Qed.

Lemma filter_none {A : Type} (p : A -> bool) (l : list A) :
  Forall (fun x => p x = false) l -> List.filter p l = [].
Proof. induction 1 as [|x l Hx _ IH]; simpl; [reflexivity|]. rewrite Hx. exact IH. Qed.

End ScoreRange.

(** X5. On a quiz of 1 to 39 questions the computed score is a whole
    percentage between 0 and 100, namely the exact percentage of correct
    answers rounded half up; it is 100 when every question is answered
    correctly and 0 when none is, and the store accepts it as the integer
    score of the attempt. *)
Theorem score_of_small_quiz (questions : list Question.t) (answers : Answers) :
  (1 <= length questions <= 39)%nat ->
  exists z,
    Scoring.score questions answers = JS.of_Z z
    /\ to_int4 (Scoring.score questions answers) = inr z
    /\ 0 <= z <= 100
    /\ z = Scoring.spec_percent (Scoring.correctAnswers questions answers)
                                (Z.of_nat (length questions))
    /\ (Forall (fun q => Scoring.is_correct answers q = true) questions -> z = 100)
    /\ (Forall (fun q => Scoring.is_correct answers q = false) questions -> z = 0).
Proof.
  intros Hlen.
  pose proof (correctAnswers_bounds questions answers) as Hc.
  destruct (spec_percent_range (Scoring.correctAnswers questions answers)
              (Z.of_nat (length questions))) as (Hrange & Hall & Hnone); [lia|exact Hc|].
  eexists. split; [|split; [|split; [exact Hrange|split; [reflexivity|split]]]].
  - unfold Scoring.score. apply percent_exact_upto_39; [lia|exact Hc].
  - unfold Scoring.score. rewrite percent_exact_upto_39; [|lia|exact Hc].
    apply to_int4_percent, Hrange.
  - intros Hright. apply Hall. rewrite correctAnswers_filter, filter_all by exact Hright.
    reflexivity.
  - intros Hwrong. apply Hnone. rewrite correctAnswers_filter, filter_none by exact Hwrong.
    reflexivity.
Qed.

Lemma score_of_small_quiz_witness :
  exists z, Scoring.score Sample.four_questions Sample.three_right = JS.of_Z z
            /\ 0 <= z <= 100.
Proof.
  destruct (score_of_small_quiz Sample.four_questions Sample.three_right)
    as (z & Hz & _ & Hr & _).
  - simpl. lia.
  - exists z. split; assumption.
Defined.

(** ** Taking a quiz *)

Section SessionFacts.

Local Open Scope Z_scope.

Import TakeQuizUI.

Lemma currentQuestion_in_range (s : Session) :
  in_range s -> exists q, currentQuestion s = Some q /\ In q (TakeQuiz.questions (state s)).
Proof.
  unfold in_range, currentQuestion. intros Hr.
  rewrite (proj2 (Z.ltb_ge _ _)) by lia.
  destruct (nth_error (TakeQuiz.questions (state s)) (Z.to_nat (currentQuestionIndex s)))
    as [q|] eqn:Hq.
  - exists q. split; [reflexivity|]. eapply nth_error_In, Hq.
  - apply nth_error_None in Hq. lia.
Qed.

Lemma currentQuestion_In (s : Session) (q : Question.t) :
  currentQuestion s = Some q -> In q (TakeQuiz.questions (state s)).
Proof.
  unfold currentQuestion. destruct (currentQuestionIndex s <? 0); [discriminate|].
  apply nth_error_In.
Qed.

Lemma handle_questions (ev : Event) (s : Session) :
  TakeQuiz.questions (state (handle ev s)) = TakeQuiz.questions (state s)
  /\ TakeQuiz.quiz (state (handle ev s)) = TakeQuiz.quiz (state s)
  /\ TakeQuiz.user (state (handle ev s)) = TakeQuiz.user (state s)
  /\ TakeQuiz.timeLeft (state (handle ev s)) = TakeQuiz.timeLeft (state s).
Proof.
  destruct ev; simpl; unfold goToNextQuestion, goToPreviousQuestion.
  - destruct (_ <? _); repeat split.
  - destruct (_ <? _); repeat split.
  - repeat split.
  - destruct (currentQuestion s); repeat split.
Qed.

Lemma handle_keeps (ev : Event) (s : Session) :
  offered s ev = true ->
  in_range s -> answers_valid s ->
  in_range (handle ev s) /\ answers_valid (handle ev s).
Proof.
  intros Hoff Hr Hv. destruct ev as [| |index|optionIndex]; simpl in *.
  - unfold goToNextQuestion. destruct (_ <? _) eqn:E; [|split; assumption].
    apply Z.ltb_lt in E. split; [unfold in_range in *; simpl; lia|exact Hv].
  - unfold goToPreviousQuestion. destruct (_ <? _) eqn:E; [|split; assumption].
    apply Z.ltb_lt in E. split; [unfold in_range in *; simpl; lia|exact Hv].
  - apply Nat.ltb_lt in Hoff. split; [unfold in_range; simpl; lia|exact Hv].
  - destruct (currentQuestion s) as [q|] eqn:Hq; [|discriminate].
    apply Nat.ltb_lt in Hoff. split; [exact Hr|].
    intros k v. simpl. rewrite lookup_insert. case_decide as Hk.
    + intros Hkv. injection Hkv as <-. exists q.
      split; [apply currentQuestion_In, Hq|]. split; [exact Hk|lia].
    + apply Hv.
Qed.

Lemma run_keeps (evs : list Event) (s : Session) :
  in_range s -> answers_valid s ->
  in_range (run evs s) /\ answers_valid (run evs s)
  /\ TakeQuiz.questions (state (run evs s)) = TakeQuiz.questions (state s)
  /\ TakeQuiz.quiz (state (run evs s)) = TakeQuiz.quiz (state s)
  /\ TakeQuiz.user (state (run evs s)) = TakeQuiz.user (state s)
  /\ TakeQuiz.timeLeft (state (run evs s)) = TakeQuiz.timeLeft (state s).
Proof.
  revert s. induction evs as [|ev evs IH]; intros s Hr Hv;
    [split; [exact Hr|split; [exact Hv|repeat split]]|].
  simpl. destruct (offered s ev) eqn:Hoff; [|apply IH; assumption].
  destruct (handle_keeps ev s Hoff Hr Hv) as [Hr' Hv'].
  destruct (handle_questions ev s) as (Hq & Hz & Hu & Ht).
  destruct (IH _ Hr' Hv') as (H1 & H2 & H3 & H4 & H5 & H6).
  split; [exact H1|]. split; [exact H2|]. repeat split; congruence.
Qed.

End SessionFacts.

(** X6. While a quiz with at least one question is taken, whatever the
    user does on the question screen (Next, Previous, the overview
    buttons, the radio buttons), the index of the shown question stays
    inside the question list, so there is always a question to show, and
    every recorded answer belongs to a question of the quiz and names one
    of its options; the questions themselves are not changed. *)
Theorem session_stays_valid (evs : list TakeQuizUI.Event) (s : TakeQuizUI.Session) :
  TakeQuizUI.in_range s ->
  TakeQuizUI.answers_valid s ->
  TakeQuizUI.in_range (TakeQuizUI.run evs s)
  /\ is_Some (TakeQuizUI.currentQuestion (TakeQuizUI.run evs s))
  /\ TakeQuizUI.answers_valid (TakeQuizUI.run evs s)
  /\ TakeQuiz.questions (TakeQuizUI.state (TakeQuizUI.run evs s))
     = TakeQuiz.questions (TakeQuizUI.state s).
Proof.
  intros Hr Hv. destruct (run_keeps evs s Hr Hv) as (Hr' & Hv' & Hq & _).
  split; [exact Hr'|]. split; [|split; assumption].
  destruct (currentQuestion_in_range _ Hr') as (q & Hq' & _). rewrite Hq'. eauto.
Qed.

Lemma session_stays_valid_witness :
  TakeQuizUI.in_range (TakeQuizUI.run Sample2.clicks Sample2.fresh_session)
  /\ is_Some (TakeQuizUI.currentQuestion (TakeQuizUI.run Sample2.clicks Sample2.fresh_session)).
Proof.
  destruct (session_stays_valid Sample2.clicks Sample2.fresh_session) as (Hr & Hc & _).
  - unfold TakeQuizUI.in_range. simpl. lia.
  - intros k v Hkv. simpl in Hkv. rewrite lookup_empty in Hkv. discriminate.
  - split; assumption.
Defined.

(** X7. Choosing an option of the shown question records that option for
    this question and changes no other answer: the question then counts as
    correct exactly when the chosen option is its correct answer, whatever
    was chosen for it before, the other questions count as before, and the
    number of answered questions grows by one if the question had no
    answer and stays the same otherwise. *)
Theorem choosing_an_option (s : TakeQuizUI.Session) (q : Question.t) (optionIndex : nat) :
  TakeQuizUI.currentQuestion s = Some q ->
  let s' := TakeQuizUI.handle (TakeQuizUI.Choose optionIndex) s in
  TakeQuiz.answers (TakeQuizUI.state s') !! Question.id q = Some (Z.of_nat optionIndex)
  /\ (forall k, k <> Question.id q ->
        TakeQuiz.answers (TakeQuizUI.state s') !! k
        = TakeQuiz.answers (TakeQuizUI.state s) !! k)
  /\ (Scoring.is_correct (TakeQuiz.answers (TakeQuizUI.state s')) q = true
      <-> Z.of_nat optionIndex = Question.correct_answer q)
  /\ (forall q', Question.id q' <> Question.id q ->
        Scoring.is_correct (TakeQuiz.answers (TakeQuizUI.state s')) q'
        = Scoring.is_correct (TakeQuiz.answers (TakeQuizUI.state s)) q')
  /\ TakeQuizUI.answeredQuestions s'
     = match TakeQuiz.answers (TakeQuizUI.state s) !! Question.id q with
       | Some _ => TakeQuizUI.answeredQuestions s
       | None => S (TakeQuizUI.answeredQuestions s)
       end
  /\ TakeQuizUI.currentQuestionIndex s' = TakeQuizUI.currentQuestionIndex s.
Proof.
  intros Hq s'. subst s'. simpl. rewrite Hq. simpl.
  split; [apply lookup_insert_eq|].
  split; [intros k Hk; apply lookup_insert_ne; congruence|].
  split.
  { rewrite is_correct_iff, lookup_insert_eq. split; congruence. }
  split.
  { intros q' Hne. unfold Scoring.is_correct. rewrite lookup_insert_ne by congruence.
    reflexivity. }
  split; [|reflexivity].
  unfold TakeQuizUI.answeredQuestions. simpl.
  destruct (TakeQuiz.answers (TakeQuizUI.state s) !! Question.id q) as [v|] eqn:Hv.
  - rewrite <- (insert_delete_id _ _ _ Hv) at 2.
    rewrite <- (insert_delete_eq (TakeQuiz.answers (TakeQuizUI.state s))).
    rewrite !map_size_insert_None by apply lookup_delete_eq. reflexivity.
  - apply map_size_insert_None, Hv.
Qed.

Lemma choosing_an_option_witness :
  TakeQuiz.answers (TakeQuizUI.state
                      (TakeQuizUI.handle (TakeQuizUI.Choose 1) Sample2.fresh_session))
  !! "q1" = Some 1.
Proof.
  destruct (choosing_an_option Sample2.fresh_session (Sample.question 1 0) 1) as (H & _).
  - reflexivity.
  - exact H.
Defined.

Section LoadingFacts.

Local Open Scope Z_scope.

Lemma single_inv {A : Type} (rows : list A) (r : A) :
  Sql.single rows = inr r -> rows = [r].
Proof. destruct rows as [|x [|y l]]; simpl; congruence. Qed.

(** What a successful load has found and set. *)
Lemma fetchQuizData_loaded qr pr qsr auth_uid id user db q :
  TakeQuiz.quiz (fst (TakeQuizUI.fetchQuizData qr pr qsr auth_uid id
                        (TakeQuizUI.initial user) db)) = Some q ->
  exists row,
    TakeQuizUI.select_published_quiz auth_uid id db = inr row
    /\ fst (TakeQuizUI.fetchQuizData qr pr qsr auth_uid id (TakeQuizUI.initial user) db)
       = TakeQuiz.mkState user (Some q) (QuizResults.select_questions auth_uid id db)
                          ∅ None false false
    /\ q = TakeQuiz.mkQuiz (Quiz.id row) (Quiz.title row) (Quiz.description row)
                           (Quiz.category row) (default 0 (Quiz.total_questions row)) None
                           (Quiz.created_by row)
                           (Some (TakeQuizUI.creator_name pr auth_uid (Quiz.created_by row) db)).
Proof.
  unfold TakeQuizUI.fetchQuizData.
  destruct qr; simpl; [|discriminate].
  destruct (TakeQuizUI.select_published_quiz auth_uid id db) as [e|row]; [discriminate|].
  destruct qsr; simpl; [|discriminate].
  intros H. injection H as <-. exists row. repeat split.
Qed.

End LoadingFacts.

(** X8. A quiz loaded by the TakeQuiz page is the published quiz of the
    route and has no time limit, since the table [quizzes] has no such
    column: no countdown starts, and whatever the user then does on the
    question screen, an attempt submitted from that page is stored with a
    time_taken of 0. *)
Theorem loaded_quiz_is_untimed (qr pr qsr : bool) (auth_uid id : uuid)
    (user : option TakeQuiz.User) (db : DB) (q : TakeQuiz.Quiz) :
  let st := fst (TakeQuizUI.fetchQuizData qr pr qsr auth_uid id (TakeQuizUI.initial user) db) in
  TakeQuiz.quiz st = Some q ->
  TakeQuiz.id q = id
  /\ TakeQuiz.time_limit q = None
  /\ TakeQuiz.timeLeft st = None
  /\ (exists row, In row (quizzes db) /\ Quiz.id row = id
                  /\ Quiz.is_published row = Some true)
  /\ (forall evs index env db' a,
        quiz_attempts (fst (TakeQuiz.handleSubmitQuiz env
                              (TakeQuizUI.state
                                 (TakeQuizUI.run evs (TakeQuizUI.mkSession st index)))
                              db'))
        = quiz_attempts db' ++ [a] ->
        TakeQuizUI.in_range (TakeQuizUI.mkSession st index) ->
        Attempt.time_taken a = 0 /\ Attempt.quiz_id a = id).
Proof.
  intros st Hq. subst st.
  destruct (fetchQuizData_loaded _ _ _ _ _ _ _ _ Hq) as (row & Hsel & Hst & Hrow).
  apply single_inv in Hsel.
  assert (Hin : In row (List.filter
                          (fun q0 => Rls.quiz_readable auth_uid q0
                                     && String.eqb (Quiz.id q0) id
                                     && bool_decide (Quiz.is_published q0 = Some true))
                          (quizzes db))) by (rewrite Hsel; left; reflexivity).
  apply filter_In in Hin as [Hin Hp].
  apply andb_prop in Hp as [Hp Hpub]. apply andb_prop in Hp as [_ Hid].
  apply String.eqb_eq in Hid. apply bool_decide_eq_true in Hpub.
  rewrite Hst. split; [rewrite Hrow; exact Hid|]. split; [rewrite Hrow; reflexivity|].
  split; [reflexivity|]. split; [exists row; repeat split; assumption|].
  intros evs index env db' a Happ Hr.
  destruct (run_keeps evs (TakeQuizUI.mkSession
                             (TakeQuiz.mkState user (Some q)
                                (QuizResults.select_questions auth_uid id db) ∅ None
                                false false) index))
    as (_ & _ & _ & Hquiz & _ & Htime); [exact Hr| |].
  { intros k v Hkv. simpl in Hkv. rewrite lookup_empty in Hkv. discriminate. }
  simpl in Hquiz, Htime.
  destruct (submit_cases env
              (TakeQuizUI.state
                 (TakeQuizUI.run evs
                    (TakeQuizUI.mkSession
                       (TakeQuiz.mkState user (Some q)
                          (QuizResults.select_questions auth_uid id db) ∅ None false false)
                       index))) db')
    as [(Hsame & _)|(u & q' & z & a' & _ & Hq' & _ & _ & Ha' & Hdb & _)].
  - rewrite Hsame in Happ. exfalso.
    apply (f_equal (@length _)) in Happ. rewrite length_app in Happ. simpl in Happ. lia.
  - rewrite Hquiz in Hq'. injection Hq' as <-.
    assert (Hrows : quiz_attempts db' ++ [a'] = quiz_attempts db' ++ [a]).
    { rewrite <- Happ, Hdb. cbv zeta.
      destruct (rpc_reachable env); [rewrite update_keeps_attempts|]; reflexivity. }
    apply app_inj_tail in Hrows as [_ <-].
    rewrite Ha'. simpl. rewrite Hrow. simpl. split; [reflexivity|exact Hid].
Qed.

Lemma loaded_quiz_is_untimed_witness :
  exists q,
    TakeQuiz.quiz (fst (TakeQuizUI.fetchQuizData true true true "u2" "quiz-1"
                          (TakeQuizUI.initial (Some (TakeQuiz.mkUser "u2"))) Sample.db))
    = Some q
    /\ TakeQuiz.time_limit q = None.
Proof.
  eexists. split; [vm_compute; reflexivity|].
  edestruct (loaded_quiz_is_untimed true true true "u2" "quiz-1"
               (Some (TakeQuiz.mkUser "u2")) Sample.db) as (_ & Hlimit & _).
  - vm_compute. reflexivity.
  - exact Hlimit.
Defined.

(** X9. The TakeQuiz page can name the creator of a quiz only to the
    creator: profiles are readable by their owner alone, so for every
    other viewer the loaded quiz carries the creator name 'Unknown'. *)
Theorem creator_is_unknown_to_others (qr pr qsr : bool) (auth_uid id : uuid)
    (user : option TakeQuiz.User) (db : DB) (q : TakeQuiz.Quiz) :
  TakeQuiz.quiz (fst (TakeQuizUI.fetchQuizData qr pr qsr auth_uid id
                        (TakeQuizUI.initial user) db)) = Some q ->
  TakeQuiz.created_by q <> auth_uid ->
  TakeQuiz.creator_name q = Some "Unknown".
Proof.
  intros Hq Hne.
  destruct (fetchQuizData_loaded _ _ _ _ _ _ _ _ Hq) as (row & _ & _ & Hrow).
  rewrite Hrow in Hne |- *. simpl in *. f_equal.
  unfold TakeQuizUI.creator_name. destruct pr; simpl; [|reflexivity].
  replace (List.filter _ (profiles db)) with (@nil Profile.t); [reflexivity|].
  symmetry. apply existsb_false_filter. apply not_true_is_false. intros Hex.
  apply existsb_exists in Hex as (p & _ & Hp). apply andb_prop in Hp as [H1 H2].
  apply String.eqb_eq in H1, H2. congruence.
Qed.

Lemma creator_is_unknown_to_others_witness :
  exists q,
    TakeQuiz.quiz (fst (TakeQuizUI.fetchQuizData true true true "u2" "quiz-1"
                          (TakeQuizUI.initial (Some (TakeQuiz.mkUser "u2"))) Sample.db))
    = Some q
    /\ TakeQuiz.creator_name q = Some "Unknown".
Proof.
  eexists. split; [vm_compute; reflexivity|].
  apply (creator_is_unknown_to_others true true true "u2" "quiz-1"
           (Some (TakeQuiz.mkUser "u2")) Sample.db).
  - vm_compute. reflexivity.
  - vm_compute. discriminate.
Defined.

(** What the creator sees: the name of the own profile. *)
Example creator_sees_own_name :
  TakeQuiz.creator_name
    <$> TakeQuiz.quiz (fst (TakeQuizUI.fetchQuizData true true true "u1" "quiz-1"
                              (TakeQuizUI.initial (Some (TakeQuiz.mkUser "u1"))) Sample.db))
  = Some (Some "Ann").
Proof. vm_compute. reflexivity. Qed.

(** ** Reading results *)

Section ResultsFacts.

Local Open Scope Z_scope.

Lemma existsb_ext_map {A B : Type} (g : A -> B) (p : B -> bool) (l : list A) :
  existsb (fun x => p (g x)) l = existsb p (map g l).
Proof. induction l as [|x l IH]; simpl; [reflexivity|]. rewrite IH. reflexivity. Qed.

Lemma question_readable_keys db uid qn :
  Rls.question_readable db uid qn
  = existsb (fun k => String.eqb k.1.1 (Question.quiz_id qn)
                      && bool_decide (k.1.2 = Some true)) (quiz_keys db)
    || existsb (fun k => String.eqb k.1.1 (Question.quiz_id qn) && String.eqb k.2 uid)
               (quiz_keys db).
Proof.
  unfold Rls.question_readable, quiz_keys.
  rewrite <- !existsb_ext_map. reflexivity.
Qed.

(** The questions a user gets for a quiz depend on the question rows and on
    the ids, publication flags and creators of the quizzes only. *)
Lemma select_questions_keys db db' uid quizId :
  questions db' = questions db ->
  quiz_keys db' = quiz_keys db ->
  QuizResults.select_questions uid quizId db' = QuizResults.select_questions uid quizId db.
Proof.
  intros Hq Hk. unfold QuizResults.select_questions. rewrite Hq. f_equal.
  apply filter_ext. intros qn. rewrite !question_readable_keys, Hk. reflexivity.
Qed.

Lemma update_quiz_stats_keys now quiz_id s db :
  quiz_keys (update_quiz_stats now quiz_id s db) = quiz_keys db.
Proof.
  rewrite update_quiz_stats_eq. destruct (countable quiz_id db); [|reflexivity].
  unfold quiz_keys. simpl. rewrite map_map. apply map_ext. intros q.
  destruct (String.eqb (Quiz.id q) quiz_id); reflexivity.
Qed.

Lemma submit_keeps_questions env st db :
  questions (fst (TakeQuiz.handleSubmitQuiz env st db)) = questions db
  /\ quiz_keys (fst (TakeQuiz.handleSubmitQuiz env st db)) = quiz_keys db.
Proof.
  destruct (submit_cases env st db)
    as [(Hsame & _)|(u & q & z & a & _ & _ & _ & _ & _ & Hdb & _)].
  - rewrite Hsame. split; reflexivity.
  - rewrite Hdb. cbv zeta. destruct (rpc_reachable env); [|split; reflexivity].
    rewrite update_quiz_stats_keys, update_keeps_questions. split; reflexivity.
Qed.

Lemma run_ops_keeps_questions ops db :
  questions (run_ops ops db) = questions db /\ quiz_keys (run_ops ops db) = quiz_keys db.
Proof.
  revert db. induction ops as [|op ops IH]; intros db; [split; reflexivity|].
  simpl. destruct (IH (run_op op db)) as [Hq Hk]. rewrite Hq, Hk.
  destruct op as [env st|now quiz_id s]; simpl.
  - apply submit_keeps_questions.
  - split; [apply update_keeps_questions|apply update_quiz_stats_keys].
Qed.

Lemma select_attempt_inv uid aid db data :
  QuizResults.select_attempt uid aid db = inr data ->
  In (QuizResults.row data) (quiz_attempts db)
  /\ Attempt.id (QuizResults.row data) = aid
  /\ Rls.attempt_readable db uid (QuizResults.row data) = true
  /\ (forall info, QuizResults.quiz data = Some info ->
        exists q, In q (quizzes db)
                  /\ Quiz.id q = Attempt.quiz_id (QuizResults.row data)
                  /\ Rls.quiz_readable uid q = true
                  /\ info = QuizResults.mkQuizInfo (Quiz.id q) (Quiz.title q)
                              (Quiz.description q) (Quiz.category q)).
Proof.
  unfold QuizResults.select_attempt.
  destruct (Sql.single _) as [e|a] eqn:Hsingle; [discriminate|].
  intros H. injection H as <-. simpl.
  apply single_inv in Hsingle.
  assert (Hin : In a (List.filter
                        (fun a0 => Rls.attempt_readable db uid a0
                                   && String.eqb (Attempt.id a0) aid) (quiz_attempts db)))
    by (rewrite Hsingle; left; reflexivity).
  apply filter_In in Hin as [Hin Hp]. apply andb_prop in Hp as [Hread Hid].
  apply String.eqb_eq in Hid.
  repeat (split; [assumption|]).
  intros info Hinfo.
  destruct (List.filter _ (quizzes db)) as [|q l] eqn:Hf; [discriminate|].
  simpl in Hinfo. injection Hinfo as <-.
  assert (Hq : In q (List.filter
                       (fun q0 => Rls.quiz_readable uid q0
                                  && String.eqb (Quiz.id q0) (Attempt.quiz_id a))
                       (quizzes db))) by (rewrite Hf; left; reflexivity).
  apply filter_In in Hq as [Hq Hp]. apply andb_prop in Hp as [Hr Hqid].
  apply String.eqb_eq in Hqid. exists q. repeat split; assumption.
Qed.

Lemma select_questions_In uid quizId db qn :
  In qn (QuizResults.select_questions uid quizId db)
  <-> In qn (questions db) /\ Question.quiz_id qn = quizId
      /\ Rls.question_readable db uid qn = true.
Proof.
  unfold QuizResults.select_questions.
  set (le := fun a b => Question.order_index a <=? Question.order_index b).
  set (rows := List.filter _ (questions db)).
  assert (Hiff : In qn (Sql.sort_by le rows) <-> In qn rows).
  { split; apply Permutation_in; [|apply Permutation_sym]; apply sort_by_perm. }
  rewrite Hiff. subst rows. rewrite filter_In, andb_true_iff, String.eqb_eq. tauto.
Qed.

End ResultsFacts.

(** X10. The results page shows nothing the policies forbid: when
    [fetchResults] loads an attempt, it is a stored attempt with the
    requested id which the viewer made or whose quiz the viewer created;
    the quiz shown with it, if any, is published or the viewer's own; and
    every question shown belongs to the quiz of the route, which is then
    published or the viewer's own. *)
Theorem results_respect_policies (r1 r2 : bool) (auth_uid quizId attemptId : uuid) (db : DB)
    (data : QuizResults.QuizAttempt) (qs : list Question.t) :
  fst (QuizResults.fetchResults r1 r2 auth_uid quizId attemptId db) = Some (data, qs) ->
  In (QuizResults.row data) (quiz_attempts db)
  /\ Attempt.id (QuizResults.row data) = attemptId
  /\ (Attempt.user_id (QuizResults.row data) = auth_uid
      \/ exists q, In q (quizzes db)
                   /\ Quiz.id q = Attempt.quiz_id (QuizResults.row data)
                   /\ Quiz.created_by q = auth_uid)
  /\ (forall info, QuizResults.quiz data = Some info ->
        exists q, In q (quizzes db)
                  /\ QuizResults.id info = Attempt.quiz_id (QuizResults.row data)
                  /\ Quiz.id q = QuizResults.id info
                  /\ (Quiz.is_published q = Some true \/ Quiz.created_by q = auth_uid))
  /\ Forall (fun qn => In qn (questions db)
                       /\ Question.quiz_id qn = quizId
                       /\ exists q, In q (quizzes db) /\ Quiz.id q = quizId
                                    /\ (Quiz.is_published q = Some true
                                        \/ Quiz.created_by q = auth_uid)) qs.
Proof.
  unfold QuizResults.fetchResults.
  destruct r1; simpl; [|discriminate].
  destruct (QuizResults.select_attempt auth_uid attemptId db) as [e|d] eqn:Hsel;
    [discriminate|].
  destruct r2; simpl; [|discriminate].
  intros H. injection H as <- <-.
  destruct (select_attempt_inv _ _ _ _ Hsel) as (Hin & Hid & Hread & Hinfo).
  split; [exact Hin|]. split; [exact Hid|]. split; [|split].
  - unfold Rls.attempt_readable in Hread. apply orb_prop in Hread as [Hu|Hq].
    + left. apply String.eqb_eq, Hu.
    + right. apply existsb_exists in Hq as (q & Hq & Hp).
      apply andb_prop in Hp as [H1 H2]. apply String.eqb_eq in H1, H2.
      exists q. repeat split; assumption.
  - intros info Hi. destruct (Hinfo info Hi) as (q & Hq & Hqid & Hr & ->).
    exists q. simpl. repeat (split; [first [assumption|reflexivity]|]).
    unfold Rls.quiz_readable in Hr. apply orb_prop in Hr as [Hp|Hc].
    + left. apply bool_decide_eq_true in Hp. exact Hp.
    + right. apply String.eqb_eq, Hc.
  - apply List.Forall_forall. intros qn Hqn.
    apply select_questions_In in Hqn as (Hqn & Hquiz & Hr).
    split; [exact Hqn|]. split; [exact Hquiz|].
    unfold Rls.question_readable in Hr. apply orb_prop in Hr as [Hp|Hc].
    + apply existsb_exists in Hp as (q & Hq & Hp). apply andb_prop in Hp as [H1 H2].
      apply String.eqb_eq in H1. apply bool_decide_eq_true in H2.
      exists q. split; [exact Hq|]. split; [congruence|left; exact H2].
    + apply existsb_exists in Hc as (q & Hq & Hp). apply andb_prop in Hp as [H1 H2].
      apply String.eqb_eq in H1, H2.
      exists q. split; [exact Hq|]. split; [congruence|right; exact H2].
Qed.

(** X11. The questions a page loads for a quiz ([select('*').eq('quiz_id',
    ...).order('order_index')], used by the TakeQuiz, QuizResults and
    EditQuiz pages) come in ascending order of order_index, and they are
    exactly the stored questions of that quiz which the policies let the
    viewer read. *)
Theorem questions_come_in_order (auth_uid quizId : uuid) (db : DB) :
  StronglySorted (fun a b => Question.order_index a <= Question.order_index b)
                 (QuizResults.select_questions auth_uid quizId db)
  /\ Permutation (QuizResults.select_questions auth_uid quizId db)
                 (List.filter (fun qn => Rls.question_readable db auth_uid qn
                                         && String.eqb (Question.quiz_id qn) quizId)
                              (questions db))
  /\ (forall qn, In qn (QuizResults.select_questions auth_uid quizId db)
                 <-> In qn (questions db) /\ Question.quiz_id qn = quizId
                     /\ Rls.question_readable db auth_uid qn = true).
Proof.
  split; [|split; [apply sort_by_perm|intros qn; apply select_questions_In]].
  unfold QuizResults.select_questions.
  set (le := fun a b => Question.order_index a <=? Question.order_index b).
  assert (Hs : StronglySorted (fun a b => le a b = true)
                 (Sql.sort_by le (List.filter
                    (fun qn => Rls.question_readable db auth_uid qn
                               && String.eqb (Question.quiz_id qn) quizId) (questions db)))).
  { apply sort_by_sorted.
    - intros a b. unfold le.
      destruct (Z.le_ge_cases (Question.order_index a) (Question.order_index b));
        [left|right]; apply Z.leb_le; assumption.
    - intros a b c Hab Hbc. unfold le in *. apply Z.leb_le in Hab, Hbc.
      apply Z.leb_le. lia. }
  induction Hs as [|a l Hsorted IH Hall]; constructor; [exact IH|].
  eapply List.Forall_impl; [|exact Hall]. intros b Hb. apply Z.leb_le, Hb.
Qed.

Lemma results_respect_policies_witness :
  exists data qs,
    fst (QuizResults.fetchResults true true "u2" "quiz-1" "attempt-1"
           (fst (TakeQuiz.handleSubmitQuiz Sample.env Sample.state Sample.db)))
    = Some (data, qs)
    /\ Attempt.user_id (QuizResults.row data) = "u2".
Proof.
  eexists. eexists. split; [vm_compute; reflexivity|].
  edestruct (results_respect_policies true true "u2" "quiz-1" "attempt-1"
               (fst (TakeQuiz.handleSubmitQuiz Sample.env Sample.state Sample.db)))
    as (_ & _ & _).
  - vm_compute. reflexivity.
  - reflexivity.
Defined.

(** Another user, who did not create the quiz either, gets nothing. *)
Example foreign_attempt_is_hidden :
  QuizResults.fetchResults true true "u3" "quiz-1" "attempt-1"
    (fst (TakeQuiz.handleSubmitQuiz Sample.env Sample.state Sample.db))
  = (None, [ToastError "Failed to load results"; Navigate QuizzesRoute; SetLoading false]).
Proof. vm_compute. reflexivity. Qed.

(** X12. From submission to results page: when the questions of the
    TakeQuiz page are the ones loaded from the store and the submission
    succeeds, then, after any further submissions and statistics updates,
    the results page of the attempt loads the same questions, counts as
    many correct answers as the score was computed from, shows a total
    equal to the number of questions listed, and is shown (not the "Results
    Not Found" view) as soon as the quiz has a question. *)
Theorem results_match_submission (env : Env) (st : TakeQuiz.State) (db : DB)
    (u : TakeQuiz.User) (q : TakeQuiz.Quiz) (aid : uuid) (ops : list Op) :
  TakeQuiz.user st = Some u ->
  TakeQuiz.quiz st = Some q ->
  TakeQuiz.questions st = QuizResults.select_questions (TakeQuiz.user_id u) (TakeQuiz.id q) db ->
  In (Navigate (ResultsRoute (TakeQuiz.id q) aid))
     (snd (TakeQuiz.handleSubmitQuiz env st db)) ->
  exists data,
    QuizResults.fetchResults true true (TakeQuiz.user_id u) (TakeQuiz.id q) aid
      (run_ops ops (fst (TakeQuiz.handleSubmitQuiz env st db)))
    = (Some (data, TakeQuiz.questions st), [SetLoading false])
    /\ Z.of_nat (ResultsView.correctAnswers (QuizResults.row data) (TakeQuiz.questions st))
       = Scoring.correctAnswers (TakeQuiz.questions st) (TakeQuiz.answers st)
    /\ Attempt.total_questions (QuizResults.row data)
       = Z.of_nat (length (TakeQuiz.questions st))
    /\ (TakeQuiz.questions st <> [] ->
        ResultsView.render false (Some (data, TakeQuiz.questions st))
        = ResultsView.ResultsPage data (TakeQuiz.questions st)).
Proof.
  intros Hu Hq Hloaded Hnav.
  set (db' := fst (TakeQuiz.handleSubmitQuiz env st db)).
  assert (Hqs : QuizResults.select_questions (TakeQuiz.user_id u) (TakeQuiz.id q)
                  (run_ops ops db') = TakeQuiz.questions st).
  { rewrite Hloaded. apply select_questions_keys.
    - destruct (run_ops_keeps_questions ops db') as [H1 _].
      destruct (submit_keeps_questions env st db) as [H2 _]. rewrite H1. exact H2.
    - destruct (run_ops_keeps_questions ops db') as [_ H1].
      destruct (submit_keeps_questions env st db) as [_ H2]. rewrite H1. exact H2. }
  assert (Hone : exists a,
             attempts_with_id aid db' = [a]
             /\ Attempt.user_id a = TakeQuiz.user_id u
             /\ Attempt.answers a = TakeQuiz.answers st
             /\ Attempt.total_questions a = Z.of_nat (length (TakeQuiz.questions st))).
  { subst db'. revert Hnav. unfold TakeQuiz.handleSubmitQuiz. rewrite Hu, Hq.
    destruct (insert_quiz_attempt _ _ _ db) as [err|[db1 a]] eqn:Hins.
    { simpl. intros Hin. repeat destruct Hin as [Hin|Hin]; try discriminate; contradiction. }
    destruct (rpc_update_quiz_stats _ _ _ db1) as [db2 err] eqn:Hcall.
    intros Hin.
    assert (Haid : aid = Attempt.id a).
    { simpl in Hin. destruct err; simpl in Hin;
        repeat destruct Hin as [Hin|Hin]; try discriminate; try contradiction;
        congruence. }
    subst aid. exists a.
    destruct (inserted_attempt_unique _ _ _ _ _ _ Hins) as [Hone Hown].
    destruct (insert_inv _ _ _ _ _ _ Hins) as (z & _ & _ & _ & Ha & _).
    split; [|split; [exact Hown|rewrite Ha; split; reflexivity]].
    simpl fst. unfold attempts_with_id in *.
    change db2 with (fst (db2, err)). rewrite <- Hcall, rpc_keeps_attempts. exact Hone. }
  destruct Hone as (a & Hone & Hown & Hans & Htot).
  destruct (select_own_attempt _ _ _ (run_ops_keeps_attempt ops _ _ _ Hone))
    as (info & Hsel).
  rewrite Hown in Hsel.
  exists (QuizResults.mkQuizAttempt a info).
  unfold QuizResults.fetchResults. simpl negb. cbv iota. rewrite Hsel, Hqs.
  split; [reflexivity|]. simpl QuizResults.row.
  split; [|split; [exact Htot|]].
  - unfold ResultsView.correctAnswers. rewrite Hans, correctAnswers_filter. reflexivity.
  - intros Hne. unfold ResultsView.render.
    destruct (TakeQuiz.questions st); [congruence|reflexivity].
Qed.

Lemma results_match_submission_witness :
  exists data,
    QuizResults.fetchResults true true "u2" "quiz-1" "attempt-1"
      (run_ops Sample.later_ops
               (fst (TakeQuiz.handleSubmitQuiz Sample.env Sample.state Sample.db)))
    = (Some (data, Sample.four_questions), [SetLoading false])
    /\ ResultsView.correctAnswers (QuizResults.row data) Sample.four_questions = 3%nat.
Proof.
  destruct (results_match_submission Sample.env Sample.state Sample.db
              (TakeQuiz.mkUser "u2") Sample.client_quiz "attempt-1" Sample.later_ops)
    as (data & Hfetch & Hcount & _).
  - reflexivity.
  - reflexivity.
  - vm_compute. reflexivity.
  - vm_compute. right. right. left. reflexivity.
  - exists data. split; [exact Hfetch|].
    apply Nat2Z.inj. etransitivity; [exact Hcount|vm_compute; reflexivity].
Defined.

(** X13. The colour and the badge of a score never disagree: the score is
    shown in green exactly when the badge is "Excellent!" or "Great Job!"
    (80 and above), in red exactly when the badge is "Keep Trying!" (below
    60), and in yellow for the two badges in between. *)
Theorem badge_matches_colour (score : Z) :
  (ResultsView.getScoreColor score = "text-green-600"
   <-> (ResultsView.getScoreBadge score).1 = "Excellent!"
       \/ (ResultsView.getScoreBadge score).1 = "Great Job!")
  /\ (ResultsView.getScoreColor score = "text-red-600"
      <-> (ResultsView.getScoreBadge score).1 = "Keep Trying!")
  /\ (ResultsView.getScoreColor score = "text-yellow-600"
      <-> (ResultsView.getScoreBadge score).1 = "Good Work!"
          \/ (ResultsView.getScoreBadge score).1 = "Not Bad!")
  /\ (80 <= score <-> ResultsView.getScoreColor score = "text-green-600")
  /\ (score < 60 <-> ResultsView.getScoreColor score = "text-red-600").
Proof.
  unfold ResultsView.getScoreColor, ResultsView.getScoreBadge.
  destruct (90 <=? score) eqn:H90; destruct (80 <=? score) eqn:H80;
    destruct (70 <=? score) eqn:H70; destruct (60 <=? score) eqn:H60;
    rewrite ?Z.leb_le, ?Z.leb_gt in *; try lia; simpl;
    repeat split; intros; try discriminate; try lia; auto;
    repeat match goal with H : _ \/ _ |- _ => destruct H end; try discriminate.
Qed.

(** ** Editing a quiz *)

Section EditorFacts.

Local Open Scope Z_scope.

Lemma NoDup_map_filter {A B : Type} (f : A -> B) (p : A -> bool) (l : list A) :
  NoDup (map f l) -> NoDup (map f (List.filter p l)).
Proof.
  induction l as [|x l IH]; simpl; [intros; constructor|].
  intros Hnd. apply NoDup_cons in Hnd as [Hx Hl].
  destruct (p x); simpl; [|apply IH, Hl].
  apply NoDup_cons. split; [|apply IH, Hl].
  intros Hin. apply Hx. apply list_elem_of_In in Hin. apply list_elem_of_In.
  apply in_map_iff in Hin as (y & Hy & Hin).
  apply in_map_iff. exists y. split; [exact Hy|]. apply filter_In in Hin. tauto.
Qed.

Lemma format_question_options (q : Question.t) :
  length (EditQuiz.options (EditQuiz.format_question q)) = 4%nat.
Proof.
  unfold EditQuiz.format_question. cbn [EditQuiz.options]. rewrite List.length_firstn, List.length_app.
  cbn [length]. lia.
Qed.

Lemma remove_leaves_one (x : string) (l : list EditQuiz.Question) :
  NoDup (map EditQuiz.id l) -> (1 < length l)%nat ->
  List.filter (fun q => negb (String.eqb (EditQuiz.id q) x)) l <> [].
Proof.
  destruct l as [|a [|b l]]; simpl; try lia. intros Hnd _.
  apply NoDup_cons in Hnd as [Ha _].
  destruct (String.eqb (EditQuiz.id a) x) eqn:Ea; simpl; [|discriminate].
  destruct (String.eqb (EditQuiz.id b) x) eqn:Eb; simpl; [|discriminate].
  apply String.eqb_eq in Ea, Eb. exfalso. apply Ha. apply list_elem_of_In.
  left. congruence.
Qed.

Lemma apply_edit_ok (e : EditQuiz.Edit) (st : EditQuiz.State) :
  EditQuiz.form_ok st ->
  match e with
  | EditQuiz.Add date_now => ~ In ("new-" +:+ pretty date_now) (map EditQuiz.id (EditQuiz.questions st))
  | _ => True
  end ->
  EditQuiz.form_ok (EditQuiz.apply_edit e st)
  /\ EditQuiz.quiz (EditQuiz.apply_edit e st) = EditQuiz.quiz st /\ EditQuiz.user (EditQuiz.apply_edit e st) = EditQuiz.user st
  /\ EditQuiz.quizData (EditQuiz.apply_edit e st) = EditQuiz.quizData st.
Proof.
  intros (Hne & H4 & Hnd) Hfresh.
  destruct e as [date_now|id|id v|questionId optionIndex value]; simpl.
  - split; [|repeat split]. unfold EditQuiz.form_ok. simpl. split; [|split].
    + intros H. apply app_eq_nil in H as [_ H]. discriminate.
    + apply Forall_app. split; [exact H4|]. repeat constructor.
    + rewrite map_app. simpl. apply NoDup_app. split; [exact Hnd|]. split.
      * intros y Hy Hy'. apply list_elem_of_In in Hy, Hy'.
        destruct Hy' as [<-|[]]. contradiction.
      * repeat constructor. intros H. apply list_elem_of_In in H. contradiction.
  - unfold EditQuiz.removeQuestion. destruct (1 <? length (EditQuiz.questions st))%nat eqn:Hlen;
      [|repeat split; assumption].
    apply Nat.ltb_lt in Hlen. split; [|repeat split]. unfold EditQuiz.form_ok. simpl.
    split; [apply remove_leaves_one; assumption|]. split.
    + apply List.Forall_forall. intros q Hq. apply filter_In in Hq as [Hq _].
      rewrite List.Forall_forall in H4. apply H4, Hq.
    + apply NoDup_map_filter, Hnd.
  - split; [|repeat split]. unfold EditQuiz.form_ok. simpl. split; [|split].
    + destruct (EditQuiz.questions st); [congruence|discriminate].
    + rewrite List.Forall_map. eapply List.Forall_impl; [|exact H4]. intros q Hq.
      simpl. destruct (String.eqb (EditQuiz.id q) id); [|exact Hq].
      destruct v; exact Hq.
    + rewrite map_map. erewrite map_ext; [exact Hnd|]. intros q. simpl.
      destruct (String.eqb (EditQuiz.id q) id); [|reflexivity]. destruct v; reflexivity.
  - split; [|repeat split]. unfold EditQuiz.form_ok. simpl. split; [|split].
    + destruct (EditQuiz.questions st); [congruence|discriminate].
    + rewrite List.Forall_map. eapply List.Forall_impl; [|exact H4]. intros q Hq.
      simpl. destruct (String.eqb (EditQuiz.id q) questionId); [|exact Hq].
      simpl. rewrite length_insert. exact Hq.
    + rewrite map_map. erewrite map_ext; [exact Hnd|]. intros q. simpl.
      destruct (String.eqb (EditQuiz.id q) questionId); reflexivity.
Qed.

Lemma edits_ok (es : list EditQuiz.Edit) (st : EditQuiz.State) :
  EditQuiz.form_ok st -> EditQuiz.well_timed es st ->
  EditQuiz.form_ok (EditQuiz.edits es st) /\ EditQuiz.quiz (EditQuiz.edits es st) = EditQuiz.quiz st /\ EditQuiz.user (EditQuiz.edits es st) = EditQuiz.user st.
Proof.
  revert st. induction es as [|e es IH]; intros st Hok Hwt; [repeat split; apply Hok|].
  simpl in Hwt. destruct Hwt as [Hfresh Hrest].
  destruct (apply_edit_ok e st Hok Hfresh) as (Hok' & Hq & Hu & _).
  destruct (IH _ Hok' Hrest) as (H1 & H2 & H3).
  simpl. split; [exact H1|]. split; congruence.
Qed.

Lemma fetch_form_ok qr qsr auth_uid id st db :
  snd (EditQuiz.fetchQuizData qr qsr auth_uid id st db) = [EditQuiz.SetLoading false] ->
  NoDup (map Question.id (questions db)) ->
  EditQuiz.form_ok (fst (EditQuiz.fetchQuizData qr qsr auth_uid id st db))
  /\ exists row, EditQuiz.quiz (fst (EditQuiz.fetchQuizData qr qsr auth_uid id st db)) = Some row
                 /\ Quiz.id row = id /\ Quiz.created_by row = auth_uid
                 /\ In row (quizzes db).
Proof.
  unfold EditQuiz.fetchQuizData. destruct qr; simpl; [|discriminate].
  destruct (EditQuiz.select_own_quiz auth_uid id db) as [e|row] eqn:Hsel; [discriminate|].
  destruct qsr; simpl; [|discriminate]. intros _ Hnd. split.
  - unfold EditQuiz.form_ok. simpl.
    destruct (map EditQuiz.format_question (QuizResults.select_questions auth_uid id db))
      as [|fq fqs] eqn:Hf.
    + split; [discriminate|]. split; repeat constructor. intros H.
      apply list_elem_of_In in H. contradiction.
    + rewrite <- Hf. split; [rewrite Hf; discriminate|]. split.
      * rewrite List.Forall_map. apply List.Forall_forall. intros q _.
        apply format_question_options.
      * rewrite map_map. simpl.
        unfold QuizResults.select_questions.
        rewrite (Permutation_map _ (sort_by_perm _ _)).
        apply NoDup_map_filter, Hnd.
  - exists row. split; [reflexivity|].
    unfold EditQuiz.select_own_quiz in Hsel. apply single_inv in Hsel.
    assert (Hin : In row (List.filter
                            (fun q => Rls.quiz_readable auth_uid q
                                      && String.eqb (Quiz.id q) id
                                      && String.eqb (Quiz.created_by q) auth_uid)
                            (quizzes db))) by (rewrite Hsel; left; reflexivity).
    apply filter_In in Hin as [Hin Hp]. apply andb_prop in Hp as [Hp Hc].
    apply andb_prop in Hp as [_ Hi]. apply String.eqb_eq in Hi, Hc. tauto.
Qed.

End EditorFacts.

(** X14. The editor's form stays usable: once the quiz has been loaded,
    however the author adds, removes and changes questions and options,
    the form holds at least one question, every question keeps exactly
    four option fields and no two questions share an id, provided the ids
    of the stored questions are distinct and no two questions are added
    within the same millisecond. *)
Theorem editor_form_stays_ok (qr qsr : bool) (auth_uid id : uuid) (st : EditQuiz.State)
    (db : DB) (es : list EditQuiz.Edit) :
  snd (EditQuiz.fetchQuizData qr qsr auth_uid id st db) = [EditQuiz.SetLoading false] ->
  NoDup (map Question.id (questions db)) ->
  EditQuiz.well_timed es (fst (EditQuiz.fetchQuizData qr qsr auth_uid id st db)) ->
  let st' := EditQuiz.edits es (fst (EditQuiz.fetchQuizData qr qsr auth_uid id st db)) in
  EditQuiz.questions st' <> []
  /\ Forall (fun q => length (EditQuiz.options q) = 4%nat) (EditQuiz.questions st')
  /\ NoDup (map EditQuiz.id (EditQuiz.questions st'))
  /\ exists row, EditQuiz.quiz st' = Some row /\ Quiz.id row = id
                 /\ Quiz.created_by row = auth_uid.
Proof.
  intros Hok Hnd Hwt st'.
  destruct (fetch_form_ok qr qsr auth_uid id st db Hok Hnd)
    as (Hform & row & Hrow & Hid & Hown & _).
  destruct (edits_ok es _ Hform Hwt) as ((H1 & H2 & H3) & Hq & _).
  subst st'. repeat (split; [assumption|]).
  exists row. rewrite Hq. repeat split; assumption.
Qed.

Lemma editor_form_stays_ok_witness :
  length (EditQuiz.questions (EditQuiz.edits Sample2.some_edits Sample2.editor_loaded))
  = 4%nat
  /\ EditQuiz.questions (EditQuiz.edits Sample2.some_edits Sample2.editor_loaded) <> [].
Proof.
  split; [vm_compute; reflexivity|].
  apply (editor_form_stays_ok true true "u1" "quiz-1" Sample2.editor_initial Sample.db
           Sample2.some_edits).
  - reflexivity.
  - apply (bool_decide_unpack _). vm_compute. exact I.
  - vm_compute. repeat split. intros H.
    repeat destruct H as [H|H]; try discriminate; contradiction.
Defined.

(** Why the condition on the additions is there: two questions added
    within one millisecond get the same id, and removing one of them
    removes both, which can empty the form. *)
Example hasty_additions_can_empty_the_form :
  EditQuiz.questions (EditQuiz.edits Sample2.hasty_edits Sample2.editor_loaded) = [].
Proof. vm_compute. reflexivity. Qed.

Section SaveFacts.

Local Open Scope Z_scope.

Context (trim : string -> string).

Lemma update_quiz_owner_keys now uid quiz_id f db :
  (forall q, Quiz.id (f q) = Quiz.id q /\ Quiz.created_by (f q) = Quiz.created_by q) ->
  map (fun q => (Quiz.id q, Quiz.created_by q)) (quizzes (Store.update_quiz now uid quiz_id f db))
  = map (fun q => (Quiz.id q, Quiz.created_by q)) (quizzes db).
Proof.
  intros Hf. unfold Store.update_quiz. simpl. rewrite map_map. apply map_ext. intros q.
  destruct (_ && _); [|reflexivity]. simpl. destruct (Hf q) as [-> ->]. reflexivity.
Qed.

Lemma question_writable_keys db db' uid quiz_id :
  map (fun q => (Quiz.id q, Quiz.created_by q)) (quizzes db')
  = map (fun q => (Quiz.id q, Quiz.created_by q)) (quizzes db) ->
  Store.question_writable db' uid quiz_id = Store.question_writable db uid quiz_id.
Proof.
  intros Hk. unfold Store.question_writable.
  assert (Hmap : forall l,
             existsb (fun q => String.eqb (Quiz.id q) quiz_id
                               && String.eqb (Quiz.created_by q) uid) l
             = existsb (fun k => String.eqb k.1 quiz_id && String.eqb k.2 uid)
                       (map (fun q => (Quiz.id q, Quiz.created_by q)) l)).
  { intros l. rewrite <- existsb_ext_map. reflexivity. }
  rewrite !Hmap, Hk. reflexivity.
Qed.

Lemma question_writable_owned db uid quiz_id :
  Store.question_writable db uid quiz_id = true
  <-> exists q, In q (quizzes db) /\ Quiz.id q = quiz_id /\ Quiz.created_by q = uid.
Proof.
  unfold Store.question_writable. rewrite existsb_exists. split.
  - intros (q & Hq & Hp). apply andb_prop in Hp as [H1 H2].
    apply String.eqb_eq in H1, H2. eauto.
  - intros (q & Hq & H1 & H2). exists q. split; [exact Hq|].
    rewrite H1, H2, !String.eqb_refl. reflexivity.
Qed.

(** Deleting the questions of a quiz: all of them when the quiz is the
    user's, none otherwise; the questions of other quizzes stay. *)
Lemma delete_questions_spec uid quiz_id db :
  questions (Store.delete_questions uid quiz_id db)
  = if Store.question_writable db uid quiz_id
    then List.filter (fun qn => negb (String.eqb (Question.quiz_id qn) quiz_id)) (questions db)
    else questions db.
Proof.
  unfold Store.delete_questions. simpl.
  destruct (Store.question_writable db uid quiz_id) eqn:Hw.
  - apply filter_ext. intros qn.
    destruct (String.eqb (Question.quiz_id qn) quiz_id) eqn:E; [|reflexivity].
    apply String.eqb_eq in E. rewrite E, Hw. reflexivity.
  - apply filter_all. apply List.Forall_forall. intros qn _.
    destruct (String.eqb (Question.quiz_id qn) quiz_id) eqn:E; [|reflexivity].
    apply String.eqb_eq in E. rewrite E, Hw. reflexivity.
Qed.

Lemma insert_questions_inv uid rows db db' :
  Store.insert_questions uid rows db = inr db' ->
  forallb (fun qn => Store.question_writable db uid (Question.quiz_id qn)) rows = true
  /\ NoDup (map Question.id rows)
  /\ Forall (fun qn => ~ In (Question.id qn) (map Question.id (questions db))) rows
  /\ db' = mkDB (profiles db) (quizzes db) (questions db ++ rows) (quiz_attempts db).
Proof.
  unfold Store.insert_questions.
  destruct (forallb _ rows) eqn:Hw; simpl; [|discriminate].
  destruct (bool_decide (NoDup (map Question.id rows))) eqn:Hnd; simpl; [|discriminate].
  destruct (existsb _ rows) eqn:Hex; [discriminate|].
  intros H. injection H as <-. split; [reflexivity|].
  split; [apply bool_decide_eq_true in Hnd; exact Hnd|]. split; [|reflexivity].
  apply List.Forall_forall. intros qn Hqn Hin.
  apply in_map_iff in Hin as (old & Hid & Hold).
  assert (existsb (fun qn0 => existsb (fun old0 => String.eqb (Question.id old0)
                                                              (Question.id qn0))
                                      (questions db)) rows = true).
  { apply existsb_exists. exists qn. split; [exact Hqn|].
    apply existsb_exists. exists old. split; [exact Hold|]. apply String.eqb_eq, Hid. }
  congruence.
Qed.

(** The rows built for the insert, one per valid question, in order. *)
Lemma questionsToInsert_lookup env quiz_id valids index row :
  EditQuiz.questionsToInsert trim env quiz_id valids !! index = Some row ->
  exists q,
    valids !! index = Some q
    /\ row = Question.mk (EditQuiz.gen_random_uuid env index) quiz_id
               (trim (EditQuiz.question_text q))
               (List.filter (EditQuiz.filled trim) (EditQuiz.options q))
               (EditQuiz.correct_answer q)
               (if EditQuiz.filled trim (EditQuiz.explanation q)
                then Some (trim (EditQuiz.explanation q)) else None)
               (Z.of_nat index).
Proof.
  unfold EditQuiz.questionsToInsert. rewrite list_lookup_imap.
  destruct (valids !! index) as [q|]; simpl; [|discriminate].
  intros H. injection H as <-. exists q. split; reflexivity.
Qed.

Lemma questionsToInsert_In env quiz_id valids row :
  In row (EditQuiz.questionsToInsert trim env quiz_id valids) ->
  exists index q,
    valids !! index = Some q /\ In q valids
    /\ row = Question.mk (EditQuiz.gen_random_uuid env index) quiz_id
               (trim (EditQuiz.question_text q))
               (List.filter (EditQuiz.filled trim) (EditQuiz.options q))
               (EditQuiz.correct_answer q)
               (if EditQuiz.filled trim (EditQuiz.explanation q)
                then Some (trim (EditQuiz.explanation q)) else None)
               (Z.of_nat index).
Proof.
  intros Hin. apply list_elem_of_In, list_elem_of_lookup in Hin as (index & Hrow).
  destruct (questionsToInsert_lookup _ _ _ _ _ Hrow) as (q & Hq & ->).
  exists index, q. split; [exact Hq|]. split; [|reflexivity].
  apply list_elem_of_In, list_elem_of_lookup. eauto.
Qed.

Lemma imap_order {A B : Type} (f : nat -> A -> B) (g : B -> Z) (l : list A) (k : nat) :
  (forall i x, g (f i x) = Z.of_nat i) ->
  map g (imap (fun i => f (k + i)%nat) l) = map Z.of_nat (seq k (length l)).
Proof.
  intros Hg. revert k. induction l as [|x l IH]; intros k; [reflexivity|].
  rewrite imap_cons. simpl. rewrite Hg, Nat.add_0_r. f_equal.
  rewrite <- (IH (S k)). f_equal. apply imap_ext. intros i y _. simpl.
  f_equal. lia.
Qed.

Lemma questionsToInsert_order env quiz_id valids :
  map Question.order_index (EditQuiz.questionsToInsert trim env quiz_id valids)
  = map Z.of_nat (seq 0 (length valids)).
Proof.
  unfold EditQuiz.questionsToInsert.
  apply (imap_order (fun index q =>
           Question.mk (EditQuiz.gen_random_uuid env index) quiz_id
             (trim (EditQuiz.question_text q))
             (List.filter (EditQuiz.filled trim) (EditQuiz.options q))
             (EditQuiz.correct_answer q)
             (if EditQuiz.filled trim (EditQuiz.explanation q)
              then Some (trim (EditQuiz.explanation q)) else None)
             (Z.of_nat index)) Question.order_index valids 0).
  reflexivity.
Qed.

Lemma edited_keeps st isPublished count q :
  Quiz.id (EditQuiz.edited trim st isPublished count q) = Quiz.id q
  /\ Quiz.created_by (EditQuiz.edited trim st isPublished count q) = Quiz.created_by q.
Proof. split; reflexivity. Qed.

(** A save that ends with the navigation to the list has passed the
    validation and all three requests. *)
Lemma save_success_inv env isPublished st db :
  In EditQuiz.NavigateMyQuizzes (snd (EditQuiz.saveQuiz trim env isPublished st db)) ->
  exists u q db3,
    EditQuiz.user st = Some u /\ EditQuiz.quiz st = Some q
    /\ EditQuiz.validQuestions trim st <> []
    /\ Store.insert_questions (TakeQuiz.user_id u)
         (EditQuiz.questionsToInsert trim env (Quiz.id q) (EditQuiz.validQuestions trim st))
         (Store.delete_questions (TakeQuiz.user_id u) (Quiz.id q)
            (Store.update_quiz (EditQuiz.now env) (TakeQuiz.user_id u) (Quiz.id q)
               (EditQuiz.edited trim st isPublished
                  (length (EditQuiz.validQuestions trim st))) db))
       = inr db3
    /\ fst (EditQuiz.saveQuiz trim env isPublished st db) = db3.
Proof.
  unfold EditQuiz.saveQuiz.
  destruct (EditQuiz.user st) as [u|];
    [|simpl; intros [H|[]]; discriminate].
  destruct (EditQuiz.quiz st) as [q|];
    [|simpl; intros [H|[]]; discriminate].
  destruct (_ || _); [simpl; intros [H|[]]; discriminate|].
  destruct (length (EditQuiz.validQuestions trim st) =? 0)%nat eqn:Hlen;
    [simpl; intros [H|[]]; discriminate|].
  apply Nat.eqb_neq in Hlen.
  assert (Hfail : forall (db' : DB) e,
             ~ In EditQuiz.NavigateMyQuizzes
                  [EditQuiz.SetSaving true; EditQuiz.ToastError "Failed to update quiz";
                   EditQuiz.ConsoleError "Error:" e; EditQuiz.SetSaving false]).
  { intros db' e H. repeat destruct H as [H|H]; try discriminate; contradiction. }
  destruct (EditQuiz.update_reachable env); simpl negb; cbv iota;
    [|intros H; exfalso; exact (Hfail db _ H)].
  destruct (EditQuiz.delete_reachable env); simpl negb; cbv iota;
    [|intros H; exfalso; eapply Hfail; [exact db|exact H]].
  destruct (EditQuiz.insert_reachable env); simpl negb; cbv iota;
    [|intros H; exfalso; eapply Hfail; [exact db|exact H]].
  destruct (Store.insert_questions _ _ _) as [e|db3] eqn:Hins;
    [intros H; exfalso; eapply Hfail; [exact db|exact H]|].
  intros _. exists u, q, db3. repeat split; try assumption.
  intros Hnil. rewrite Hnil in Hlen. apply Hlen. reflexivity.
Qed.

End SaveFacts.

Section SaveOutcome.

Local Open Scope Z_scope.

Context (trim : string -> string).

Lemma filter_filter_neg {A : Type} (p : A -> bool) (l : list A) :
  List.filter p (List.filter (fun x => negb (p x)) l) = [].
Proof.
  apply filter_none, List.Forall_forall. intros x Hx.
  apply filter_In in Hx as [_ Hx]. destruct (p x); [discriminate|reflexivity].
Qed.

Lemma filter_idem {A : Type} (p : A -> bool) (l : list A) :
  List.filter p (List.filter p l) = List.filter p l.
Proof.
  apply filter_all, List.Forall_forall. intros x Hx. apply filter_In in Hx. tauto.
Qed.

Lemma rows_quiz_id env quiz_id valids :
  Forall (fun qn => Question.quiz_id qn = quiz_id)
         (EditQuiz.questionsToInsert trim env quiz_id valids).
Proof.
  apply List.Forall_forall. intros row Hrow.
  destruct (questionsToInsert_In trim _ _ _ _ Hrow) as (i & q & _ & _ & ->). reflexivity.
Qed.

Lemma rows_length env quiz_id valids :
  length (EditQuiz.questionsToInsert trim env quiz_id valids) = length valids.
Proof. unfold EditQuiz.questionsToInsert. apply length_imap. Qed.

(** The store after the three requests of a save have gone through. *)
Lemma save_store env isPublished st db u q db3 :
  EditQuiz.validQuestions trim st <> [] ->
  Store.insert_questions (TakeQuiz.user_id u)
    (EditQuiz.questionsToInsert trim env (Quiz.id q) (EditQuiz.validQuestions trim st))
    (Store.delete_questions (TakeQuiz.user_id u) (Quiz.id q)
       (Store.update_quiz (EditQuiz.now env) (TakeQuiz.user_id u) (Quiz.id q)
          (EditQuiz.edited trim st isPublished
             (length (EditQuiz.validQuestions trim st))) db))
  = inr db3 ->
  Store.question_writable db (TakeQuiz.user_id u) (Quiz.id q) = true
  /\ questions db3
     = List.filter (fun qn => negb (String.eqb (Question.quiz_id qn) (Quiz.id q)))
                   (questions db)
       ++ EditQuiz.questionsToInsert trim env (Quiz.id q) (EditQuiz.validQuestions trim st)
  /\ quizzes db3
     = quizzes (Store.update_quiz (EditQuiz.now env) (TakeQuiz.user_id u) (Quiz.id q)
                  (EditQuiz.edited trim st isPublished
                     (length (EditQuiz.validQuestions trim st))) db)
  /\ quiz_attempts db3 = quiz_attempts db
  /\ profiles db3 = profiles db.
Proof.
  intros Hne Hins.
  set (uid := TakeQuiz.user_id u) in *. set (qid := Quiz.id q) in *.
  set (db1 := Store.update_quiz _ uid qid _ db) in *.
  destruct (insert_questions_inv _ _ _ _ Hins) as (Hw & _ & _ & ->).
  assert (Hkeys : map (fun q0 => (Quiz.id q0, Quiz.created_by q0)) (quizzes db1)
                  = map (fun q0 => (Quiz.id q0, Quiz.created_by q0)) (quizzes db)).
  { apply update_quiz_owner_keys. intros q0. apply edited_keeps. }
  assert (Hw1 : Store.question_writable db1 uid qid = true).
  { destruct (EditQuiz.questionsToInsert trim env qid (EditQuiz.validQuestions trim st))
      as [|row rows] eqn:Hrows.
    - apply (f_equal (@length _)) in Hrows. rewrite rows_length in Hrows.
      destruct (EditQuiz.validQuestions trim st); [congruence|discriminate].
    - simpl in Hw. apply andb_prop in Hw as [Hw _].
      pose proof (rows_quiz_id env qid (EditQuiz.validQuestions trim st)) as Hq.
      rewrite Hrows in Hq. inversion Hq as [|? ? Hrow _]; subst.
      rewrite Hrow in Hw.
      rewrite <- Hw. apply question_writable_keys. reflexivity. }
  split; [rewrite <- Hw1; symmetry; apply question_writable_keys, Hkeys|].
  split; [|repeat split].
  cbn [questions]. rewrite delete_questions_spec, Hw1. reflexivity.
Qed.

End SaveOutcome.

(** X15. A successful save replaces the questions of the quiz by the valid
    questions of the form, in the order of the form: afterwards the stored
    questions of the quiz are exactly the rows built from them, numbered 0,
    1, 2, ... by order_index, each with a non-empty text and at least two
    options none of which is blank; total_questions of the user's quiz row
    is their number, its publication flag is the one asked for; the
    questions of other quizzes, the ids of the quizzes, the attempts and
    the profiles are as before. *)
Theorem save_replaces_questions (trim : string -> string) (env : EditQuiz.SaveEnv)
    (isPublished : bool) (st : EditQuiz.State) (db : DB) :
  In EditQuiz.NavigateMyQuizzes (snd (EditQuiz.saveQuiz trim env isPublished st db)) ->
  exists u q,
    EditQuiz.user st = Some u /\ EditQuiz.quiz st = Some q
    /\ let db' := fst (EditQuiz.saveQuiz trim env isPublished st db) in
       let rows := EditQuiz.questionsToInsert trim env (Quiz.id q)
                     (EditQuiz.validQuestions trim st) in
       List.filter (fun qn => String.eqb (Question.quiz_id qn) (Quiz.id q)) (questions db')
       = rows
       /\ List.filter (fun qn => negb (String.eqb (Question.quiz_id qn) (Quiz.id q)))
                      (questions db')
          = List.filter (fun qn => negb (String.eqb (Question.quiz_id qn) (Quiz.id q)))
                        (questions db)
       /\ rows <> []
       /\ map Question.order_index rows = map Z.of_nat (seq 0 (length rows))
       /\ Forall (fun qn => Question.question_text qn <> ""
                            /\ (2 <= length (Question.options qn))%nat
                            /\ Forall (fun o => trim o <> "") (Question.options qn)) rows
       /\ Forall (fun row => Quiz.id row = Quiz.id q ->
                             Quiz.created_by row = TakeQuiz.user_id u ->
                             Quiz.total_questions row = Some (Z.of_nat (length rows))
                             /\ Quiz.is_published row = Some isPublished
                             /\ Quiz.title row = trim (EditQuiz.title (EditQuiz.quizData st))
                             /\ Quiz.updated_at row = Some (EditQuiz.now env))
                 (quizzes db')
       /\ (exists row, In row (quizzes db') /\ Quiz.id row = Quiz.id q
                       /\ Quiz.created_by row = TakeQuiz.user_id u)
       /\ map Quiz.id (quizzes db') = map Quiz.id (quizzes db)
       /\ quiz_attempts db' = quiz_attempts db
       /\ profiles db' = profiles db.
Proof.
  intros Hnav.
  destruct (save_success_inv trim env isPublished st db Hnav)
    as (u & q & db3 & Hu & Hq & Hne & Hins & Hfst).
  exists u, q. split; [exact Hu|]. split; [exact Hq|]. cbv zeta. rewrite Hfst.
  destruct (save_store trim env isPublished st db u q db3 Hne Hins)
    as (Hw & Hqs & Hquizzes & Hatt & Hprof).
  set (rows := EditQuiz.questionsToInsert trim env (Quiz.id q)
                 (EditQuiz.validQuestions trim st)) in *.
  assert (Hrowsq : Forall (fun qn => Question.quiz_id qn = Quiz.id q) rows)
    by apply rows_quiz_id.
  split.
  { rewrite Hqs, List.filter_app, filter_filter_neg. simpl.
    apply filter_all. eapply List.Forall_impl; [|exact Hrowsq].
    intros qn ->. apply String.eqb_refl. }
  split.
  { rewrite Hqs, List.filter_app, filter_idem.
    rewrite (filter_none _ rows), app_nil_r; [reflexivity|].
    eapply List.Forall_impl; [|exact Hrowsq]. intros qn ->.
    rewrite String.eqb_refl. reflexivity. }
  split.
  { intros Hnil. apply (f_equal (@length _)) in Hnil. unfold rows in Hnil.
    rewrite rows_length in Hnil.
    destruct (EditQuiz.validQuestions trim st); [congruence|discriminate]. }
  split.
  { unfold rows. rewrite rows_length. apply questionsToInsert_order. }
  split.
  { apply List.Forall_forall. intros row Hrow.
    destruct (questionsToInsert_In trim _ _ _ _ Hrow) as (i & fq & _ & Hfq & ->).
    simpl. unfold EditQuiz.validQuestions in Hfq. apply filter_In in Hfq as [_ Hvalid].
    unfold EditQuiz.valid in Hvalid. apply andb_prop in Hvalid as [Htext Hopts].
    split.
    - unfold EditQuiz.filled in Htext. apply negb_true_iff, String.eqb_neq in Htext.
      exact Htext.
    - split; [apply Nat.leb_le, Hopts|].
      apply List.Forall_forall. intros o Ho. apply filter_In in Ho as [_ Ho].
      unfold EditQuiz.filled in Ho. apply negb_true_iff, String.eqb_neq in Ho. exact Ho. }
  split.
  { rewrite Hquizzes. unfold Store.update_quiz. simpl. rewrite List.Forall_map.
    apply List.Forall_forall. intros row _.
    destruct (String.eqb (Quiz.id row) (Quiz.id q) && Store.quiz_owned _ row) eqn:Hc.
    - simpl. intros _ _. unfold rows. rewrite rows_length. repeat split.
    - intros Hid Hown. exfalso. unfold Store.quiz_owned in Hc.
      rewrite Hid, Hown, !String.eqb_refl in Hc. discriminate. }
  split.
  { apply question_writable_owned in Hw as (row & Hrow & Hid & Hown).
    assert (Hk : In (Quiz.id row, Quiz.created_by row)
                    (map (fun q0 => (Quiz.id q0, Quiz.created_by q0)) (quizzes db3))).
    { rewrite Hquizzes, update_quiz_owner_keys by (intros; apply edited_keeps).
      apply in_map_iff. exists row. split; [reflexivity|exact Hrow]. }
    apply in_map_iff in Hk as (row' & Heq & Hrow'). injection Heq as H1 H2.
    exists row'. repeat split; congruence. }
  split; [|split; assumption].
  rewrite Hquizzes.
  pose proof (update_quiz_owner_keys (EditQuiz.now env) (TakeQuiz.user_id u) (Quiz.id q)
                (EditQuiz.edited trim st isPublished
                   (length (EditQuiz.validQuestions trim st))) db
                (fun q0 => edited_keeps trim st isPublished _ q0)) as Hk.
  apply (f_equal (map fst)) in Hk. rewrite !map_map in Hk. exact Hk.
Qed.

Lemma save_replaces_questions_witness :
  map (fun qn => (Question.id qn, Question.order_index qn))
      (questions (fst (EditQuiz.saveQuiz EditQuiz.utf8_trim Sample2.save_env true
                         (EditQuiz.edits Sample2.some_edits Sample2.editor_loaded)
                         Sample.db)))
  = [("nq0", 0); ("nq1", 1); ("nq2", 2)].
Proof.
  destruct (save_replaces_questions EditQuiz.utf8_trim Sample2.save_env true
              (EditQuiz.edits Sample2.some_edits Sample2.editor_loaded) Sample.db)
    as (u & q & _ & _ & _).
  - vm_compute. right. right. left. reflexivity.
  - vm_compute. reflexivity.
Defined.

(** X16. A save is refused before anything is sent when nobody is signed
    in, no quiz is loaded, the title or the description is blank, or no
    question is complete (a non-blank text and at least two non-blank
    options): the store is untouched and the only effect is one error
    toast. *)
Theorem save_refuses_incomplete (trim : string -> string) (env : EditQuiz.SaveEnv)
    (isPublished : bool) (st : EditQuiz.State) (db : DB) :
  EditQuiz.user st = None \/ EditQuiz.quiz st = None
  \/ EditQuiz.filled trim (EditQuiz.title (EditQuiz.quizData st)) = false
  \/ EditQuiz.filled trim (EditQuiz.description (EditQuiz.quizData st)) = false
  \/ EditQuiz.validQuestions trim st = [] ->
  fst (EditQuiz.saveQuiz trim env isPublished st db) = db
  /\ exists msg, snd (EditQuiz.saveQuiz trim env isPublished st db)
                 = [EditQuiz.ToastError msg].
Proof.
  intros Hbad. unfold EditQuiz.saveQuiz.
  destruct (EditQuiz.user st) as [u|]; [|split; [reflexivity|eauto]].
  destruct (EditQuiz.quiz st) as [q|]; [|split; [reflexivity|eauto]].
  destruct (negb (EditQuiz.filled trim (EditQuiz.title (EditQuiz.quizData st)))
            || negb (EditQuiz.filled trim (EditQuiz.description (EditQuiz.quizData st))))
    eqn:Hfields; [split; [reflexivity|eauto]|].
  apply orb_false_elim in Hfields as [Ht Hd].
  apply negb_false_iff in Ht, Hd.
  destruct Hbad as [H|[H|[H|[H|H]]]]; try congruence.
  rewrite H. simpl. split; [reflexivity|eauto].
Qed.

Lemma save_refuses_incomplete_witness :
  fst (EditQuiz.saveQuiz EditQuiz.utf8_trim Sample2.save_env true
         Sample2.editor_initial Sample.db) = Sample.db.
Proof.
  apply (save_refuses_incomplete EditQuiz.utf8_trim Sample2.save_env true
           Sample2.editor_initial Sample.db).
  right. left. reflexivity.
Defined.

(** X17. A save is not atomic: when the update and the delete have gone
    through for the user's quiz and the insert then does not reach the
    store, the quiz is left without any question while its row already
    carries the new number of questions; the author is told "Failed to
    update quiz". *)
Theorem failed_insert_loses_questions (trim : string -> string) (env : EditQuiz.SaveEnv)
    (isPublished : bool) (st : EditQuiz.State) (db : DB) (u : TakeQuiz.User) (q : Quiz.t) :
  EditQuiz.user st = Some u ->
  EditQuiz.quiz st = Some q ->
  EditQuiz.filled trim (EditQuiz.title (EditQuiz.quizData st)) = true ->
  EditQuiz.filled trim (EditQuiz.description (EditQuiz.quizData st)) = true ->
  EditQuiz.validQuestions trim st <> [] ->
  EditQuiz.update_reachable env = true ->
  EditQuiz.delete_reachable env = true ->
  EditQuiz.insert_reachable env = false ->
  Store.question_writable db (TakeQuiz.user_id u) (Quiz.id q) = true ->
  let db' := fst (EditQuiz.saveQuiz trim env isPublished st db) in
  List.filter (fun qn => String.eqb (Question.quiz_id qn) (Quiz.id q)) (questions db') = []
  /\ Forall (fun row => Quiz.id row = Quiz.id q ->
                        Quiz.created_by row = TakeQuiz.user_id u ->
                        Quiz.total_questions row
                        = Some (Z.of_nat (length (EditQuiz.validQuestions trim st))))
            (quizzes db')
  /\ snd (EditQuiz.saveQuiz trim env isPublished st db)
     = [EditQuiz.SetSaving true; EditQuiz.ToastError "Failed to update quiz";
        EditQuiz.ConsoleError "Error:" NetworkError; EditQuiz.SetSaving false].
Proof.
  intros Hu Hq Ht Hd Hne Hup Hdel Hins Hw. cbv zeta.
  unfold EditQuiz.saveQuiz. rewrite Hu, Hq, Ht, Hd, Hup, Hdel, Hins. simpl negb. cbv iota.
  simpl orb. cbv iota.
  destruct (length (EditQuiz.validQuestions trim st) =? 0)%nat eqn:Hlen.
  { apply Nat.eqb_eq in Hlen. destruct (EditQuiz.validQuestions trim st);
      [congruence|discriminate]. }
  cbn [fst snd]. split; [|split; [|reflexivity]].
  - rewrite delete_questions_spec.
    rewrite (question_writable_keys db), Hw
      by (apply update_quiz_owner_keys; intros; apply edited_keeps).
    apply filter_filter_neg.
  - unfold Store.delete_questions, Store.update_quiz. cbn [quizzes].
    rewrite List.Forall_map. apply List.Forall_forall. intros row _.
    destruct (String.eqb (Quiz.id row) (Quiz.id q) && Store.quiz_owned _ row) eqn:Hc.
    + simpl. intros _ _. reflexivity.
    + intros Hid Hown. exfalso. unfold Store.quiz_owned in Hc.
      rewrite Hid, Hown, !String.eqb_refl in Hc. discriminate.
Qed.

Lemma failed_insert_loses_questions_witness :
  questions (fst (EditQuiz.saveQuiz EditQuiz.utf8_trim Sample2.save_env_insert_down true
                    Sample2.editor_loaded Sample.db)) = []
  /\ map Quiz.total_questions
         (quizzes (fst (EditQuiz.saveQuiz EditQuiz.utf8_trim Sample2.save_env_insert_down
                          true Sample2.editor_loaded Sample.db)))
     = [Some 4].
Proof.
  edestruct (failed_insert_loses_questions EditQuiz.utf8_trim Sample2.save_env_insert_down
               true Sample2.editor_loaded Sample.db) as (_ & _ & _).
  - reflexivity.
  - reflexivity.
  - vm_compute. reflexivity.
  - vm_compute. reflexivity.
  - vm_compute. discriminate.
  - reflexivity.
  - reflexivity.
  - reflexivity.
  - vm_compute. reflexivity.
  - vm_compute. split; reflexivity.
Defined.

Section OptionFacts.

Lemma filter_lookup_prefix {A : Type} (p : A -> bool) (l : list A) (i : nat) (o : A) :
  l !! i = Some o -> p o = true ->
  List.filter p l !! length (List.filter p (firstn i l)) = Some o.
Proof.
  intros Hl Hp.
  replace (List.filter p l) with (List.filter p (firstn i l ++ o :: skipn (S i) l))
    by (f_equal; apply take_drop_middle, Hl).
  rewrite List.filter_app. simpl. rewrite Hp.
  apply list_lookup_middle. reflexivity.
Qed.

Lemma filter_length_all {A : Type} (p : A -> bool) (l : list A) :
  length (List.filter p l) = length l -> Forall (fun x => p x = true) l.
Proof.
  induction l as [|x l IH]; simpl; [constructor|].
  pose proof (List.filter_length_le p l) as Hle.
  destruct (p x) eqn:Hx; simpl; intros Hlen; [|lia].
  constructor; [exact Hx|]. apply IH. lia.
Qed.

End OptionFacts.

(** X18. Saving drops the blank options of a question but stores
    correct_answer as the form has it.  The option the author marked as
    correct, if it is not blank, is therefore stored at the index
    "number of non-blank options before it": that is the stored
    correct_answer exactly when no blank option precedes it, and a smaller
    index otherwise, in which case the stored correct_answer names a later
    option or none. *)
Theorem marked_option_position (trim : string -> string) (env : EditQuiz.SaveEnv)
    (quiz_id : uuid) (valids : list EditQuiz.Question) (index : nat)
    (q : EditQuiz.Question) (c : nat) (o : string) :
  valids !! index = Some q ->
  EditQuiz.correct_answer q = Z.of_nat c ->
  EditQuiz.options q !! c = Some o ->
  EditQuiz.filled trim o = true ->
  exists row,
    EditQuiz.questionsToInsert trim env quiz_id valids !! index = Some row
    /\ Question.correct_answer row = Z.of_nat c
    /\ Question.options row
       !! length (List.filter (EditQuiz.filled trim) (firstn c (EditQuiz.options q)))
       = Some o
    /\ (Forall (fun o' => EditQuiz.filled trim o' = true) (firstn c (EditQuiz.options q))
        -> Question.options row !! c = Some o)
    /\ (~ Forall (fun o' => EditQuiz.filled trim o' = true) (firstn c (EditQuiz.options q))
        -> (length (List.filter (EditQuiz.filled trim) (firstn c (EditQuiz.options q)))
            < c)%nat).
Proof.
  intros Hq Hc Ho Hfilled.
  eexists. split.
  { unfold EditQuiz.questionsToInsert. rewrite list_lookup_imap, Hq. reflexivity. }
  cbn [Question.correct_answer Question.options].
  split; [exact Hc|].
  pose proof (filter_lookup_prefix (EditQuiz.filled trim) (EditQuiz.options q) c o
                Ho Hfilled) as Hpos.
  split; [exact Hpos|].
  assert (Hlen : length (firstn c (EditQuiz.options q)) = c).
  { rewrite List.length_firstn. apply lookup_lt_Some in Ho. lia. }
  split.
  - intros Hall. rewrite (filter_all _ _ Hall), Hlen in Hpos. exact Hpos.
  - intros Hnot.
    pose proof (List.filter_length_le (EditQuiz.filled trim)
                  (firstn c (EditQuiz.options q))) as Hle.
    destruct (Nat.eq_dec (length (List.filter (EditQuiz.filled trim)
                                    (firstn c (EditQuiz.options q)))) c) as [Heq|Hne];
      [|lia].
    exfalso. apply Hnot, filter_length_all. congruence.
Qed.

Lemma marked_option_position_witness :
  exists row,
    EditQuiz.questionsToInsert EditQuiz.utf8_trim Sample2.save_env "quiz-1"
      (EditQuiz.validQuestions EditQuiz.utf8_trim Sample2.cleared_first_option) !! 0%nat
    = Some row
    /\ Question.correct_answer row = 1
    /\ Question.options row !! 0%nat = Some "b"
    /\ Question.options row !! 1%nat = Some "c".
Proof.
  destruct (marked_option_position EditQuiz.utf8_trim Sample2.save_env "quiz-1"
              (EditQuiz.validQuestions EditQuiz.utf8_trim Sample2.cleared_first_option)
              0 (EditQuiz.mkQuestion "q1" "?" ["  "; "b"; "c"; "d"] 1 "" 1) 1 "b")
    as (row & Hrow & Hc & Hpos & _).
  - vm_compute. reflexivity.
  - reflexivity.
  - reflexivity.
  - vm_compute. reflexivity.
  - exists row. split; [exact Hrow|]. split; [exact Hc|]. split; [exact Hpos|].
    vm_compute in Hrow. injection Hrow as <-. reflexivity.
Defined.

(** X19. A save gives every question of the quiz a new id.  An attempt
    made before it has its answers under the old ids, so once the quiz has
    been saved again its results page finds no correct answer, whoever
    looks at it and whatever its stored score is (the new ids being ids
    the attempt does not know). *)
Theorem answers_go_stale_after_save (trim : string -> string) (env : EditQuiz.SaveEnv)
    (isPublished : bool) (st : EditQuiz.State) (db : DB) (a : Attempt.t) (viewer : uuid) :
  In EditQuiz.NavigateMyQuizzes (snd (EditQuiz.saveQuiz trim env isPublished st db)) ->
  (forall index, Attempt.answers a !! EditQuiz.gen_random_uuid env index = None) ->
  exists q,
    EditQuiz.quiz st = Some q
    /\ ResultsView.correctAnswers a
         (QuizResults.select_questions viewer (Quiz.id q)
            (fst (EditQuiz.saveQuiz trim env isPublished st db))) = 0%nat.
Proof.
  intros Hnav Hnew.
  destruct (save_success_inv trim env isPublished st db Hnav)
    as (u & q & db3 & Hu & Hq & Hne & Hins & Hfst).
  destruct (save_store trim env isPublished st db u q db3 Hne Hins) as (_ & Hqs & _).
  exists q. split; [exact Hq|]. rewrite Hfst.
  unfold ResultsView.correctAnswers. rewrite filter_none; [reflexivity|].
  apply List.Forall_forall. intros qn Hqn.
  apply select_questions_In in Hqn as (Hin & Hquiz & _).
  rewrite Hqs in Hin. apply in_app_iff in Hin as [Hold|Hrow].
  - apply filter_In in Hold as [_ Hold]. rewrite Hquiz, String.eqb_refl in Hold.
    discriminate.
  - destruct (questionsToInsert_In trim _ _ _ _ Hrow) as (i & fq & _ & _ & ->).
    apply is_correct_missing. simpl. apply Hnew.
Qed.

Lemma answers_go_stale_after_save_witness :
  ResultsView.correctAnswers (Sample.attempt "a1" "u2" 75 1751000000)
    (QuizResults.select_questions "u2" "quiz-1"
       (fst (EditQuiz.saveQuiz EditQuiz.utf8_trim Sample2.save_env true
               Sample2.editor_loaded Sample.db))) = 0%nat.
Proof.
  destruct (answers_go_stale_after_save EditQuiz.utf8_trim Sample2.save_env true
              Sample2.editor_loaded Sample.db (Sample.attempt "a1" "u2" 75 1751000000) "u2")
    as (q & Hq & Hzero).
  - vm_compute. right. right. left. reflexivity.
  - intros index. apply lookup_empty.
  - vm_compute in Hq. injection Hq as <-. exact Hzero.
Defined.

(** ** Deleting and publishing quizzes *)

Section MyQuizzesFacts.

Local Open Scope Z_scope.

Lemma doomed_iff_writable db uid quizId :
  existsb (fun q => String.eqb (Quiz.id q) quizId && Store.quiz_owned uid q) (quizzes db)
  = Store.question_writable db uid quizId.
Proof. reflexivity. Qed.

Lemma delete_quiz_spec uid quizId db :
  Store.delete_quiz uid quizId db
  = mkDB (profiles db)
         (List.filter (fun q => negb (String.eqb (Quiz.id q) quizId && Store.quiz_owned uid q))
                      (quizzes db))
         (if Store.question_writable db uid quizId
          then List.filter (fun qn => negb (String.eqb (Question.quiz_id qn) quizId))
                           (questions db)
          else questions db)
         (if Store.question_writable db uid quizId
          then List.filter (fun a => negb (String.eqb (Attempt.quiz_id a) quizId))
                           (quiz_attempts db)
          else quiz_attempts db).
Proof.
  unfold Store.delete_quiz. rewrite doomed_iff_writable.
  destruct (Store.question_writable db uid quizId).
  - f_equal; apply filter_ext; intros x; rewrite andb_true_r; reflexivity.
  - f_equal; apply filter_all, List.Forall_forall; intros x _;
      rewrite andb_false_r; reflexivity.
Qed.

Lemma not_writable_not_doomed db uid quizId :
  Store.question_writable db uid quizId = false ->
  List.filter (fun q => negb (String.eqb (Quiz.id q) quizId && Store.quiz_owned uid q))
              (quizzes db) = quizzes db.
Proof.
  intros Hw. apply filter_all, List.Forall_forall. intros q Hq.
  apply negb_true_iff. apply not_true_is_false. intros Hc.
  assert (Store.question_writable db uid quizId = true); [|congruence].
  unfold Store.question_writable. apply existsb_exists. exists q. split; assumption.
Qed.

Lemma filter_map_update {A : Type} (c : A -> bool) (g : A -> A) (l : list A) :
  (forall x, c (g x) = c x) ->
  List.filter (fun x => negb (c x)) (map (fun x => if c x then g x else x) l)
  = List.filter (fun x => negb (c x)) l.
Proof.
  intros Hg. induction l as [|x l IH]; simpl; [reflexivity|].
  destruct (c x) eqn:Hc; simpl.
  - rewrite Hg, Hc. simpl. exact IH.
  - rewrite Hc. simpl. rewrite IH. reflexivity.
Qed.

End MyQuizzesFacts.

(** X20. When the owner of a quiz confirms its deletion and the requests
    go through, the quiz rows of that id owned by the user, all questions
    of the quiz and all attempts at the quiz are gone (the attempts through
    the cascade of the foreign key: the explicit delete on quiz_attempts
    removes nothing, the table having no DELETE policy); the rows of other
    quizzes and the profiles are untouched. *)
Theorem delete_own_quiz (uid quizId : uuid) (db : DB) :
  Store.question_writable db uid quizId = true ->
  let db' := fst (MyQuizzes.deleteQuiz true true true true uid quizId db) in
  quizzes db'
  = List.filter (fun q => negb (String.eqb (Quiz.id q) quizId && Store.quiz_owned uid q))
                (quizzes db)
  /\ questions db'
     = List.filter (fun qn => negb (String.eqb (Question.quiz_id qn) quizId)) (questions db)
  /\ quiz_attempts db'
     = List.filter (fun a => negb (String.eqb (Attempt.quiz_id a) quizId)) (quiz_attempts db)
  /\ Forall (fun qn => Question.quiz_id qn <> quizId) (questions db')
  /\ Forall (fun a => Attempt.quiz_id a <> quizId) (quiz_attempts db')
  /\ Forall (fun q => ~ (Quiz.id q = quizId /\ Quiz.created_by q = uid)) (quizzes db')
  /\ profiles db' = profiles db
  /\ snd (MyQuizzes.deleteQuiz true true true true uid quizId db)
     = [MyQuizzes.ToastSuccess "Quiz deleted successfully"; MyQuizzes.FetchMyQuizzes].
Proof.
  intros Hw. cbv zeta. unfold MyQuizzes.deleteQuiz. simpl negb. cbv iota.
  unfold Store.delete_attempts. cbn [fst snd]. rewrite delete_quiz_spec.
  assert (Hw1 : Store.question_writable (Store.delete_questions uid quizId db) uid quizId
                = true) by exact Hw.
  rewrite Hw1. cbn [quizzes questions quiz_attempts profiles].
  rewrite delete_questions_spec, Hw, filter_idem.
  repeat split.
  - apply List.Forall_forall. intros qn Hqn. apply filter_In in Hqn as [_ Hqn].
    apply negb_true_iff, String.eqb_neq in Hqn. exact Hqn.
  - apply List.Forall_forall. intros a Ha. apply filter_In in Ha as [_ Ha].
    apply negb_true_iff, String.eqb_neq in Ha. exact Ha.
  - apply List.Forall_forall. intros q Hq [Hid Hown]. apply filter_In in Hq as [_ Hq].
    unfold Store.quiz_owned in Hq. rewrite Hid, Hown, !String.eqb_refl in Hq.
    discriminate.
Qed.

(** X21. Deleting is a no-op on the store when the user declines the
    confirmation, and also when the user owns no quiz of that id: the
    policies hide the rows from every statement, nothing is deleted and no
    request fails, so that the page still announces "Quiz deleted
    successfully". *)
Theorem delete_without_ownership (q_up a_up quiz_up : bool) (uid quizId : uuid) (db : DB) :
  MyQuizzes.deleteQuiz false q_up a_up quiz_up uid quizId db = (db, [])
  /\ (Store.question_writable db uid quizId = false ->
      MyQuizzes.deleteQuiz true true true true uid quizId db
      = (db, [MyQuizzes.ToastSuccess "Quiz deleted successfully";
              MyQuizzes.FetchMyQuizzes])).
Proof.
  split; [reflexivity|]. intros Hw.
  unfold MyQuizzes.deleteQuiz. simpl negb. cbv iota. unfold Store.delete_attempts.
  f_equal. rewrite delete_quiz_spec.
  assert (Hdq : Store.delete_questions uid quizId db = db).
  { destruct db as [p qz qs at_]. unfold Store.delete_questions. cbn [profiles quizzes
      questions quiz_attempts]. f_equal.
    pose proof (delete_questions_spec uid quizId (mkDB p qz qs at_)) as Hspec.
    rewrite Hw in Hspec. exact Hspec. }
  rewrite Hdq, Hw, not_writable_not_doomed by exact Hw.
  destruct db; reflexivity.
Qed.

Lemma delete_without_ownership_witness :
  MyQuizzes.deleteQuiz true true true true "u2" "quiz-1" Sample.leaderboard_db
  = (Sample.leaderboard_db,
     [MyQuizzes.ToastSuccess "Quiz deleted successfully"; MyQuizzes.FetchMyQuizzes]).
Proof.
  apply (delete_without_ownership true true true "u2" "quiz-1" Sample.leaderboard_db).
  reflexivity.
Defined.

Lemma delete_own_quiz_witness :
  fst (MyQuizzes.deleteQuiz true true true true "u1" "quiz-1" Sample.leaderboard_db)
  = mkDB (profiles Sample.db) [] [] [].
Proof.
  destruct (delete_own_quiz "u1" "quiz-1" Sample.leaderboard_db) as (H1 & H2 & H3 & _).
  - reflexivity.
  - vm_compute. reflexivity.
Defined.

(** X22. [togglePublishStatus] sets the flag rather than flipping it: the
    user's quiz rows of that id end up with is_published equal to the
    negation of the status the page held, whatever the store held, and
    nothing else of the store changes except the update stamp of those
    rows.  Once a quiz all of whose rows belong to the user has been
    unpublished this way, nobody can load it on the TakeQuiz page any
    more, its creator included. *)
Theorem toggle_sets_publication (now : timestamptz) (uid quizId : uuid)
    (currentStatus : bool) (db : DB) :
  let db' := fst (MyQuizzes.togglePublishStatus now true uid quizId currentStatus db) in
  Forall (fun q => Quiz.id q = quizId -> Quiz.created_by q = uid ->
                   Quiz.is_published q = Some (negb currentStatus))
         (quizzes db')
  /\ List.filter (fun q => negb (String.eqb (Quiz.id q) quizId && Store.quiz_owned uid q))
                 (quizzes db')
     = List.filter (fun q => negb (String.eqb (Quiz.id q) quizId && Store.quiz_owned uid q))
                   (quizzes db)
  /\ map (fun q => (Quiz.id q, Quiz.created_by q, Quiz.title q, Quiz.description q,
                    Quiz.category q, Quiz.created_at q, Quiz.total_questions q,
                    Quiz.total_attempts q, Quiz.average_score q)) (quizzes db')
     = map (fun q => (Quiz.id q, Quiz.created_by q, Quiz.title q, Quiz.description q,
                      Quiz.category q, Quiz.created_at q, Quiz.total_questions q,
                      Quiz.total_attempts q, Quiz.average_score q)) (quizzes db)
  /\ profiles db' = profiles db
  /\ questions db' = questions db
  /\ quiz_attempts db' = quiz_attempts db
  /\ (currentStatus = true ->
      Forall (fun q => Quiz.id q = quizId -> Quiz.created_by q = uid) (quizzes db) ->
      forall qr pr qsr viewer user,
        TakeQuiz.quiz (fst (TakeQuizUI.fetchQuizData qr pr qsr viewer quizId
                              (TakeQuizUI.initial user) db')) = None).
Proof.
  cbv zeta. unfold MyQuizzes.togglePublishStatus. simpl negb. cbv iota. cbn [fst].
  unfold Store.update_quiz. cbn [profiles quizzes questions quiz_attempts].
  split; [|split; [|split; [|split; [reflexivity|split; [reflexivity|split; [reflexivity|]]]]]].
  - rewrite List.Forall_map. apply List.Forall_forall. intros q _.
    destruct (String.eqb (Quiz.id q) quizId && Store.quiz_owned uid q) eqn:Hc.
    + simpl. intros _ _. reflexivity.
    + intros Hid Hown. exfalso. unfold Store.quiz_owned in Hc.
      rewrite Hid, Hown, !String.eqb_refl in Hc. discriminate.
  - apply (filter_map_update
             (fun q => String.eqb (Quiz.id q) quizId && Store.quiz_owned uid q)).
    intros q. reflexivity.
  - rewrite map_map. apply map_ext. intros q.
    destruct (String.eqb (Quiz.id q) quizId && Store.quiz_owned uid q); reflexivity.
  - intros -> Hall qr pr qsr viewer user.
    unfold TakeQuizUI.fetchQuizData. destruct qr; [|reflexivity]. simpl negb. cbv iota.
    replace (TakeQuizUI.select_published_quiz viewer quizId _) with
      (@inl PgError Quiz.t NotSingleRow); [reflexivity|].
    unfold TakeQuizUI.select_published_quiz. cbn [quizzes].
    rewrite filter_none; [reflexivity|].
    rewrite List.Forall_map. apply List.Forall_forall. intros q Hq.
    rewrite List.Forall_forall in Hall. specialize (Hall q Hq).
    destruct (String.eqb (Quiz.id q) quizId && Store.quiz_owned uid q) eqn:Hc.
    + simpl. rewrite andb_false_r. reflexivity.
    + destruct (String.eqb (Quiz.id q) quizId) eqn:Hid.
      * apply String.eqb_eq in Hid. specialize (Hall Hid).
        unfold Store.quiz_owned in Hc. rewrite Hall, String.eqb_refl in Hc.
        discriminate.
      * rewrite andb_false_r. reflexivity.
Qed.

Lemma toggle_sets_publication_witness :
  TakeQuiz.quiz (fst (TakeQuizUI.fetchQuizData true true true "u2" "quiz-1"
                        (TakeQuizUI.initial (Some (TakeQuiz.mkUser "u2")))
                        (fst (MyQuizzes.togglePublishStatus 1751200000 true "u1" "quiz-1"
                                true Sample.db)))) = None.
Proof.
  destruct (toggle_sets_publication 1751200000 "u1" "quiz-1" true Sample.db)
    as (_ & _ & _ & _ & _ & _ & Hgone).
  apply Hgone; [reflexivity|]. repeat constructor.
Defined.

(** ** Keys and references *)

Section IntegrityFacts.

Local Open Scope Z_scope.

Lemma filter_true {A : Type} (l : list A) : List.filter (fun _ => true) l = l.
Proof. induction l as [|x l IH]; simpl; [reflexivity|]. rewrite IH. reflexivity. Qed.

Lemma not_In_existsb_id {A : Type} (f : A -> string) (x : string) (l : list A) :
  existsb (fun y => String.eqb (f y) x) l = false -> ~ In x (map f l).
Proof.
  intros Hex Hin. apply in_map_iff in Hin as (y & Hy & Hin).
  assert (existsb (fun y0 => String.eqb (f y0) x) l = true); [|congruence].
  apply existsb_exists. exists y. split; [exact Hin|]. apply String.eqb_eq, Hy.
Qed.

(** A store made of the old profiles, of quiz rows with distinct ids, and
    of some of the old questions and attempts together with new ones keeps
    its keys and references when the new rows have fresh ids and every
    kept or new row refers to a quiz that is there. *)
Lemma ok_rebuilt db db' pq newq pa newa :
  Integrity.ok db ->
  profiles db' = profiles db ->
  NoDup (Integrity.quiz_ids db') ->
  questions db' = List.filter pq (questions db) ++ newq ->
  quiz_attempts db' = List.filter pa (quiz_attempts db) ++ newa ->
  NoDup (map Question.id newq) ->
  Forall (fun qn => ~ In (Question.id qn) (map Question.id (List.filter pq (questions db))))
         newq ->
  NoDup (map Attempt.id newa) ->
  Forall (fun a => ~ In (Attempt.id a) (map Attempt.id (List.filter pa (quiz_attempts db))))
         newa ->
  Forall (fun qn => In (Question.quiz_id qn) (Integrity.quiz_ids db'))
         (List.filter pq (questions db) ++ newq) ->
  Forall (fun a => In (Attempt.quiz_id a) (Integrity.quiz_ids db'))
         (List.filter pa (quiz_attempts db) ++ newa) ->
  Forall (fun a => In (Attempt.user_id a) (map Profile.id (profiles db))) newa ->
  Integrity.ok db'.
Proof.
  intros (Hq & Hqn & Ha & _ & _ & Hu) Hprof Hquiz Hqs Has Hnq Hfq Hna Hfa Hrq Hra Hru.
  unfold Integrity.ok. rewrite Hqs, Has, Hprof.
  split; [exact Hquiz|]. split; [|split; [|split; [exact Hrq|split; [exact Hra|]]]].
  - rewrite map_app. apply NoDup_app. split; [apply NoDup_map_filter, Hqn|].
    split; [|exact Hnq]. intros x Hx Hx'. apply list_elem_of_In in Hx, Hx'.
    apply in_map_iff in Hx' as (qn & <- & Hin).
    rewrite List.Forall_forall in Hfq. exact (Hfq qn Hin Hx).
  - rewrite map_app. apply NoDup_app. split; [apply NoDup_map_filter, Ha|].
    split; [|exact Hna]. intros x Hx Hx'. apply list_elem_of_In in Hx, Hx'.
    apply in_map_iff in Hx' as (a & <- & Hin).
    rewrite List.Forall_forall in Hfa. exact (Hfa a Hin Hx).
  - apply Forall_app. split; [|exact Hru].
    apply List.Forall_forall. intros a Hin. apply filter_In in Hin as [Hin _].
    rewrite List.Forall_forall in Hu. apply Hu, Hin.
Qed.

(** The special case of the same questions and attempts over quiz rows
    with the same ids. *)
Lemma ok_same_rows db db' :
  Integrity.ok db ->
  profiles db' = profiles db ->
  Integrity.quiz_ids db' = Integrity.quiz_ids db ->
  questions db' = questions db ->
  quiz_attempts db' = quiz_attempts db ->
  Integrity.ok db'.
Proof.
  intros Hok Hp Hq Hqs Has. destruct Hok as (H1 & H2 & H3 & H4 & H5 & H6).
  unfold Integrity.ok. rewrite Hp, Hq, Hqs, Has. repeat split; assumption.
Qed.

Lemma update_quiz_stats_ids now quiz_id s db :
  Integrity.quiz_ids (update_quiz_stats now quiz_id s db) = Integrity.quiz_ids db.
Proof.
  rewrite update_quiz_stats_eq. destruct (countable quiz_id db); [|reflexivity].
  unfold Integrity.quiz_ids. simpl. rewrite map_map. apply map_ext. intros q.
  destruct (String.eqb (Quiz.id q) quiz_id); reflexivity.
Qed.

Lemma update_quiz_ids now uid quiz_id f db :
  (forall q, Quiz.id (f q) = Quiz.id q) ->
  Integrity.quiz_ids (Store.update_quiz now uid quiz_id f db) = Integrity.quiz_ids db.
Proof.
  intros Hf. unfold Integrity.quiz_ids, Store.update_quiz. simpl. rewrite map_map.
  apply map_ext. intros q. destruct (_ && _); [simpl; apply Hf|reflexivity].
Qed.

Lemma insert_fk env auth_uid v db db1 a :
  insert_quiz_attempt env auth_uid v db = inr (db1, a) ->
  In (ins_quiz_id v) (Integrity.quiz_ids db)
  /\ In (ins_user_id v) (map Profile.id (profiles db)).
Proof.
  unfold insert_quiz_attempt.
  destruct (insert_reachable env); simpl; [|discriminate].
  destruct (json_int4 (ins_score v)) as [e|[z|]]; [discriminate| |];
    (destruct (Rls.attempt_insertable _ _); simpl; [|discriminate]); [|discriminate].
  destruct (existsb _ (quiz_attempts db)); [discriminate|].
  destruct (existsb _ (quizzes db)) eqn:Hq; simpl; [|discriminate].
  destruct (existsb _ (profiles db)) eqn:Hp; simpl; [|discriminate].
  intros _. split.
  - apply existsb_exists in Hq as (q & Hq & Hid). apply String.eqb_eq in Hid.
    apply in_map_iff. exists q. split; assumption.
  - apply existsb_exists in Hp as (p & Hp & Hid). apply String.eqb_eq in Hid.
    apply in_map_iff. exists p. split; assumption.
Qed.

Lemma ok_insert_attempt env auth_uid v db db1 a :
  Integrity.ok db ->
  insert_quiz_attempt env auth_uid v db = inr (db1, a) ->
  Integrity.ok db1.
Proof.
  intros Hok Hins.
  destruct (insert_inv _ _ _ _ _ _ Hins) as (z & _ & _ & Hpk & Ha & Hdb1).
  destruct (insert_fk _ _ _ _ _ _ Hins) as [Hfq Hfu].
  pose proof Hok as (_ & _ & _ & Hrq & Hra & _).
  apply (ok_rebuilt db db1 (fun _ => true) [] (fun _ => true) [a]); try exact Hok;
    rewrite ?filter_true, ?app_nil_r; subst db1; try reflexivity.
  - apply Hok.
  - constructor.
  - constructor.
  - repeat constructor. intros H. apply list_elem_of_In in H. contradiction.
  - repeat constructor. apply not_In_existsb_id. rewrite Ha. exact Hpk.
  - exact Hrq.
  - apply Forall_app. split; [exact Hra|]. repeat constructor. rewrite Ha. exact Hfq.
  - repeat constructor. rewrite Ha. exact Hfu.
Qed.

Lemma ok_submit env st db :
  Integrity.ok db -> Integrity.ok (fst (TakeQuiz.handleSubmitQuiz env st db)).
Proof.
  intros Hok. unfold TakeQuiz.handleSubmitQuiz.
  destruct (TakeQuiz.user st) as [u|]; [|exact Hok].
  destruct (TakeQuiz.quiz st) as [q|]; [|exact Hok].
  destruct (insert_quiz_attempt _ _ _ db) as [e|[db1 a]] eqn:Hins; [exact Hok|].
  pose proof (ok_insert_attempt _ _ _ _ _ _ Hok Hins) as Hok1.
  destruct (rpc_update_quiz_stats _ _ _ db1) as [db2 err] eqn:Hcall. simpl.
  unfold rpc_update_quiz_stats in Hcall.
  destruct (rpc_reachable env); simpl in Hcall; [|congruence].
  destruct (json_int4 _) as [e|arg]; [congruence|].
  pose proof (update_quiz_stats_eq (now env) (TakeQuiz.id q) 0 db1) as Hupd.
  unfold update_quiz_stats in Hupd. unfold call_update_quiz_stats in Hcall, Hupd.
  destruct (countable (TakeQuiz.id q) db1); [|congruence].
  injection Hcall as <- _.
  apply (ok_same_rows db1); [exact Hok1|reflexivity| | |]; reflexivity || idtac.
  unfold Integrity.quiz_ids. simpl. rewrite map_map. apply map_ext. intros q0.
  destruct (String.eqb (Quiz.id q0) (TakeQuiz.id q)); reflexivity.
Qed.

Lemma ok_delete_questions uid quizId db :
  Integrity.ok db -> Integrity.ok (Store.delete_questions uid quizId db).
Proof.
  intros Hok. pose proof Hok as (Hq & _ & _ & Hrq & Hra & _).
  apply (ok_rebuilt db _
           (fun qn => negb (String.eqb (Question.quiz_id qn) quizId
                            && Store.question_writable db uid (Question.quiz_id qn)))
           [] (fun _ => true) []); try exact Hok;
    rewrite ?filter_true, ?app_nil_r; try reflexivity; try constructor.
  - exact Hq.
  - apply List.Forall_forall. intros qn Hqn. apply filter_In in Hqn as [Hqn _].
    rewrite List.Forall_forall in Hrq. apply Hrq, Hqn.
  - exact Hra.
Qed.

Lemma ok_delete_quiz uid quizId db :
  Integrity.ok db -> Integrity.ok (Store.delete_quiz uid quizId db).
Proof.
  intros Hok. pose proof Hok as (Hq & _ & _ & Hrq & Hra & _).
  rewrite delete_quiz_spec.
  destruct (Store.question_writable db uid quizId) eqn:Hw.
  - assert (Hkept : forall id, In id (Integrity.quiz_ids db) -> id <> quizId ->
              In id (map Quiz.id
                       (List.filter (fun q => negb (String.eqb (Quiz.id q) quizId
                                                    && Store.quiz_owned uid q))
                                    (quizzes db)))).
    { intros id Hin Hne. apply in_map_iff in Hin as (q & Hid & Hin).
      apply in_map_iff. exists q. split; [exact Hid|]. apply filter_In.
      split; [exact Hin|]. apply String.eqb_neq in Hne. rewrite Hid, Hne. reflexivity. }
    apply (ok_rebuilt db _
             (fun qn => negb (String.eqb (Question.quiz_id qn) quizId)) []
             (fun a => negb (String.eqb (Attempt.quiz_id a) quizId)) []);
      try exact Hok; rewrite ?app_nil_r; try reflexivity; try constructor.
    + apply NoDup_map_filter, Hq.
    + apply List.Forall_forall. intros qn Hqn. apply filter_In in Hqn as [Hqn Hne].
      apply negb_true_iff, String.eqb_neq in Hne.
      rewrite List.Forall_forall in Hrq. apply Hkept; [apply Hrq, Hqn|exact Hne].
    + apply List.Forall_forall. intros a Ha. apply filter_In in Ha as [Ha Hne].
      apply negb_true_iff, String.eqb_neq in Hne.
      rewrite List.Forall_forall in Hra. apply Hkept; [apply Hra, Ha|exact Hne].
  - rewrite (not_writable_not_doomed db uid quizId Hw).
    apply (ok_same_rows db); [exact Hok|reflexivity..].
Qed.

Lemma ok_update_quiz now uid quiz_id f db :
  (forall q, Quiz.id (f q) = Quiz.id q) ->
  Integrity.ok db -> Integrity.ok (Store.update_quiz now uid quiz_id f db).
Proof.
  intros Hf Hok.
  apply (ok_same_rows db); [exact Hok|reflexivity|apply update_quiz_ids, Hf| |];
    reflexivity.
Qed.

Lemma ok_insert_questions uid rows db db' :
  Integrity.ok db -> Store.insert_questions uid rows db = inr db' -> Integrity.ok db'.
Proof.
  intros Hok Hins. pose proof Hok as (Hq & _ & _ & Hrq & Hra & _).
  destruct (insert_questions_inv _ _ _ _ Hins) as (Hw & Hnd & Hfresh & ->).
  apply (ok_rebuilt db _ (fun _ => true) rows (fun _ => true) []); try exact Hok;
    rewrite ?filter_true, ?app_nil_r; try reflexivity; try constructor.
  - exact Hq.
  - exact Hnd.
  - exact Hfresh.
  - apply Forall_app. split; [exact Hrq|].
    apply List.Forall_forall. intros qn Hqn.
    rewrite forallb_forall in Hw. specialize (Hw qn Hqn).
    apply question_writable_owned in Hw as (q & Hin & Hid & _).
    apply in_map_iff. exists q. split; assumption.
  - exact Hra.
Qed.

Lemma ok_save trim env isPublished st db :
  Integrity.ok db -> Integrity.ok (fst (EditQuiz.saveQuiz trim env isPublished st db)).
Proof.
  intros Hok. unfold EditQuiz.saveQuiz.
  destruct (EditQuiz.user st) as [u|]; [|exact Hok].
  destruct (EditQuiz.quiz st) as [q|]; [|exact Hok].
  destruct (_ || _); [exact Hok|].
  destruct (length (EditQuiz.validQuestions trim st) =? 0)%nat; [exact Hok|].
  destruct (EditQuiz.update_reachable env); simpl negb; cbv iota; [|exact Hok].
  assert (Hok1 : Integrity.ok
            (Store.update_quiz (EditQuiz.now env) (TakeQuiz.user_id u) (Quiz.id q)
               (EditQuiz.edited trim st isPublished
                  (length (EditQuiz.validQuestions trim st))) db))
    by (apply ok_update_quiz; [reflexivity|exact Hok]).
  destruct (EditQuiz.delete_reachable env); simpl negb; cbv iota; [|exact Hok1].
  pose proof (ok_delete_questions (TakeQuiz.user_id u) (Quiz.id q) _ Hok1) as Hok2.
  destruct (EditQuiz.insert_reachable env); simpl negb; cbv iota; [|exact Hok2].
  destruct (Store.insert_questions _ _ _) as [e|db3] eqn:Hins; [exact Hok2|].
  exact (ok_insert_questions _ _ _ _ Hok2 Hins).
Qed.

Lemma ok_delete confirmed q_up a_up quiz_up uid quizId db :
  Integrity.ok db ->
  Integrity.ok (fst (MyQuizzes.deleteQuiz confirmed q_up a_up quiz_up uid quizId db)).
Proof.
  intros Hok. unfold MyQuizzes.deleteQuiz.
  destruct confirmed; simpl negb; cbv iota; [|exact Hok].
  destruct q_up; simpl negb; cbv iota; [|exact Hok].
  pose proof (ok_delete_questions uid quizId db Hok) as Hok1.
  destruct a_up; simpl negb; cbv iota; [|exact Hok1].
  unfold Store.delete_attempts.
  destruct quiz_up; simpl negb; cbv iota; [|exact Hok1].
  apply ok_delete_quiz, Hok1.
Qed.

Lemma ok_write w db : Integrity.ok db -> Integrity.ok (Integrity.write w db).
Proof.
  intros Hok. destruct w; simpl.
  - apply ok_submit, Hok.
  - apply (ok_same_rows db);
      [exact Hok|apply update_keeps_profiles|apply update_quiz_stats_ids
      |apply update_keeps_questions|apply update_keeps_attempts].
  - apply ok_save, Hok.
  - apply ok_delete, Hok.
  - unfold MyQuizzes.togglePublishStatus. destruct reachable; [|exact Hok].
    apply ok_update_quiz; [reflexivity|exact Hok].
Qed.

End IntegrityFacts.

(** X23. The keys and references of the schema hold after every sequence
    of writes of the application (submissions, statistics calls, saves of
    the editor, deletions and publication toggles, each succeeding, failing
    or stopping half-way): quiz, question and attempt ids stay unique,
    every question and every attempt refers to a quiz that exists, and
    every attempt to a profile that exists. *)
Theorem writes_keep_integrity (ws : list Integrity.Write) (db : DB) :
  Integrity.ok db -> Integrity.ok (Integrity.writes ws db).
Proof.
  revert db. induction ws as [|w ws IH]; intros db Hok; [exact Hok|].
  simpl. apply IH, ok_write, Hok.
Qed.

Lemma writes_keep_integrity_witness :
  Integrity.ok (Integrity.writes Sample2.some_writes Sample.db).
Proof.
  apply (writes_keep_integrity Sample2.some_writes Sample.db).
  unfold Integrity.ok.
  repeat split; try (apply (bool_decide_unpack _); vm_compute; exact I).
Defined.

(** The sample writes leave the profiles and nothing else: the quiz, its
    questions and both attempts are gone after the deletion. *)
Example sample_writes_end :
  Integrity.writes Sample2.some_writes Sample.db = mkDB (profiles Sample.db) [] [] [].
Proof. vm_compute. reflexivity. Qed.

(** ** The leaderboard's entries, continued *)

(** X24. Every entry of the leaderboard sums up the attempts of its user
    inside the window: total_score is the sum of their scores, quiz_count
    their number, which is at least 1, and average_score is [AVG] over
    them, that is total_score divided by quiz_count and rounded to the
    scale of the division (16 decimal places or more when the scores are
    percentages), exactly the quotient when that has no more decimal
    places; the name shown is the full_name of the profile of that
    user. *)
Theorem leaderboard_entry_sums_up (time_filter : string) (now : timestamptz) (db : DB) :
  Forall (fun e =>
            let scores := scores_in_window time_filter now db (Leaderboard.user_id e) in
            let scale := Numeric.select_div_scale (Leaderboard.total_score e)
                                                  (Leaderboard.quiz_count e) in
            let quotient := (inject_Z (Leaderboard.total_score e)
                             / inject_Z (Leaderboard.quiz_count e))%Q in
            Leaderboard.total_score e = Sql.SUM scores
            /\ Leaderboard.quiz_count e = Z.of_nat (length scores)
            /\ 1 <= Leaderboard.quiz_count e
            /\ (exists avg, Leaderboard.average_score e = Some avg
                            /\ Numeric.rounded scale quotient avg
                            /\ ((Leaderboard.total_score e * 10 ^ scale)
                                mod Leaderboard.quiz_count e = 0 ->
                                (avg == quotient)%Q)
                            /\ (Forall (fun s => 0 <= s <= 100) scores -> 16 <= scale))
            /\ (exists p, In p (profiles db) /\ Profile.id p = Leaderboard.user_id e
                          /\ Profile.full_name p = Leaderboard.full_name e))
         (Leaderboard.get_user_leaderboard time_filter now db).
Proof.
  apply List.Forall_forall. intros e He.
  destruct (board_entry _ _ _ _ He) as (Hu & Hp & Ht & Hc & Ha).
  pose proof (scores_in_window_nonempty _ _ _ _ Hu) as Hne.
  cbv zeta. split; [exact Ht|]. split; [exact Hc|]. split; [|split; [|exact Hp]].
  - rewrite Hc. unfold Sql.COUNT.
    destruct (scores_in_window time_filter now db (Leaderboard.user_id e));
      [congruence|simpl length; lia].
  - destruct (AVG_rounded _ Hne) as (avg & Havg & Hround & Hexact).
    unfold Stats.mean in Hround, Hexact. rewrite <- Ht, <- Hc in Hround, Hexact.
    exists avg. split; [congruence|]. split; [exact Hround|]. split; [exact Hexact|].
    rewrite Ht, Hc. apply percent_scale, Hne.
Qed.

Lemma leaderboard_entry_sums_up_witness :
  exists e rest avg,
    Leaderboard.get_user_leaderboard "all" 1751173925 Sample.leaderboard_db = e :: rest
    /\ Leaderboard.total_score e = 300
    /\ Leaderboard.average_score e = Some avg
    /\ (avg == 100)%Q.
Proof.
  pose proof (leaderboard_entry_sums_up "all" 1751173925 Sample.leaderboard_db) as H.
  destruct (Leaderboard.get_user_leaderboard "all" 1751173925 Sample.leaderboard_db)
    as [|e rest] eqn:Hlb; [vm_compute in Hlb; discriminate|].
  inversion H as [|? ? He _]; subst. cbv zeta in He.
  destruct He as (_ & _ & _ & (avg & Ha & _ & Hexact & _) & _).
  vm_compute in Hlb. injection Hlb as <- <-.
  eexists _, _, avg. split; [reflexivity|]. split; [reflexivity|]. split; [exact Ha|].
  etransitivity; [apply Hexact; vm_compute; reflexivity|vm_compute; reflexivity].
Defined.

(** X25. Who is on the board: a user has an entry exactly when the user
    has an attempt inside the window and a profile; and when profile ids
    are distinct, as the primary key has it, nobody has two entries. *)
Theorem leaderboard_membership (time_filter : string) (now : timestamptz) (db : DB) :
  (forall u,
     In u (map Leaderboard.user_id (Leaderboard.get_user_leaderboard time_filter now db))
     <-> In u (map Attempt.user_id (Leaderboard.windowed time_filter now db))
         /\ In u (map Profile.id (profiles db)))
  /\ (NoDup (map Profile.id (profiles db)) ->
      NoDup (map Leaderboard.user_id
                 (Leaderboard.get_user_leaderboard time_filter now db))).
Proof.
  split; [intros u; apply board_users|].
  - intros Hnd.
    rewrite (Permutation_map _ (leaderboard_perm time_filter now db)).
    unfold Leaderboard.ranked. rewrite map_map. cbn [Leaderboard.user_id].
    rewrite (Permutation_map _ (sort_by_perm _ _)).
    unfold Leaderboard.joined, Leaderboard.user_scores.
    set (users := remove_dups _).
    assert (Husers : NoDup users) by apply NoDup_remove_dups.
    clearbody users. induction users as [|u users IH]; [constructor|].
    apply NoDup_cons in Husers as [Hu Husers].
    cbn [map flat_map]. rewrite map_app. apply NoDup_app.
    split; [|split; [|apply IH, Husers]].
    + rewrite map_map. cbn [fst Leaderboard.us_user_id].
      clear IH. induction (profiles db) as [|p ps IHp]; [constructor|].
      apply NoDup_cons in Hnd as [Hp Hps]. simpl.
      destruct (String.eqb u (Profile.id p)) eqn:E; [|apply IHp, Hps].
      simpl. apply NoDup_cons. split; [|apply IHp, Hps].
      intros Hin. apply list_elem_of_In, in_map_iff in Hin as (p' & _ & Hp').
      apply filter_In in Hp' as [Hp' E']. apply String.eqb_eq in E, E'.
      apply Hp, list_elem_of_In, in_map_iff. exists p'. split; [congruence|exact Hp'].
    + intros x Hx Hx'. apply list_elem_of_In in Hx, Hx'.
      rewrite map_map in Hx. apply in_map_iff in Hx as (p & <- & _).
      cbn [fst Leaderboard.us_user_id] in Hx'.
      apply in_map_iff in Hx' as ([us' p'] & Hus & Hin). simpl in Hus.
      apply in_flat_map in Hin as (us'' & Hin & Hin').
      apply in_map_iff in Hin' as (p'' & Heq & _). injection Heq as <- <-.
      apply in_map_iff in Hin as (u' & <- & Hu'). simpl in Hus. subst u'.
      apply Hu, list_elem_of_In, Hu'.
Qed.

Lemma leaderboard_membership_witness :
  NoDup (map Leaderboard.user_id
             (Leaderboard.get_user_leaderboard "all" 1751173925 Sample.leaderboard_db)).
Proof.
  destruct (leaderboard_membership "all" 1751173925 Sample.leaderboard_db) as [_ Hnd].
  apply Hnd. apply (bool_decide_unpack _). vm_compute. exact I.
Defined.

Section TopFacts.

Local Open Scope Z_scope.

Lemma board_rank time_filter now db :
  let lb := Leaderboard.get_user_leaderboard time_filter now db in
  Forall (fun e => Leaderboard.rank e
                   = Leaderboard.count_greater (map Leaderboard.total_score lb)
                                               (Leaderboard.total_score e) + 1) lb.
Proof.
  intros lb.
  assert (Hperm : Permutation lb (Leaderboard.ranked (Leaderboard.joined time_filter now db)))
    by apply leaderboard_perm.
  apply (Permutation_Forall (Permutation_sym Hperm)).
  eapply List.Forall_impl; [|apply ranked_rank].
  intros e He. simpl in He. rewrite He. f_equal.
  apply count_greater_perm, Permutation_map, Permutation_sym, Hperm.
Qed.

Lemma filter_length_lt {A : Type} (p : A -> bool) (l : list A) (x : A) :
  In x l -> p x = false -> (length (List.filter p l) < length l)%nat.
Proof.
  induction l as [|y l IH]; [contradiction|]. intros [->|Hin] Hp; simpl.
  - rewrite Hp. pose proof (List.filter_length_le p l). lia.
  - specialize (IH Hin Hp). destruct (p y); simpl; lia.
Qed.

Lemma ranked_has_first rows :
  rows <> [] -> exists e, In e (Leaderboard.ranked rows) /\ Leaderboard.rank e = 1.
Proof.
  intros Hne. unfold Leaderboard.ranked.
  set (sorted := Sql.sort_by _ rows).
  assert (Hlen : length sorted = length rows)
    by (apply Permutation_length, sort_by_perm).
  destruct sorted as [|r sorted'] eqn:Hs.
  - destruct rows; [congruence|discriminate].
  - eexists. split; [left; reflexivity|]. simpl. unfold Leaderboard.RANK. simpl.
    rewrite Z.eqb_refl. reflexivity.
Qed.

End TopFacts.

(** X26. A time filter other than 'month' and 'week' (the page sends
    'all') puts no bound on the attempts: the board is the board of all
    attempts, also of those whose completed_at is NULL; and the attempts
    of the 'month' and 'week' boards are among them. *)
Theorem other_filters_mean_all (time_filter : string) (now : timestamptz) (db : DB) :
  time_filter <> "month" -> time_filter <> "week" ->
  Leaderboard.windowed time_filter now db = quiz_attempts db
  /\ Leaderboard.get_user_leaderboard time_filter now db
     = Leaderboard.get_user_leaderboard "all" now db
  /\ Forall (fun a => In a (Leaderboard.windowed time_filter now db))
            (Leaderboard.windowed "month" now db ++ Leaderboard.windowed "week" now db).
Proof.
  intros Hm Hw.
  assert (Hall : forall tf, tf <> "month" -> tf <> "week" ->
                            Leaderboard.windowed tf now db = quiz_attempts db).
  { intros tf H1 H2. unfold Leaderboard.windowed. apply filter_all, List.Forall_forall.
    intros a _. unfold Leaderboard.in_window.
    apply String.eqb_neq in H1, H2. rewrite H1, H2. reflexivity. }
  split; [apply Hall; assumption|]. split.
  - unfold Leaderboard.get_user_leaderboard, Leaderboard.joined, Leaderboard.user_scores.
    rewrite (Hall time_filter Hm Hw).
    rewrite (Hall "all") by discriminate. reflexivity.
  - rewrite Hall by assumption. apply List.Forall_forall. intros a Ha.
    apply in_app_iff in Ha as [Ha|Ha]; apply filter_In in Ha; tauto.
Qed.

Lemma other_filters_mean_all_witness :
  Leaderboard.get_user_leaderboard "year" 1751173925 Sample.db_with_old
  = Leaderboard.get_user_leaderboard "all" 1751173925 Sample.db_with_old.
Proof.
  destruct (other_filters_mean_all "year" 1751173925 Sample.db_with_old) as (_ & H & _).
  - discriminate.
  - discriminate.
  - exact H.
Defined.

(** X27. Ranks start at 1 and stay within the size of the board: every
    rank lies between 1 and the number of entries, and on a non-empty
    board the first entry has rank 1 and a total_score that no entry
    exceeds. *)
Theorem leaderboard_top (time_filter : string) (now : timestamptz) (db : DB) :
  let lb := Leaderboard.get_user_leaderboard time_filter now db in
  Forall (fun e => 1 <= Leaderboard.rank e <= Z.of_nat (length lb)) lb
  /\ match lb with
     | [] => True
     | top :: _ =>
         Leaderboard.rank top = 1
         /\ Forall (fun e => Leaderboard.total_score e <= Leaderboard.total_score top) lb
     end.
Proof.
  intros lb. pose proof (board_rank time_filter now db) as Hrank. fold lb in Hrank.
  assert (Hbounds : Forall (fun e => 1 <= Leaderboard.rank e <= Z.of_nat (length lb)) lb).
  { apply List.Forall_forall. intros e He.
    rewrite List.Forall_forall in Hrank. rewrite (Hrank e He).
    unfold Leaderboard.count_greater.
    assert (H : (length (List.filter (fun t' => Z.ltb (Leaderboard.total_score e) t')
                                     (map Leaderboard.total_score lb))
                 < length (map Leaderboard.total_score lb))%nat).
    { apply (filter_length_lt _ _ (Leaderboard.total_score e)).
      - apply in_map, He.
      - apply Z.ltb_irrefl. }
    rewrite length_map in H. lia. }
  split; [exact Hbounds|].
  destruct lb as [|top rest] eqn:Hlb; [exact I|].
  assert (Hsorted : StronglySorted (fun a b => Leaderboard.rank a <= Leaderboard.rank b) lb).
  { subst lb. apply StronglySorted_leb.
    apply (sort_by_sorted (fun a b => Leaderboard.rank a <=? Leaderboard.rank b)).
    - intros a b. destruct (Z.le_ge_cases (Leaderboard.rank a) (Leaderboard.rank b));
        [left|right]; apply Z.leb_le; assumption.
    - intros a b c Hab Hbc. apply Z.leb_le in Hab, Hbc. apply Z.leb_le. lia. }
  assert (Hfirst : exists e, In e lb /\ Leaderboard.rank e = 1).
  { destruct (ranked_has_first (Leaderboard.joined time_filter now db)) as (e & He & Hr).
    - intros Hnil. assert (Hl : length lb = 0%nat).
      { subst lb. rewrite (Permutation_length (leaderboard_perm _ _ _)).
        unfold Leaderboard.ranked. rewrite length_map.
        rewrite (Permutation_length (sort_by_perm _ _)), Hnil. reflexivity. }
      rewrite Hlb in Hl. discriminate.
    - exists e. split; [|exact Hr]. subst lb. apply board_In, He. }
  rewrite Hlb in Hsorted, Hfirst.
  assert (Htop : Leaderboard.rank top = 1).
  { destruct Hfirst as (e & [<-|He] & Hr); [exact Hr|].
    inversion Hsorted as [|? ? _ Hall]; subst.
    rewrite List.Forall_forall in Hall. specialize (Hall e He).
    inversion Hbounds as [|? ? Htop _]; subst. lia. }
  split; [exact Htop|].
  inversion Hrank as [|? ? Hr _]; subst. rewrite Htop in Hr.
  unfold Leaderboard.count_greater in Hr.
  assert (Hnil : List.filter (fun t' => Leaderboard.total_score top <? t')
                             (map Leaderboard.total_score (top :: rest)) = []).
  { destruct (List.filter _ _); [reflexivity|simpl in Hr; lia]. }
  apply List.Forall_forall. intros e He.
  destruct (Z.le_gt_cases (Leaderboard.total_score e) (Leaderboard.total_score top))
    as [Hle|Hgt]; [exact Hle|].
  assert (Hin : In (Leaderboard.total_score e)
                   (List.filter (fun t' => Leaderboard.total_score top <? t')
                                (map Leaderboard.total_score (top :: rest)))).
  { apply filter_In. split; [apply in_map, He|apply Z.ltb_lt; lia]. }
  rewrite Hnil in Hin. contradiction.
Qed.
